(** * H5Coro: a shallow embedding of the range-oriented HDF5 reader

    The definitions below follow [H5FileBuffer] and [H5Coro] of the
    reader's implementation file.  Fixed-width C integers are carried as
    [Z] with their wrap-around written out, C++ exceptions as the [Throw]
    case of [result], and operations the language leaves undefined
    (division by zero, out-of-bounds copies) as [Undefined]. *)

From Stdlib Require Import ZArith List Bool String Ascii Lia.
Import ListNotations.
Open Scope Z_scope.

(** ** Machine integers *)

Module Int.

Definition u64 (z : Z) : Z := z mod 2 ^ 64.
Definition s64 (z : Z) : Z := (z + 2 ^ 63) mod 2 ^ 64 - 2 ^ 63.
Definition u32 (z : Z) : Z := z mod 2 ^ 32.
Definition s32 (z : Z) : Z := (z + 2 ^ 31) mod 2 ^ 32 - 2 ^ 31.

Definition in_u64 (z : Z) : Prop := 0 <= z < 2 ^ 64.
Definition in_s64 (z : Z) : Prop := - 2 ^ 63 <= z < 2 ^ 63.
Definition in_s32 (z : Z) : Prop := - 2 ^ 31 <= z < 2 ^ 31.

End Int.

Import Int.

(** ** Exceptions and undefined behaviour *)

(** One constructor per [RunTimeException] message of the reader. *)
Inductive error : Type :=
| InvalidUrl                      (* "Invalid url: %s" *)
| FailedToOpenResource            (* "failed to open resource" *)
| InvalidS3Url                    (* "invalid S3 url: %s" *)
| FailedToSeek (pos : Z)          (* "failed to go to I/O position: 0x%lx" *)
| FailedToReadAtLeast (size got : Z) (* "failed to read at least %ld bytes of data: %ld" *)
| MissingDataType                 (* "missing data type information" *)
| ReadExceedsRows (startrow numrows first_dimension : Z)
                                  (* "read exceeds number of rows: %d + %d > %d" *)
| DataNotAllocated                (* "data not allocated in contiguous layout" *)
| ReadExceedsAvailable            (* "read exceeds available data: %d != %d" *)
| FiltersUnsupported              (* "filters unsupported on non-chunked layouts" *)
| ChunkElementSizeMismatch        (* "chunk element size does not match data element size" *)
| InvalidChunkElements            (* "invalid number of chunk elements: %ld" *)
| InvalidDataLayout               (* "invalid data layout: %d" *)
| InvalidLocationToReadData       (* "invalid location to read data: %ld, %lu" *)
| InvalidLocationToReadChunk      (* "invalid location to read chunk: %ld, %lu" *)
| NoBytesOfChunkData              (* "no bytes of chunk data to read: %ld, %lu" *)
| InvalidShuffleSize (type_size : Z) (* "invalid data size to perform shuffle on: %d" *)
| TruncatedMetaUrl                (* "truncated meta repository url: %s" *)
| DataTranslationFailed           (* "data translation failed for %s: ..." *)
| FailedToReadDataset             (* "failed to read dataset: %s" *)
| ParseFailure (code : Z)         (* an exception of the header walk or of the
                                     chunk B-tree walk, by a code for its message *)
| Rethrown (e : error) (dataset : string). (* "%s (%s)", e.what(), dataset *)

Inductive result (A : Type) : Type :=
| Ok (a : A)
| Throw (e : error)
| Undefined.

Arguments Ok {A} a.
Arguments Throw {A} e.
Arguments Undefined {A}.

Definition is_ok {A} (r : result A) : bool :=
  match r with Ok _ => true | _ => false end.

Definition bind {A B} (r : result A) (k : A -> result B) : result B :=
  match r with
  | Ok a => k a
  | Throw e => Throw e
  | Undefined => Undefined
  end.

Notation "x <- r ;; k" := (bind r (fun x => k))
  (at level 61, r at next level, right associativity).

(** Raw bytes of a file range or of an output buffer. *)
Definition buffer_t : Type := list Byte.byte.

Definition zlen {A} (l : list A) : Z := Z.of_nat (List.length l).

(** [new uint8_t [n]]: the contents are indeterminate and stand as zero
    bytes. *)
Definition new_uint8 (n : Z) : buffer_t := repeat Byte.x00 (Z.to_nat n).

(** ** Table: the bounded, hash-indexed container of both caches and of
       the metadata repository *)

Module Table.

Section Table.

Context {T : Type}.

(** Modelled from the spec: the [Table] class template ([cache_t],
    [meta_repo_t]) is declared outside the implementation file.  The spec
    gives a bounded map over [u64] keys, hash-indexed, whose first
    enumerated entry is the oldest inserted one.  [nodes] keeps the
    entries oldest first. *)
Record t : Type := mk {
  capacity : nat;
  hash : Z -> Z;
  nodes : list (Z * T)
}.

Definition empty (n : nat) (h : Z -> Z) : t := mk n h [].

Definition length (tb : t) : nat := List.length (nodes tb).

(** Modelled from the spec: "if full" for a bounded map. *)
Definition isfull (tb : t) : bool := (capacity tb <=? length tb)%nat.

(** Modelled from the spec: "the first entry enumerated", which is the
    oldest inserted entry.  The source compares the returned key with
    INVALID_KEY, the answer for an empty table; that answer is [None]. *)
Definition first (tb : t) : option (Z * T) := hd_error (nodes tb).

Definition without (k : Z) (l : list (Z * T)) : list (Z * T) :=
  filter (fun p => negb (fst p =? k)) l.

(** Modelled from the spec: removal of the entry stored under a key. *)
Definition remove (k : Z) (tb : t) : t :=
  mk (capacity tb) (hash tb) (without k (nodes tb)).

(** Modelled from the spec: "insert the new entry keyed by pos" into a
    bounded map; a second insert under the same key supersedes the first
    and an insert into a full map is refused. *)
Definition add (k : Z) (v : T) (tb : t) : t :=
  let others := without k (nodes tb) in
  if (capacity tb <=? List.length others)%nat then tb
  else mk (capacity tb) (hash tb) (others ++ [(k, v)]).

(** Modelled from the spec: MATCH_EXACTLY, the entry stored under the key. *)
Definition find_exactly (k : Z) (tb : t) : option T :=
  option_map snd (List.find (fun p => fst p =? k) (nodes tb)).

Definition nearer (h : Z -> Z) (k : Z) (best : option (Z * T)) (p : Z * T)
  : option (Z * T) :=
  if (h (fst p) =? h k) && (fst p <=? k) then
    match best with
    | Some b => if fst b <? fst p then Some p else best
    | None => Some p
    end
  else best.

(** Modelled from the spec: MATCH_NEAREST_UNDER, the entry of the key's
    hash slot (its cache line) with the greatest key not above the one
    looked up. *)
Definition find_nearest_under (k : Z) (tb : t) : option T :=
  option_map snd (fold_left (nearer (hash tb) k) (nodes tb) None).



End Table.

Arguments t : clear implicits.

End Table.

(** ** Ranged I/O cache *)

Inductive io_driver_t : Type := FILE | S3 | UNKNOWN.

Module cache_entry_t.
Record t : Type := mk {
  data : buffer_t;
  pos : Z;     (* uint64_t *)
  size : Z     (* int64_t *)
}.
End cache_entry_t.

Definition cache_t : Type := Table.t cache_entry_t.t.

Record io_context_t : Type := {
  l1 : cache_t;
  l2 : cache_t;
  read_rqsts : Z;
  bytes_read : Z
}.

(** The I/O context together with two logs kept for reasoning: every
    call of [ioRead] as (position, size), and every buffer handed to
    [delete []]. *)
Record io_state : Type := {
  ioContext : io_context_t;
  io_reads : list (Z * Z);
  freed : list buffer_t
}.

(** What [ioRequest] hands back: the buffer the returned pointer points
    into, the offset of the pointer in it, the advanced position and the
    [cached] flag. *)
Record io_reply : Type := {
  rp_buffer : buffer_t;
  rp_offset : Z;
  rp_pos : Z;
  rp_cached : bool
}.

Section IO.

(** Configuration constants of the class declaration. *)
Variables IO_CACHE_L1_LINESIZE IO_CACHE_L1_MASK IO_CACHE_L2_MASK : Z.
Variables IO_CACHE_L1_ENTRIES IO_CACHE_L2_ENTRIES : nat.

(** The byte backends: [fseek] and [fread] of the C library on the open
    file, and the object store's ranged GET.  Each read answers with the
    count of bytes read and the bytes. *)
Variable fseek_ok : Z -> bool.
Variable fread : Z -> Z -> Z * buffer_t.
Variable rangeGet : Z -> Z -> Z * buffer_t.
Variable aws : bool.  (* compiled with __aws__ *)

Definition ioHashL1 (key : Z) : Z := Z.land key (Z.lnot IO_CACHE_L1_MASK).
Definition ioHashL2 (key : Z) : Z := Z.land key (Z.lnot IO_CACHE_L2_MASK).

(** [io_context_t::io_context_t] *)
Definition io_context_new : io_context_t :=
  {| l1 := Table.empty IO_CACHE_L1_ENTRIES ioHashL1;
     l2 := Table.empty IO_CACHE_L2_ENTRIES ioHashL2;
     read_rqsts := 0;
     bytes_read := 0 |}.

(** [H5FileBuffer::ioRead]: the count of bytes read and the contents of
    the [size] bytes the caller allocated. *)
Definition ioRead (ioDriver : io_driver_t) (size pos : Z)
  : result (Z * buffer_t) :=
  match ioDriver with
  | FILE => if fseek_ok pos then Ok (fread pos size) else Throw (FailedToSeek pos)
  | S3 => if aws then Ok (rangeGet pos size) else Ok (0, new_uint8 size)
  | UNKNOWN => Ok (0, new_uint8 size)
  end.

(** [H5FileBuffer::ioCheckCache]; [Some entry] is the source's [true]
    with [*entry] filled. *)
Definition ioCheckCache (size pos : Z) (cache : cache_t) (line_mask : Z)
  : option cache_entry_t.t :=
  let prev_line_pos := u64 (Z.land pos (Z.lnot line_mask) - 1) in
  let check_prev := pos >? prev_line_pos in
  let found :=
    match Table.find_nearest_under pos cache with
    | Some e => Some e
    | None =>
        if check_prev then Table.find_nearest_under prev_line_pos cache
        else None
    end in
  match found with
  | Some entry =>
      if (pos >=? cache_entry_t.pos entry) &&
         (u64 (pos + size) <=? u64 (cache_entry_t.pos entry + cache_entry_t.size entry))
      then Some entry else None
  | None => None
  end.

(** The probe of L1 then L2 under the mutex. *)
Definition ioProbe (size file_position : Z) (ctx : io_context_t)
  : option cache_entry_t.t :=
  match ioCheckCache size file_position ctx.(l1) IO_CACHE_L1_MASK with
  | Some e => Some e
  | None => ioCheckCache size file_position ctx.(l2) IO_CACHE_L2_MASK
  end.

(** Room for one entry: the oldest entry leaves a full cache and its
    data is deleted. *)
Definition ioEnsureRoom (cache : cache_t) (fr : list buffer_t)
  : cache_t * list buffer_t :=
  if Table.isfull cache then
    match Table.first cache with
    | Some (oldest_pos, oldest_entry) =>
        (Table.remove oldest_pos cache, fr ++ [cache_entry_t.data oldest_entry])
    | None => (cache, fr)
    end
  else (cache, fr).

(** The insertion of a freshly read entry, under the mutex. *)
Definition ioInsert (file_position : Z) (entry : cache_entry_t.t)
  (ctx : io_context_t) (fr : list buffer_t) : io_context_t * list buffer_t :=
  let use_l1 := cache_entry_t.size entry <=? IO_CACHE_L1_LINESIZE in
  let cache := if use_l1 then ctx.(l1) else ctx.(l2) in
  let '(roomy, fr') := ioEnsureRoom cache fr in
  let cache' := Table.add file_position entry roomy in
  ({| l1 := if use_l1 then cache' else ctx.(l1);
      l2 := if use_l1 then ctx.(l2) else cache';
      read_rqsts := ctx.(read_rqsts) + 1;
      bytes_read := ctx.(bytes_read) + cache_entry_t.size entry |}, fr').

(** [H5FileBuffer::ioRequest] *)
Definition ioRequest (ioDriver : io_driver_t) (size file_position hint : Z)
  (st : io_state) : result io_reply * io_state :=
  match ioProbe size file_position st.(ioContext) with
  | Some entry =>
      (Ok {| rp_buffer := cache_entry_t.data entry;
             rp_offset := s64 (file_position - cache_entry_t.pos entry);
             rp_pos := u64 (file_position + size);
             rp_cached := false |}, st)
  | None =>
      let read_size := Z.max size hint in
      let st1 := {| ioContext := st.(ioContext);
                    io_reads := st.(io_reads) ++ [(file_position, read_size)];
                    freed := st.(freed) |} in
      match ioRead ioDriver read_size file_position with
      | Ok (n, d) =>
          let entry := cache_entry_t.mk d file_position n in
          if n <? size then (Throw (FailedToReadAtLeast size n), st1)
          else
            let '(ctx', fr') := ioInsert file_position entry st.(ioContext) st.(freed) in
            (Ok {| rp_buffer := d;
                   rp_offset := 0;
                   rp_pos := u64 (file_position + size);
                   rp_cached := true |},
             {| ioContext := ctx'; io_reads := st1.(io_reads); freed := fr' |})
      | Throw e => (Throw e, st1)
      | Undefined => (Undefined, st1)
      end
  end.



End IO.

(** ** Dataset metadata and per-read results *)

Inductive data_type_t : Type :=
| FIXED_POINT_TYPE | FLOATING_POINT_TYPE | TIME_TYPE | STRING_TYPE
| BIT_FIELD_TYPE | OPAQUE_TYPE | COMPOUND_TYPE | REFERENCE_TYPE
| ENUMERATED_TYPE | VARIABLE_LENGTH_TYPE | ARRAY_TYPE | UNKNOWN_TYPE.

Inductive layout_t : Type :=
| COMPACT_LAYOUT | CONTIGUOUS_LAYOUT | CHUNKED_LAYOUT | UNKNOWN_LAYOUT.

Inductive filter_t : Type := DEFLATE_FILTER | SHUFFLE_FILTER.

(** [RecordObject::valType_t] *)
Inductive valType_t : Type := INTEGER | REAL | TEXT | DYNAMIC.

Module meta_entry_t.
Record t : Type := mk {
  url : string;
  type : data_type_t;
  typesize : Z;
  fill : buffer_t;          (* the bytes of fill.fill_ll *)
  fillsize : Z;
  ndims : Z;
  dimensions : list Z;      (* uint64_t each *)
  chunkelements : Z;
  elementsize : Z;
  offsetsize : Z;
  lengthsize : Z;
  layout : layout_t;
  address : Z;              (* uint64_t *)
  size : Z;
  filter : filter_t -> bool
}.
End meta_entry_t.

Module dataset_info_t.
Record t : Type := mk {
  elements : Z;
  typesize : Z;
  datasize : Z;
  data : option buffer_t;   (* [None] is the NULL pointer *)
  datatype : valType_t;
  numrows : Z;
  numcols : Z
}.
End dataset_info_t.

Definition meta_repo_t : Type := Table.t meta_entry_t.t.

(** Modelled from the spec: "num_rows = ALL_ROWS (-1) means all rows";
    the constant is declared outside the implementation file. *)
Definition ALL_ROWS : Z := -1.

(** [LocalLib::copy (&dst[off], &src[soff], n)]; a copy that leaves
    either array is undefined. *)
Definition copy_into (dst : buffer_t) (off : Z) (src : buffer_t) (soff n : Z)
  : result buffer_t :=
  if (0 <=? off) && (0 <=? soff) && (0 <=? n) &&
     (off + n <=? zlen dst) && (soff + n <=? zlen src)
  then Ok (firstn (Z.to_nat off) dst
           ++ firstn (Z.to_nat n) (skipn (Z.to_nat soff) src)
           ++ skipn (Z.to_nat (off + n)) dst)
  else Undefined.

(** The [n] bytes of a buffer from offset [off] on. *)
Definition bytes_at (l : buffer_t) (off n : Z) : buffer_t :=
  firstn (Z.to_nat n) (skipn (Z.to_nat off) l).

(** ** readDataset *)

(** The row size loop: [row_size *= dimensions[d]] for [1 <= d < ndims]. *)
Definition row_size_of (metaData : meta_entry_t.t) : Z :=
  fold_left (fun row_size d => u64 (row_size * nth d (meta_entry_t.dimensions metaData) 0))
            (seq 1 (Z.to_nat (meta_entry_t.ndims metaData) - 1))
            (u64 (meta_entry_t.typesize metaData)).

(** The size of a row in the words of the spec: [type_size] times the
    product of [dimensions[1 .. n_dims-1]]. *)
Definition row_size_spec (metaData : meta_entry_t.t) : Z :=
  meta_entry_t.typesize metaData *
  fold_right Z.mul 1
    (map (fun d => nth d (meta_entry_t.dimensions metaData) 0)
         (seq 1 (Z.to_nat (meta_entry_t.ndims metaData) - 1))).

Definition first_dimension_of (metaData : meta_entry_t.t) : Z :=
  if meta_entry_t.ndims metaData >? 0
  then nth 0 (meta_entry_t.dimensions metaData) 0 else 0.

(** What the first part of [readDataset] settles: the row count, the row
    size, the size of the output and the output buffer. *)
Record rows_t : Type := {
  rs_numrows : Z;           (* datasetNumRows after the call *)
  rs_row_size : Z;
  rs_buffer_size : Z;
  rs_buffer : option buffer_t
}.

(** [readDataset] up to the allocation of the data buffer. *)
Definition readDataset_rows (metaData : meta_entry_t.t)
  (datasetStartRow datasetNumRows : Z) : result rows_t :=
  if meta_entry_t.typesize metaData <=? 0 then Throw MissingDataType
  else
    let row_size := row_size_of metaData in
    let first_dimension := first_dimension_of metaData in
    let datasetNumRows :=
      if datasetNumRows =? ALL_ROWS then s64 first_dimension
      else datasetNumRows in
    if u64 (datasetStartRow + datasetNumRows) >? first_dimension
    then Throw (ReadExceedsRows datasetStartRow datasetNumRows first_dimension)
    else
      let buffer_size := s64 (row_size * datasetNumRows) in
      Ok {| rs_numrows := datasetNumRows;
            rs_row_size := row_size;
            rs_buffer_size := buffer_size;
            rs_buffer := if buffer_size >? 0
                         then Some (new_uint8 buffer_size) else None |}.

(** The fill loop: [fillsize] bytes of the fill value at every multiple
    of [fillsize] below [buffer_size]. *)
Fixpoint fill_loop (count : nat) (i : Z) (fill : buffer_t) (fillsize : Z)
  (buffer : buffer_t) : result buffer_t :=
  match count with
  | O => Ok buffer
  | S count' =>
      b <- copy_into buffer i fill 0 fillsize ;;
      fill_loop count' (i + fillsize) fill fillsize b
  end.

Definition fill_buffer (metaData : meta_entry_t.t) (buffer_size : Z)
  (buffer : buffer_t) : result buffer_t :=
  let fillsize := meta_entry_t.fillsize metaData in
  if fillsize >? 0 then
    fill_loop (Z.to_nat ((buffer_size + fillsize - 1) / fillsize)) 0
              (meta_entry_t.fill metaData) fillsize buffer
  else Ok buffer.

Definition valType_of (ty : data_type_t) : valType_t :=
  match ty with
  | FIXED_POINT_TYPE => INTEGER
  | FLOATING_POINT_TYPE => REAL
  | STRING_TYPE => TEXT
  | _ => DYNAMIC
  end.

Definition numcols_of (metaData : meta_entry_t.t) : Z :=
  let ndims := meta_entry_t.ndims metaData in
  if ndims =? 0 then 0
  else if ndims =? 1 then 1
  else if ndims >=? 2 then nth 1 (meta_entry_t.dimensions metaData) 0
  else 0.

(** [H5_INVALID] at the width of [address]. *)
Definition H5_INVALID (address : Z) : bool := address =? 2 ^ 64 - 1.

(** The checks made under [errorChecking] before the dataset is read. *)
Definition readDataset_checks (metaData : meta_entry_t.t)
  (buffer_offset buffer_size : Z) : result unit :=
  if H5_INVALID (meta_entry_t.address metaData) then Throw DataNotAllocated
  else if negb (meta_entry_t.size metaData =? 0) &&
          (meta_entry_t.size metaData <? s64 (s64 buffer_offset + buffer_size))
  then Throw ReadExceedsAvailable
  else if (meta_entry_t.filter metaData DEFLATE_FILTER ||
           meta_entry_t.filter metaData SHUFFLE_FILTER) &&
          match meta_entry_t.layout metaData with
          | COMPACT_LAYOUT | CONTIGUOUS_LAYOUT => true
          | _ => false
          end
  then Throw FiltersUnsupported
  else Ok tt.

(** ** State and exceptions together

    What a parser of the reader answers: a value, an exception raised
    inside the parser, kept by a code for its message, or undefined
    behaviour. *)
Inductive parsed (A : Type) : Type :=
| Parsed (a : A)
| ParseThrow (code : Z)
| ParseUndefined.

Arguments Parsed {A} a.
Arguments ParseThrow {A} code.
Arguments ParseUndefined {A}.

Definition of_parsed {A} (p : parsed A) : result A :=
  match p with
  | Parsed a => Ok a
  | ParseThrow code => Throw (ParseFailure code)
  | ParseUndefined => Undefined
  end.

Definition M (A : Type) : Type := io_state -> result A * io_state.

Definition ret {A} (a : A) : M A := fun st => (Ok a, st).

Definition lift {A} (r : result A) : M A := fun st => (r, st).

Definition parse {A} (p : io_state -> parsed A * io_state) : M A :=
  fun st => (of_parsed (fst (p st)), snd (p st)).

Definition bindM {A B} (m : M A) (k : A -> M B) : M B :=
  fun st =>
    match m st with
    | (Ok a, st') => k a st'
    | (Throw e, st') => (Throw e, st')
    | (Undefined, st') => (Undefined, st')
    end.

Notation "x <~ m ;; k" := (bindM m (fun x => k))
  (at level 61, m at next level, right associativity).

(** ** Chunk location in readBTreeV1 *)

Record btree_node_t : Type := {
  chunk_size : Z;       (* uint32_t *)
  filter_mask : Z;      (* uint32_t *)
  slice : list Z;       (* uint64_t each *)
  row_key : Z
}.

(** Where a chunk goes: the offset into the data buffer, the offset into
    the chunk buffer and the count of bytes to move. *)
Record chunk_copy_t : Type := {
  buffer_index : Z;
  chunk_index : Z;
  chunk_bytes : Z
}.

(** "Calculate Chunk Location": the sum over the dimensions of
    [slice[i] * typesize * dimensions[i+1] * ... * dimensions[ndims-1]]. *)
Definition chunk_offset_of (metaData : meta_entry_t.t) (curr_node : btree_node_t) : Z :=
  let ndims := Z.to_nat (meta_entry_t.ndims metaData) in
  fold_left
    (fun chunk_offset i =>
       let slice_size :=
         fold_left
           (fun slice_size j => u64 (slice_size * nth j (meta_entry_t.dimensions metaData) 0))
           (seq (i + 1) (ndims - (i + 1)))
           (u64 (nth i curr_node.(slice) 0 * meta_entry_t.typesize metaData)) in
       u64 (chunk_offset + slice_size))
    (seq 0 ndims) 0.

(** The leaf branch of [readBTreeV1] from "Calculate Chunk Location" to
    "Calculate Chunk Bytes". *)
Definition readBTreeV1_leaf (metaData : meta_entry_t.t) (curr_node : btree_node_t)
  (buffer_size buffer_offset dataChunkBufferSize : Z) : result chunk_copy_t :=
  let chunk_offset := chunk_offset_of metaData curr_node in
  buffer_index <-
    (if chunk_offset >? buffer_offset then
       let buffer_index := u64 (chunk_offset - buffer_offset) in
       if buffer_index >=? buffer_size then Throw InvalidLocationToReadData
       else Ok buffer_index
     else Ok 0) ;;
  chunk_index <-
    (if buffer_offset >? chunk_offset then
       let chunk_index := u64 (buffer_offset - chunk_offset) in
       if s64 chunk_index >=? dataChunkBufferSize then Throw InvalidLocationToReadChunk
       else Ok chunk_index
     else Ok 0) ;;
  let chunk_bytes := s64 (dataChunkBufferSize - chunk_index) in
  if chunk_bytes <? 0 then Throw NoBytesOfChunkData
  else if u64 (buffer_index + chunk_bytes) >? buffer_size
  then Ok {| buffer_index := buffer_index;
             chunk_index := chunk_index;
             chunk_bytes := s64 (buffer_size - buffer_index) |}
  else Ok {| buffer_index := buffer_index;
             chunk_index := chunk_index;
             chunk_bytes := chunk_bytes |}.

(** ** shuffleChunk *)

(** The bytes [input[src_index]] of the de-shuffle loop in the order they
    are written; [None] when an index leaves the input. *)
Fixpoint gather (input : buffer_t) (src_indices : list Z) : option buffer_t :=
  match src_indices with
  | [] => Some []
  | i :: rest =>
      if i <? 0 then None
      else match nth_error input (Z.to_nat i), gather input rest with
           | Some b, Some bs => Some (b :: bs)
           | _, _ => None
           end
  end.

Definition zrange (start count : Z) : list Z :=
  map (fun k => start + Z.of_nat k) (seq 0 (Z.to_nat count)).

(** [H5FileBuffer::shuffleChunk]; [input_size], [output_offset] and
    [output_size] are [uint32_t], so [type_size] is converted to unsigned
    in the three divisions. *)
Definition shuffleChunk (errorChecking : bool) (input : buffer_t) (input_size : Z)
  (output : buffer_t) (output_offset output_size type_size : Z) : result buffer_t :=
  if errorChecking && ((type_size <? 0) || (type_size >? 8))
  then Throw (InvalidShuffleSize type_size)
  else if u32 type_size =? 0 then Undefined   (* integer division by zero *)
  else
    let shuffle_block_size := Z.quot input_size (u32 type_size) in
    let num_elements := Z.quot output_size (u32 type_size) in
    let start_element := Z.quot output_offset (u32 type_size) in
    let src_indices :=
      flat_map (fun element_index =>
                  map (fun val_index => val_index * shuffle_block_size + element_index)
                      (zrange 0 type_size))
               (zrange start_element num_elements) in
    match gather input src_indices with
    | Some bytes => copy_into output 0 bytes 0 (zlen bytes)
    | None => Undefined
    end.

(** ** Metadata repository *)

Definition slash : ascii := "/"%char.

(** The scan of [metaGetUrl] for the file name: the text after the last
    '/' of the resource. *)
Fixpoint filename_ptr (char_ptr filename : string) : string :=
  match char_ptr with
  | EmptyString => filename
  | String c rest =>
      filename_ptr rest (if Ascii.eqb c slash then rest else filename)
  end.

Definition dataset_name_ptr (dataset : string) : string :=
  match dataset with
  | String c rest => if Ascii.eqb c slash then rest else dataset
  | EmptyString => dataset
  end.

(** The bytes of the zeroed [MAX_META_FILENAME] buffer holding a url. *)
Definition url_byte (url : string) (i : nat) : Z :=
  match String.get i url with
  | Some c => Z.of_N (N_of_ascii c)
  | None => 0
  end.

(** The little-endian [uint64_t] at byte [i] of the buffer. *)
Definition url_word (url : string) (i : nat) : Z :=
  fold_right (fun b acc => url_byte url (i + b) + 256 * acc) 0 (seq 0 8).

Section MetaRepo.

Variable MAX_META_FILENAME : nat.

(** [H5FileBuffer::metaGetKey]: the wrapping sum of the words of the
    buffer. *)
Definition metaGetKey (url : string) : Z :=
  fold_left (fun key_value i => u64 (key_value + url_word url (8 * i)))
            (seq 0 ((MAX_META_FILENAME + 7) / 8)) 0.

(** [H5FileBuffer::metaGetUrl]; [StringLib::format] writes at most
    [MAX_META_FILENAME - 1] characters of "<file name>/<dataset>". *)
Definition metaGetUrl (resource dataset : string) : result string :=
  let url :=
    substring 0 (MAX_META_FILENAME - 1)
      (filename_ptr resource resource ++ String slash (dataset_name_ptr dataset)) in
  match String.get (MAX_META_FILENAME - 2) url with
  | Some c => if Ascii.eqb c zero then Ok url else Throw TruncatedMetaUrl
  | None => Ok url
  end.

(** Modelled from the spec: [StringLib::match], the comparison of the
    stored url "for exact equality". *)
Definition StringLib_match (a b : string) : bool := String.eqb a b.

(** "Check Meta Repository": the entry under the key counts only when its
    url matches. *)
Definition metaLookup (metaRepo : meta_repo_t) (meta_url : string)
  : option meta_entry_t.t :=
  match Table.find_exactly (metaGetKey meta_url) metaRepo with
  | Some metaData =>
      if StringLib_match (meta_entry_t.url metaData) meta_url
      then Some metaData else None
  | None => None
  end.

(** "Initialize Meta Data": every member but [dimensions] is reset;
    [dimensions] keeps what the lookup left there, the values of an entry
    found under the key, and is indeterminate, here empty, otherwise. *)
Definition metaInit (meta_url : string) (found : option meta_entry_t.t)
  : meta_entry_t.t :=
  meta_entry_t.mk meta_url UNKNOWN_TYPE 0 (repeat Byte.x00 8) 0 0
                  match found with
                  | Some stale => meta_entry_t.dimensions stale
                  | None => []
                  end
                  0 0 0 0 UNKNOWN_LAYOUT 0 0 (fun _ => false).

(** "Add to Meta Repository": the oldest entry leaves a full repository
    before the entry is added. *)
Definition metaPublish (metaRepo : meta_repo_t) (meta_url : string)
  (metaData : meta_entry_t.t) : meta_repo_t :=
  let roomy :=
    if Table.isfull metaRepo then
      match Table.first metaRepo with
      | Some (oldest, _) => Table.remove oldest metaRepo
      | None => metaRepo
      end
    else metaRepo in
  Table.add (metaGetKey meta_url) metaData roomy.

End MetaRepo.

(** ** The reader object and the public interface *)

Section Reader.

Variables IO_CACHE_L1_LINESIZE IO_CACHE_L1_MASK IO_CACHE_L2_MASK : Z.
Variables IO_CACHE_L1_ENTRIES IO_CACHE_L2_ENTRIES : nat.
Variable fseek_ok : Z -> bool.
Variable fread : Z -> Z -> Z * buffer_t.
Variable rangeGet : Z -> Z -> Z * buffer_t.
Variable aws : bool.

(** Further configuration constants of the class declaration. *)
Variable MAX_META_FILENAME : nat.
Variable IO_DEFAULT_HINT : Z.   (* the default of [ioRequest]'s [hint] *)

(** Element-wise conversion of a buffer of [elements] values of the given
    kind and width to [int] and to [double]. *)
Variable to_int : valType_t -> Z -> Z -> buffer_t -> buffer_t.
Variable to_double : valType_t -> Z -> Z -> buffer_t -> buffer_t.

(** The C library's [fopen], by resource. *)
Variable fopen_ok : string -> bool.

(** The header walk: [parseDataset], [readSuperblock] and [readObjHdr],
    which fill the metadata of the dataset of a resource. *)
Variable readHeaders :
  io_driver_t -> string -> string -> meta_entry_t.t ->
  io_state -> parsed meta_entry_t.t * io_state.

(** The chunk B-tree walk [readBTreeV1 (pos, buffer, buffer_size,
    buffer_offset)] with the chunk buffer size and the size hint of the
    object; it answers with the filled buffer. *)
Variable readBTreeV1 :
  io_driver_t -> meta_entry_t.t -> Z -> buffer_t -> Z -> Z -> Z -> Z ->
  io_state -> parsed buffer_t * io_state.

Let ioRequest :=
  ioRequest IO_CACHE_L1_LINESIZE IO_CACHE_L1_MASK IO_CACHE_L2_MASK
            fseek_ok fread rangeGet aws.

(** The layout dispatch of [readDataset], entered when the output is not
    empty. *)
Definition readDataset_layout (ioDriver : io_driver_t) (errorChecking : bool)
  (metaData : meta_entry_t.t) (buffer : buffer_t)
  (buffer_size buffer_offset : Z) : M buffer_t :=
  match meta_entry_t.layout metaData with
  | COMPACT_LAYOUT | CONTIGUOUS_LAYOUT =>
      let data_addr := u64 (meta_entry_t.address metaData + buffer_offset) in
      r <~ ioRequest ioDriver buffer_size data_addr IO_DEFAULT_HINT ;;
      lift (copy_into buffer 0 r.(rp_buffer) r.(rp_offset) buffer_size)
  | CHUNKED_LAYOUT =>
      _ <~ lift (if errorChecking then
                   if negb (meta_entry_t.elementsize metaData =? meta_entry_t.typesize metaData)
                   then Throw ChunkElementSizeMismatch
                   else if meta_entry_t.chunkelements metaData <=? 0
                   then Throw InvalidChunkElements
                   else Ok tt
                 else Ok tt) ;;
      let dataChunkBufferSize :=
        s64 (meta_entry_t.chunkelements metaData * meta_entry_t.typesize metaData) in
      dataSizeHint <~
        (if buffer_offset <? u64 buffer_size then
           r <~ ioRequest ioDriver 0 (meta_entry_t.address metaData)
                          (s64 (buffer_offset + buffer_size)) ;;
           ret (if r.(rp_cached) then IO_CACHE_L1_LINESIZE else buffer_size)
         else ret buffer_size) ;;
      parse (readBTreeV1 ioDriver metaData (meta_entry_t.address metaData) buffer
                         buffer_size buffer_offset dataChunkBufferSize dataSizeHint)
  | UNKNOWN_LAYOUT =>
      if errorChecking then lift (Throw InvalidDataLayout) else ret buffer
  end.

(** [H5FileBuffer::readDataset] *)
Definition readDataset (ioDriver : io_driver_t) (errorChecking : bool)
  (metaData : meta_entry_t.t) (datasetStartRow datasetNumRows : Z)
  : M dataset_info_t.t :=
  rows <~ lift (readDataset_rows metaData datasetStartRow datasetNumRows) ;;
  let buffer_size := rows.(rs_buffer_size) in
  buffer <~ lift (match rows.(rs_buffer) with
                  | Some b => b' <- fill_buffer metaData buffer_size b ;; Ok (Some b')
                  | None => Ok None
                  end) ;;
  let buffer_offset := u64 (rows.(rs_row_size) * datasetStartRow) in
  _ <~ lift (if errorChecking
             then readDataset_checks metaData buffer_offset buffer_size
             else Ok tt) ;;
  data <~ match buffer with
          | Some b =>
              b' <~ readDataset_layout ioDriver errorChecking metaData b
                                       buffer_size buffer_offset ;;
              ret (Some b')
          | None => ret None
          end ;;
  ret (dataset_info_t.mk
         (Z.quot buffer_size (meta_entry_t.typesize metaData))
         (meta_entry_t.typesize metaData)
         buffer_size
         data
         (valType_of (meta_entry_t.type metaData))
         rows.(rs_numrows)
         (numcols_of metaData)).

(** [StringLib::find] of a substring: the text from its first occurrence
    on, if any. *)
Definition StringLib_find (s sub : string) : option string :=
  match index 0 sub s with
  | Some n => Some (substring n (String.length s - n) s)
  | None => None
  end.

(** [H5FileBuffer::parseUrl]: the driver and the resource, the text after
    the first "//". *)
Definition parseUrl (url : string) : io_driver_t * string :=
  let resource :=
    match StringLib_find url "//" with
    | Some rptr => substring 2 (String.length rptr - 2) rptr
    | None => EmptyString
    end in
  match StringLib_find url "file://" with
  | Some _ => (FILE, resource)
  | None =>
      match StringLib_find url "s3://" with
      | Some _ => (S3, resource)
      | None => (UNKNOWN, resource)
      end
  end.

(** [H5FileBuffer::ioOpen] *)
Definition ioOpen (ioDriver : io_driver_t) (resource : string) : result unit :=
  match ioDriver with
  | FILE => if fopen_ok resource then Ok tt else Throw FailedToOpenResource
  | S3 =>
      if aws then
        match StringLib_find resource "/" with
        | Some _ => Ok tt
        | None => Throw InvalidS3Url
        end
      else Ok tt
  | UNKNOWN => Ok tt
  end.

(** The body of the [try] block of the constructor: the header walk
    unless the repository had the metadata, the read, and the
    publication of the metadata. *)
Definition H5FileBuffer_process (ioDriver : io_driver_t) (resource dataset : string)
  (meta_url : string) (startrow numrows : Z) (errorChecking : bool)
  (metaRepo : meta_repo_t) (st : io_state)
  : result dataset_info_t.t * meta_repo_t * io_state :=
  let '(parsed, st1) :=
    match metaLookup MAX_META_FILENAME metaRepo meta_url with
    | Some metaData => (Ok metaData, st)
    | None =>
        let found :=
          Table.find_exactly (metaGetKey MAX_META_FILENAME meta_url) metaRepo in
        parse (readHeaders ioDriver resource dataset (metaInit meta_url found)) st
    end in
  match parsed with
  | Ok metaData =>
      match readDataset ioDriver errorChecking metaData startrow numrows st1 with
      | (Ok info, st2) =>
          (Ok info, metaPublish MAX_META_FILENAME metaRepo meta_url metaData, st2)
      | (Throw e, st2) => (Throw e, metaRepo, st2)
      | (Undefined, st2) => (Undefined, metaRepo, st2)
      end
  | Throw e => (Throw e, metaRepo, st1)
  | Undefined => (Undefined, metaRepo, st1)
  end.

(** [H5FileBuffer::H5FileBuffer]: the filled [data_info], or the
    exception leaving the constructor. *)
Definition H5FileBuffer_new (context : option io_context_t) (url dataset : string)
  (startrow numrows : Z) (errorChecking : bool)
  (metaRepo : meta_repo_t) (st : io_state)
  : result dataset_info_t.t * meta_repo_t * io_state :=
  let '(ioDriver, resource) := parseUrl url in
  match ioDriver with
  | UNKNOWN => (Throw InvalidUrl, metaRepo, st)
  | _ =>
      match ioOpen ioDriver resource with
      | Ok _ =>
          let st0 :=
            {| ioContext :=
                 match context with
                 | Some c => c
                 | None => io_context_new IO_CACHE_L1_MASK IO_CACHE_L2_MASK
                                          IO_CACHE_L1_ENTRIES IO_CACHE_L2_ENTRIES
                 end;
               io_reads := st.(io_reads);
               freed := st.(freed) |} in
          match metaGetUrl MAX_META_FILENAME resource dataset with
          | Ok meta_url =>
              match H5FileBuffer_process ioDriver resource dataset meta_url
                      startrow numrows errorChecking metaRepo st0 with
              | (Throw e, repo', st') => (Throw (Rethrown e dataset), repo', st')
              | other => other
              end
          | Throw e => (Throw e, metaRepo, st0)
          | Undefined => (Undefined, metaRepo, st0)
          end
      | Throw e => (Throw e, metaRepo, st)
      | Undefined => (Undefined, metaRepo, st)
      end
  end.

(** The column loop of [H5Coro::read]: one [tbuf_col_size] piece per row. *)
Fixpoint column_loop (count : nat) (row col tbuf_row_size tbuf_col_size : Z)
  (data tbuf : buffer_t) : result buffer_t :=
  match count with
  | O => Ok tbuf
  | S count' =>
      let tbuf_offset := s32 (row * tbuf_col_size) in
      let data_offset := s32 (s32 (row * tbuf_row_size) + s64 (col * tbuf_col_size)) in
      tbuf' <- copy_into tbuf tbuf_offset data data_offset tbuf_col_size ;;
      column_loop count' (row + 1) col tbuf_row_size tbuf_col_size data tbuf'
  end.

(** "Perform Column Translation" *)
Definition column_translation (info : dataset_info_t.t) (data : buffer_t) (col : Z)
  : result (dataset_info_t.t * buffer_t) :=
  if dataset_info_t.numcols info >? 1 then
    let tbuf_size := s32 (Z.quot (dataset_info_t.datasize info) (dataset_info_t.numcols info)) in
    if dataset_info_t.numrows info =? 0 then Undefined   (* integer division by zero *)
    else
      let tbuf_row_size := s32 (Z.quot (dataset_info_t.datasize info) (dataset_info_t.numrows info)) in
      let tbuf_col_size := s32 (Z.quot tbuf_row_size (dataset_info_t.numcols info)) in
      tbuf <- column_loop (Z.to_nat (dataset_info_t.numrows info)) 0 col
                          tbuf_row_size tbuf_col_size data (new_uint8 tbuf_size) ;;
      Ok (dataset_info_t.mk
            (Z.quot (dataset_info_t.elements info) (dataset_info_t.numcols info))
            (dataset_info_t.typesize info)
            tbuf_size
            (Some tbuf)
            (dataset_info_t.datatype info)
            (dataset_info_t.numrows info)
            (dataset_info_t.numcols info), tbuf)
  else Ok (info, data).

(** The native types the two translations accept: [float] and [double],
    [uint8_t], [uint16_t], [uint32_t] and [uint64_t]. *)
Definition translatable (datatype : valType_t) (typesize : Z) : bool :=
  match datatype with
  | REAL => (typesize =? 4) || (typesize =? 8)
  | INTEGER => (typesize =? 1) || (typesize =? 2) || (typesize =? 4) || (typesize =? 8)
  | _ => false
  end.

(** "Perform Integer Type Translation" for [valtype] INTEGER and REAL;
    [sizeof(int)] is 4 and [sizeof(double)] is 8. *)
Definition type_translation (valtype : valType_t) (info : dataset_info_t.t)
  (data : buffer_t) : result dataset_info_t.t :=
  let elements := dataset_info_t.elements info in
  let datatype := dataset_info_t.datatype info in
  let typesize := dataset_info_t.typesize info in
  let switch (width : Z) (tbuf : buffer_t) :=
    if translatable datatype typesize
    then Ok (dataset_info_t.mk elements typesize (width * elements) (Some tbuf)
                               datatype (dataset_info_t.numrows info)
                               (dataset_info_t.numcols info))
    else Throw DataTranslationFailed in
  match valtype with
  | INTEGER => switch 4 (to_int datatype typesize elements data)
  | REAL => switch 8 (to_double datatype typesize elements data)
  | _ => Ok info
  end.

(** [H5Coro::read]; the reader object is built with error checking on. *)
Definition read (url datasetname : string) (valtype : valType_t)
  (col startrow numrows : Z) (context : option io_context_t)
  (metaRepo : meta_repo_t) (st : io_state)
  : result dataset_info_t.t * meta_repo_t * io_state :=
  match H5FileBuffer_new context url datasetname startrow numrows true metaRepo st with
  | (Ok info, repo', st') =>
      match dataset_info_t.data info with
      | Some data =>
          (selected <- column_translation info data col ;;
           type_translation valtype (fst selected) (snd selected), repo', st')
      | None => (Throw FailedToReadDataset, repo', st')
      end
  | other => other
  end.

(** [H5Coro::traverse]; the handler catches every exception of the
    constructor and logs it. *)
Definition traverse (url : string) (max_depth : Z) (start_group : string)
  (metaRepo : meta_repo_t) (st : io_state)
  : result bool * meta_repo_t * io_state :=
  let status := true in
  match H5FileBuffer_new None url start_group 0 0 true metaRepo st with
  | (Ok data_info, repo', st') =>
      (Ok status, repo',
       match dataset_info_t.data data_info with
       | Some d => {| ioContext := st'.(ioContext);
                      io_reads := st'.(io_reads);
                      freed := st'.(freed) ++ [d] |}
       | None => st'
       end)
  | (Throw e, repo', st') => (Ok status, repo', st')
  | (Undefined, repo', st') => (Undefined, repo', st')
  end.

End Reader.

(** ** A small configuration for concrete runs

    Line sizes, capacities and a backend chosen small enough to evaluate:
    a file whose byte at position [p] is [p mod 256], 16-byte L1 lines,
    one entry per cache, and two resources of the same file name in
    different directories, holding 2 x 2 datasets of 4-byte and of
    8-byte integers. *)

Module Demo.

Definition IO_CACHE_L1_LINESIZE : Z := 16.
Definition IO_CACHE_L1_MASK : Z := 15.
Definition IO_CACHE_L2_MASK : Z := 255.
Definition IO_CACHE_L1_ENTRIES : nat := 1.
Definition IO_CACHE_L2_ENTRIES : nat := 1.
Definition MAX_META_FILENAME : nat := 88.
Definition IO_DEFAULT_HINT : Z := 16.

Definition byte_of (z : Z) : Byte.byte :=
  match Byte.of_N (Z.to_N (z mod 256)) with
  | Some b => b
  | None => Byte.x00
  end.

Definition file_bytes (pos size : Z) : buffer_t :=
  map byte_of (zrange pos size).

Definition fseek_ok (pos : Z) : bool := true.
Definition fread (pos size : Z) : Z * buffer_t := (size, file_bytes pos size).
Definition rangeGet (pos size : Z) : Z * buffer_t := (size, file_bytes pos size).
Definition aws : bool := true.
Definition fopen_ok (resource : string) : bool := true.

Definition to_int (datatype : valType_t) (typesize elements : Z) (data : buffer_t)
  : buffer_t := new_uint8 (4 * elements).
Definition to_double (datatype : valType_t) (typesize elements : Z) (data : buffer_t)
  : buffer_t := new_uint8 (8 * elements).

Definition resource_a : string := "dirA/x.h5".
Definition resource_b : string := "dirB/x.h5".

(** The metadata the header walk finds for a resource. *)
Definition meta_of (resource url : string) : meta_entry_t.t :=
  meta_entry_t.mk url FIXED_POINT_TYPE
                  (if String.eqb resource resource_a then 4 else 8)
                  (repeat Byte.x00 8) 0 2 [2; 2] 0 0 8 8
                  CONTIGUOUS_LAYOUT 0 0 (fun _ => false).

Definition readHeaders (ioDriver : io_driver_t) (resource dataset : string)
  (metaData : meta_entry_t.t) (st : io_state)
  : parsed meta_entry_t.t * io_state :=
  (Parsed (meta_of resource (meta_entry_t.url metaData)), st).

Definition readBTreeV1 (ioDriver : io_driver_t) (metaData : meta_entry_t.t)
  (pos : Z) (buffer : buffer_t)
  (buffer_size buffer_offset dataChunkBufferSize dataSizeHint : Z) (st : io_state)
  : parsed buffer_t * io_state := (ParseThrow 0, st).

Definition ioRequest :=
  ioRequest IO_CACHE_L1_LINESIZE IO_CACHE_L1_MASK IO_CACHE_L2_MASK
            fseek_ok fread rangeGet aws.

Definition H5FileBuffer_new :=
  H5FileBuffer_new IO_CACHE_L1_LINESIZE IO_CACHE_L1_MASK IO_CACHE_L2_MASK
                   IO_CACHE_L1_ENTRIES IO_CACHE_L2_ENTRIES
                   fseek_ok fread rangeGet aws MAX_META_FILENAME IO_DEFAULT_HINT
                   fopen_ok readHeaders readBTreeV1.

Definition read :=
  read IO_CACHE_L1_LINESIZE IO_CACHE_L1_MASK IO_CACHE_L2_MASK
       IO_CACHE_L1_ENTRIES IO_CACHE_L2_ENTRIES
       fseek_ok fread rangeGet aws MAX_META_FILENAME IO_DEFAULT_HINT
       to_int to_double fopen_ok readHeaders readBTreeV1.

Definition traverse :=
  traverse IO_CACHE_L1_LINESIZE IO_CACHE_L1_MASK IO_CACHE_L2_MASK
           IO_CACHE_L1_ENTRIES IO_CACHE_L2_ENTRIES
           fseek_ok fread rangeGet aws MAX_META_FILENAME IO_DEFAULT_HINT
           fopen_ok readHeaders readBTreeV1.

(** An empty repository and a new context with empty logs. *)
Definition repo0 : meta_repo_t := Table.empty 4 (fun key => key).

Definition st0 : io_state :=
  {| ioContext := io_context_new IO_CACHE_L1_MASK IO_CACHE_L2_MASK
                                 IO_CACHE_L1_ENTRIES IO_CACHE_L2_ENTRIES;
     io_reads := [];
     freed := [] |}.

(** The state after a request for the 16 bytes at position 0. *)
Definition st1 : io_state := snd (ioRequest FILE 16 0 16 st0).

Definition entry0 : cache_entry_t.t := cache_entry_t.mk (file_bytes 0 16) 0 16.

(** A 1-D dataset of 10000 doubles in chunks of 1024, and the key of the
    chunk that starts at row 1024. *)
Definition meta_h : meta_entry_t.t :=
  meta_entry_t.mk "granule.h5/gt1l/h" FLOATING_POINT_TYPE 8 (repeat Byte.x00 8) 0
                  1 [10000] 1024 8 8 8 CHUNKED_LAYOUT 4096 0
                  (fun _ => true).

Definition node_1024 : btree_node_t :=
  {| chunk_size := 3000; filter_mask := 0; slice := [1024]; row_key := 1024 |}.

End Demo.

(** ** Further parts of the reader *)

(** *** highestBit and the peek of readDirectBlock *)

(** [H5FileBuffer::highestBit]: [while(value >>= 1) bit++].  The loop
    is run for at most [fuel] shifts; [None] is a loop that has not ended
    by then. *)
Fixpoint highestBit_loop (fuel : nat) (value bit : Z) : option Z :=
  match fuel with
  | O => None
  | S fuel' =>
      let value := Z.shiftr value 1 in
      if value =? 0 then Some bit
      else highestBit_loop fuel' value (bit + 1)
  end.

(** The argument is converted to [uint64_t]; 64 shifts empty it. *)
Definition highestBit (value : Z) : option Z :=
  highestBit_loop 64 (u64 value) 0.

(** "Peak if More Messages" of [readDirectBlock]:
    [MIN((1 << highestBit(data_left)), 8)], the shift being one of [int]. *)
Definition peak_size (data_left : Z) : result Z :=
  match highestBit data_left with
  | Some bit =>
      if bit <? 31 then Ok (Z.min (Z.shiftl 1 bit) 8)
      else Undefined          (* shift past the width of [int] *)
  | None => Undefined
  end.

(** *** The keys of readBTreeV1 *)

(** [data_key1] and [data_key2]: the first and the last requested row. *)
Definition data_key1_of (datasetStartRow : Z) : Z := u64 datasetStartRow.

Definition data_key2_of (datasetStartRow datasetNumRows : Z) : Z :=
  u64 (datasetStartRow + datasetNumRows - 1).

(** "Get Child Keys": the key after the last chunk has a chunk size of
    zero and stands for the end of the first dimension. *)
Definition child_key2_of (metaData : meta_entry_t.t) (next_node : btree_node_t) : Z :=
  if (next_node.(chunk_size) =? 0) && (meta_entry_t.ndims metaData >? 0)
  then nth 0 (meta_entry_t.dimensions metaData) 0
  else next_node.(row_key).

(** "Check Inclusion" *)
Definition check_inclusion (data_key1 data_key2 child_key1 child_key2 : Z) : bool :=
  ((data_key1 >=? child_key1) && (data_key1 <? child_key2)) ||
  ((data_key2 >=? child_key1) && (data_key2 <? child_key2)) ||
  ((child_key1 >=? data_key1) && (child_key1 <=? data_key2)) ||
  ((child_key2 >? data_key1) && (child_key2 <? data_key2)).

(** *** The shuffle filter *)

(** What the shuffle filter of the file format does to a chunk of
    elements of [type_size] bytes, the transformation [shuffleChunk]
    undoes: byte [v] of every element, element after element, for [v]
    from 0 on. *)
Definition shuffled (type_size : Z) (data : buffer_t) : buffer_t :=
  let elements := zlen data / type_size in
  flat_map (fun v => map (fun e => nth (Z.to_nat (e * type_size + v)) data Byte.x00)
                         (zrange 0 elements))
           (zrange 0 type_size).

(** *** C strings *)


Fixpoint has_slash (s : string) : bool :=
  match s with
  | EmptyString => false
  | String c rest => Ascii.eqb c slash || has_slash rest
  end.

(** *** The resource behind the cache *)

Section Backend.

Variable fseek_ok : Z -> bool.
Variable fread : Z -> Z -> Z * buffer_t.
Variable rangeGet : Z -> Z -> Z * buffer_t.
Variable aws : bool.

(** The bytes of the opened resource. *)
Variable contents : buffer_t.

(** A backend that reads the resource: the [n] bytes a read at [pos]
    delivers, if any, are the bytes the resource holds from [pos] on. *)
Definition reads_resource (ioDriver : io_driver_t) : Prop :=
  forall size pos n d,
    ioRead fseek_ok fread rangeGet aws ioDriver size pos = Ok (n, d) ->
    0 <= pos -> 0 < n ->
    pos + n <= zlen contents /\ bytes_at d 0 n = bytes_at contents pos n.

(** A cache entry that holds what the resource holds at its position. *)
Definition entry_holds (e : cache_entry_t.t) : Prop :=
  0 <= cache_entry_t.pos e /\ 0 <= cache_entry_t.size e /\
  cache_entry_t.pos e + cache_entry_t.size e < 2 ^ 64 /\
  (0 < cache_entry_t.size e ->
   cache_entry_t.pos e + cache_entry_t.size e <= zlen contents /\
   bytes_at (cache_entry_t.data e) 0 (cache_entry_t.size e)
   = bytes_at contents (cache_entry_t.pos e) (cache_entry_t.size e)).

Definition coherent (ctx : io_context_t) : Prop :=
  (forall k e, In (k, e) (Table.nodes ctx.(l1)) -> entry_holds e) /\
  (forall k e, In (k, e) (Table.nodes ctx.(l2)) -> entry_holds e).

End Backend.

(** The [size] bytes at the pointer [ioRequest] returned; [None] when
    they do not all lie in the buffer it points into. *)
Definition pointee (r : io_reply) (size : Z) : option buffer_t :=
  if (0 <=? r.(rp_offset)) && (0 <=? size) &&
     (r.(rp_offset) + size <=? zlen r.(rp_buffer))
  then Some (bytes_at r.(rp_buffer) r.(rp_offset) size)
  else None.

(** *** Field reader *)

(** The value of bytes stored least significant byte first. *)
Definition le_value (bytes : buffer_t) : Z :=
  fold_right (fun b acc => Z.of_N (Byte.to_N b) + 256 * acc) 0 bytes.

(** The exceptions of the parsers below, each with the code that stands
    for its message in [ParseFailure]. *)
Inductive parse_error : Type :=
| InvalidFieldSize                (* "invalid field size: %d" *)
| InvalidFileSignature            (* "invalid h5 file signature: 0x%llX" *)
| InvalidSuperblockVersion        (* "invalid h5 file superblock version: %d" *)
| InvalidFreeSpaceVersion         (* "invalid h5 file free space version: %d" *)
| InvalidRootTableVersion         (* "invalid h5 file root table version: %d" *)
| InvalidHeaderMessageVersion     (* "invalid h5 file header message version: %d" *)
| InvalidDataspaceVersion         (* "invalid dataspace version: %d" *)
| UnsupportedPermutationIndexes   (* "unsupported permutation indexes" *)
| UnsupportedNumberOfDimensions   (* "unsupported number of dimensions: %d" *)
| InvalidDatatypeVersion          (* "invalid datatype version: %d" *)
| UnsupportedDatatype             (* "unsupported datatype: %d" *)
| InvalidFillValueVersion         (* "invalid fill value version: %d" *)
| KeyWithoutTrailingZero.         (* "key did not include a trailing zero: %d" *)

Definition code_of (e : parse_error) : Z :=
  match e with
  | InvalidFieldSize => 1
  | InvalidFileSignature => 2
  | InvalidSuperblockVersion => 3
  | InvalidFreeSpaceVersion => 4
  | InvalidRootTableVersion => 5
  | InvalidHeaderMessageVersion => 6
  | InvalidDataspaceVersion => 7
  | UnsupportedPermutationIndexes => 8
  | UnsupportedNumberOfDimensions => 9
  | InvalidDatatypeVersion => 10
  | UnsupportedDatatype => 11
  | InvalidFillValueVersion => 12
  | KeyWithoutTrailingZero => 13
  end.

Definition throw {A} (e : parse_error) : M A :=
  lift (Throw (ParseFailure (code_of e))).

Definition u8 (z : Z) : Z := z mod 2 ^ 8.
Definition u16 (z : Z) : Z := z mod 2 ^ 16.

(** The bytes of a [uint64_t] in memory, least significant first. *)
Definition byte_of_Z (z : Z) : Byte.byte :=
  match Byte.of_N (Z.to_N (z mod 256)) with
  | Some b => b
  | None => Byte.x00
  end.

Fixpoint le_bytes (count : nat) (value : Z) : buffer_t :=
  match count with
  | O => []
  | S count' => byte_of_Z value :: le_bytes count' (value / 256)
  end.

(** Assignments to members of [metaData]. *)
Definition with_sizes (m : meta_entry_t.t) (offsetsize lengthsize : Z)
  : meta_entry_t.t :=
  meta_entry_t.mk (meta_entry_t.url m) (meta_entry_t.type m)
    (meta_entry_t.typesize m) (meta_entry_t.fill m) (meta_entry_t.fillsize m)
    (meta_entry_t.ndims m) (meta_entry_t.dimensions m)
    (meta_entry_t.chunkelements m) (meta_entry_t.elementsize m)
    offsetsize lengthsize
    (meta_entry_t.layout m) (meta_entry_t.address m) (meta_entry_t.size m)
    (meta_entry_t.filter m).

Definition with_dataspace (m : meta_entry_t.t) (ndims : Z) (dimensions : list Z)
  : meta_entry_t.t :=
  meta_entry_t.mk (meta_entry_t.url m) (meta_entry_t.type m)
    (meta_entry_t.typesize m) (meta_entry_t.fill m) (meta_entry_t.fillsize m)
    ndims dimensions
    (meta_entry_t.chunkelements m) (meta_entry_t.elementsize m)
    (meta_entry_t.offsetsize m) (meta_entry_t.lengthsize m)
    (meta_entry_t.layout m) (meta_entry_t.address m) (meta_entry_t.size m)
    (meta_entry_t.filter m).

Definition with_fill (m : meta_entry_t.t) (fill : buffer_t) (fillsize : Z)
  : meta_entry_t.t :=
  meta_entry_t.mk (meta_entry_t.url m) (meta_entry_t.type m)
    (meta_entry_t.typesize m) fill fillsize
    (meta_entry_t.ndims m) (meta_entry_t.dimensions m)
    (meta_entry_t.chunkelements m) (meta_entry_t.elementsize m)
    (meta_entry_t.offsetsize m) (meta_entry_t.lengthsize m)
    (meta_entry_t.layout m) (meta_entry_t.address m) (meta_entry_t.size m)
    (meta_entry_t.filter m).

Section Parsers.

Variables IO_CACHE_L1_LINESIZE IO_CACHE_L1_MASK IO_CACHE_L2_MASK : Z.
Variable fseek_ok : Z -> bool.
Variable fread : Z -> Z -> Z * buffer_t.
Variable rangeGet : Z -> Z -> Z * buffer_t.
Variable aws : bool.
Variable IO_DEFAULT_HINT : Z.

(** Further constants of the class declaration. *)
Variable H5_SIGNATURE_LE : Z.
Variable MAX_NDIMS : Z.

(** Members of the reader object. *)
Variable ioDriver : io_driver_t.
Variable errorChecking : bool.
Variable verbose : bool.

Let ioRequest' :=
  ioRequest IO_CACHE_L1_LINESIZE IO_CACHE_L1_MASK IO_CACHE_L2_MASK
            fseek_ok fread rangeGet aws ioDriver.

(** [H5FileBuffer::readByteArray]: the bytes copied to [data] and the
    advanced position. *)
Definition readByteArray (size pos : Z) : M (buffer_t * Z) :=
  r <~ ioRequest' size pos IO_DEFAULT_HINT ;;
  match pointee r size with
  | Some bytes => ret (bytes, r.(rp_pos))
  | None => lift Undefined
  end.

(** [H5FileBuffer::readField]: the value and the advanced position.  A
    failed [assert (size > 0)] ends the process where assertions are
    compiled in, and the [switch] throws for such a size where they are
    not; no value is returned either way, and the model stops at the
    assertion.  The loads through the casted pointer are taken as the
    host performs them, at any alignment; on a big-endian host the value
    is swapped, so it is the little-endian one on every host. *)
Definition readField (size pos : Z) : M (Z * Z) :=
  if size <=? 0 then lift Undefined
  else
    r <~ ioRequest' size pos IO_DEFAULT_HINT ;;
    if (size =? 8) || (size =? 4) || (size =? 2) || (size =? 1) then
      match pointee r size with
      | Some bytes => ret (le_value bytes, r.(rp_pos))
      | None => lift Undefined
      end
    else throw InvalidFieldSize.

(** [count] fields of one size in a row, as the loops over dimensions
    read them. *)
Fixpoint read_fields (count : nat) (size pos : Z) : M (list Z * Z) :=
  match count with
  | O => ret ([], pos)
  | S count' =>
      value <~ readField size pos ;;
      rest <~ read_fields count' size (snd value) ;;
      ret (fst value :: fst rest, snd rest)
  end.

(** [H5FileBuffer::readSuperblock]: the offset of the root group, with
    the sizes of offsets and lengths set in [metaData]. *)
Definition readSuperblock (metaData : meta_entry_t.t) : M (meta_entry_t.t * Z) :=
  _ <~ (if errorChecking then
          signature <~ readField 8 0 ;;
          if negb (fst signature =? H5_SIGNATURE_LE)
          then throw InvalidFileSignature
          else
            superblock_version <~ readField 1 (snd signature) ;;
            if negb (fst superblock_version =? 0)
            then throw InvalidSuperblockVersion
            else
              freespace_version <~ readField 1 (snd superblock_version) ;;
              if negb (fst freespace_version =? 0)
              then throw InvalidFreeSpaceVersion
              else
                roottable_version <~ readField 1 (snd freespace_version) ;;
                if negb (fst roottable_version =? 0)
                then throw InvalidRootTableVersion
                else
                  headermsg_version <~ readField 1 (snd roottable_version) ;;
                  if negb (fst headermsg_version =? 0)
                  then throw InvalidHeaderMessageVersion
                  else ret tt
        else ret tt) ;;
  offsetsize <~ readField 1 13 ;;
  lengthsize <~ readField 1 (snd offsetsize) ;;
  leaf_k <~ readField 2 (snd lengthsize) ;;
  internal_k <~ readField 2 (snd leaf_k) ;;
  root_group_offset <~ readField (fst offsetsize) 64 ;;
  ret (with_sizes metaData (fst offsetsize) (fst lengthsize),
       fst root_group_offset).

(** Flags of the dataspace message. *)
Definition MAX_DIM_PRESENT : Z := 1.
Definition PERM_INDEX_PRESENT : Z := 2.

(** [H5FileBuffer::readDataspaceMsg]: the metadata with the dimensions
    set, and the count of bytes read returned as [int].  A dimension
    past the ones read keeps the value it had. *)
Definition readDataspaceMsg (metaData : meta_entry_t.t) (pos : Z)
  : M (meta_entry_t.t * Z) :=
  let starting_position := pos in
  version <~ readField 1 pos ;;
  dimensionality <~ readField 1 (snd version) ;;
  flags <~ readField 1 (snd dimensionality) ;;
  let version := u8 (fst version) in
  let dimensionality := u8 (fst dimensionality) in
  let pos := u64 (snd flags + 5) in
  let flags := u8 (fst flags) in
  _ <~ (if errorChecking then
          if negb (version =? 1) then throw InvalidDataspaceVersion
          else if negb (Z.land flags PERM_INDEX_PRESENT =? 0)
          then throw UnsupportedPermutationIndexes
          else if dimensionality >? MAX_NDIMS
          then throw UnsupportedNumberOfDimensions
          else ret tt
        else ret tt) ;;
  let ndims := Z.min dimensionality MAX_NDIMS in
  if ndims >? 0 then
    dims <~ read_fields (Z.to_nat ndims) (meta_entry_t.lengthsize metaData) pos ;;
    let pos :=
      if negb (Z.land flags MAX_DIM_PRESENT =? 0)
      then u64 (snd dims + ndims * meta_entry_t.lengthsize metaData)
      else snd dims in
    ret (with_dataspace metaData ndims
           (fst dims ++ skipn (List.length (fst dims))
                              (meta_entry_t.dimensions metaData)),
         s32 (u64 (pos - starting_position)))
  else
    ret (with_dataspace metaData ndims (meta_entry_t.dimensions metaData),
         s32 (u64 (pos - starting_position))).

(** [H5FileBuffer::readFillValueMsg]; the fill value is kept in
    [fill.fill_ll], whose bytes on a little-endian host are those of the
    value, least significant first. *)
Definition readFillValueMsg (metaData : meta_entry_t.t) (pos : Z)
  : M (meta_entry_t.t * Z) :=
  let starting_position := pos in
  version <~ readField 1 pos ;;
  _ <~ (if errorChecking && negb (fst version =? 2)
        then throw InvalidFillValueVersion else ret tt) ;;
  pos <~ (if verbose then
            space_allocation_time <~ readField 1 (snd version) ;;
            fill_value_write_time <~ readField 1 (snd space_allocation_time) ;;
            ret (snd fill_value_write_time)
          else ret (u64 (snd version + 2))) ;;
  fill_value_defined <~ readField 1 pos ;;
  if negb (u8 (fst fill_value_defined) =? 0) then
    fillsize <~ readField 4 (snd fill_value_defined) ;;
    let pos := snd fillsize in
    let fillsize := s32 (fst fillsize) in
    if fillsize >? 0 then
      fill_value <~ readField fillsize pos ;;
      ret (with_fill metaData (le_bytes 8 (fst fill_value)) fillsize,
           s32 (u64 (snd fill_value - starting_position)))
    else
      ret (with_fill metaData (meta_entry_t.fill metaData) fillsize,
           s32 (u64 (pos - starting_position)))
  else
    ret (metaData, s32 (u64 (snd fill_value_defined - starting_position))).

(** [H5FileBuffer::readBTreeNodeV1]: a key of the chunk B-tree and the
    advanced position.  [slice] has room for [MAX_NDIMS] entries, and
    with no dimension [slice[0]] is indeterminate and stands as 0. *)
Definition readBTreeNodeV1 (metaData : meta_entry_t.t) (ndims pos : Z)
  : M (btree_node_t * Z) :=
  chunk_size <~ readField 4 pos ;;
  filter_mask <~ readField 4 (snd chunk_size) ;;
  slices <~ read_fields (Z.to_nat (Z.min ndims MAX_NDIMS)) 8 (snd filter_mask) ;;
  if ndims >? MAX_NDIMS then
    _ <~ readField 8 (snd slices) ;;
    lift Undefined      (* a store past the end of [slice] *)
  else
    trailing_zero <~ readField 8 (snd slices) ;;
    _ <~ (if errorChecking then
            if u64 (meta_entry_t.typesize metaData) =? 0
            then lift Undefined     (* remainder of a division by zero *)
            else if negb (fst trailing_zero mod u64 (meta_entry_t.typesize metaData) =? 0)
            then throw KeyWithoutTrailingZero
            else ret tt
          else ret tt) ;;
    ret ({| chunk_size := u32 (fst chunk_size);
            filter_mask := u32 (fst filter_mask);
            slice := fst slices;
            row_key := nth 0 (fst slices) 0 |},
         snd trailing_zero).

End Parsers.

(** ** Sample data for concrete runs of the further parts *)

Module Sample.

(** A chunk of three 2-byte elements. *)
Definition chunk : buffer_t :=
  [Byte.x01; Byte.x02; Byte.x03; Byte.x04; Byte.x05; Byte.x06].

(** A resource of 128 bytes: a version 0 superblock with 8-byte offsets
    and lengths and 72 as the offset of the root group, the dataspace
    message of a 2 x 2 dataset at 72, a fill value message at 96, and
    the 16 bytes of the dataset at 112. *)
Definition contents : buffer_t :=
  map byte_of_Z
      ([137; 72; 68; 70; 13; 10; 26; 10;  0; 0; 0; 0;  0; 8; 8; 0;
        4; 0; 16; 0;  0; 0; 0; 0]
       ++ repeat 0 40
       ++ [72; 0; 0; 0; 0; 0; 0; 0]
       ++ [1; 2; 0;  0; 0; 0; 0; 0;  2; 0; 0; 0; 0; 0; 0; 0;  2; 0; 0; 0; 0; 0; 0; 0]
       ++ [2; 1; 1; 1;  4; 0; 0; 0;  170; 187; 204; 221;  0; 0; 0; 0]
       ++ [1; 0; 0; 0;  2; 0; 0; 0;  3; 0; 0; 0;  4; 0; 0; 0]).

(** [fseek] and [fread] on a file of given contents: a read delivers the
    bytes from the position on, as many as there are, and leaves the rest
    of the caller's buffer as it was. *)
Definition fseek_ok (pos : Z) : bool := 0 <=? pos.

Definition fread (file : buffer_t) (pos size : Z) : Z * buffer_t :=
  let got := bytes_at file pos size in
  (zlen got, got ++ new_uint8 (size - zlen got)).

Definition rangeGet (pos size : Z) : Z * buffer_t := (0, new_uint8 size).

(** The reader's constants for the runs on this resource. *)
Definition IO_CACHE_L1_LINESIZE : Z := 16.
Definition IO_CACHE_L1_MASK : Z := 15.
Definition IO_CACHE_L2_MASK : Z := 255.
Definition IO_DEFAULT_HINT : Z := 16.
Definition H5_SIGNATURE_LE : Z := 0x0A1A0A0D46444889.
Definition MAX_NDIMS : Z := 2.

Definition ioRequest :=
  ioRequest IO_CACHE_L1_LINESIZE IO_CACHE_L1_MASK IO_CACHE_L2_MASK
            fseek_ok (fread contents) rangeGet false FILE.

Definition readField :=
  readField IO_CACHE_L1_LINESIZE IO_CACHE_L1_MASK IO_CACHE_L2_MASK
            fseek_ok (fread contents) rangeGet false IO_DEFAULT_HINT FILE.

Definition readByteArray :=
  readByteArray IO_CACHE_L1_LINESIZE IO_CACHE_L1_MASK IO_CACHE_L2_MASK
                fseek_ok (fread contents) rangeGet false IO_DEFAULT_HINT FILE.

Definition readSuperblock :=
  readSuperblock IO_CACHE_L1_LINESIZE IO_CACHE_L1_MASK IO_CACHE_L2_MASK
                 fseek_ok (fread contents) rangeGet false IO_DEFAULT_HINT
                 H5_SIGNATURE_LE FILE true.

Definition readDataspaceMsg :=
  readDataspaceMsg IO_CACHE_L1_LINESIZE IO_CACHE_L1_MASK IO_CACHE_L2_MASK
                   fseek_ok (fread contents) rangeGet false IO_DEFAULT_HINT
                   MAX_NDIMS FILE true.

Definition readFillValueMsg :=
  readFillValueMsg IO_CACHE_L1_LINESIZE IO_CACHE_L1_MASK IO_CACHE_L2_MASK
                   fseek_ok (fread contents) rangeGet false IO_DEFAULT_HINT
                   FILE true false.

(** The metadata the constructor starts from, and with the sizes of the
    superblock. *)
Definition meta0 : meta_entry_t.t := metaInit "x.h5/d" None.
Definition meta8 : meta_entry_t.t := with_sizes meta0 8 8.

(** A new context of two entries per cache, with empty logs. *)
Definition st0 : io_state :=
  {| ioContext := io_context_new IO_CACHE_L1_MASK IO_CACHE_L2_MASK 2 2;
     io_reads := [];
     freed := [] |}.

(** The state after a request for the 8 bytes at position 64. *)
Definition st1 : io_state := snd (ioRequest 8 64 16 st0).

(** A dataset of three 2-byte integers whose fill value message gives a
    fill value of 4 bytes. *)
Definition meta_filled : meta_entry_t.t :=
  meta_entry_t.mk "x.h5/filled" FIXED_POINT_TYPE 2
                  [Byte.xaa; Byte.xbb; Byte.xcc; Byte.xdd;
                   Byte.x00; Byte.x00; Byte.x00; Byte.x00] 4
                  1 [3] 0 0 8 8 CONTIGUOUS_LAYOUT 0 0 (fun _ => false).

(** The 2 x 2 dataset of 4-byte integers the resource stores contiguously
    at 112. *)
Definition meta_grid : meta_entry_t.t :=
  meta_entry_t.mk "x.h5/grid" FIXED_POINT_TYPE 4 (new_uint8 8) 0
                  2 [2; 2] 0 0 8 8 CONTIGUOUS_LAYOUT 112 16 (fun _ => false).

(** A resource that holds one key of a chunk B-tree over two dimensions:
    a chunk of 16 bytes, no filter skipped, the chunk at row 2 and
    column 0, and the trailing zero. *)
Definition key_bytes : buffer_t :=
  map byte_of_Z
      ([16; 0; 0; 0;  0; 0; 0; 0]
       ++ [2; 0; 0; 0; 0; 0; 0; 0] ++ repeat 0 8 ++ repeat 0 8).

Definition readBTreeNodeV1 :=
  readBTreeNodeV1 IO_CACHE_L1_LINESIZE IO_CACHE_L1_MASK IO_CACHE_L2_MASK
                  fseek_ok (fread key_bytes) rangeGet false IO_DEFAULT_HINT
                  MAX_NDIMS FILE true.

Definition readDataset :=
  readDataset IO_CACHE_L1_LINESIZE IO_CACHE_L1_MASK IO_CACHE_L2_MASK
              fseek_ok (fread contents) rangeGet false IO_DEFAULT_HINT
              Demo.readBTreeV1 FILE true.

End Sample.

(** * Properties *)

(** ** Machine integers *)

Lemma u64_id z : in_u64 z -> u64 z = z.
Proof. unfold in_u64, u64; intros; apply Z.mod_small; lia. Qed.

Lemma s64_id z : in_s64 z -> s64 z = z.
Proof.
  unfold in_s64, s64; intros.
  rewrite Z.mod_small; lia.
Qed.

Lemma s32_id z : in_s32 z -> s32 z = z.
Proof.
  unfold in_s32, s32; intros.
  rewrite Z.mod_small; lia.
Qed.

Lemma u64_range z : in_u64 (u64 z).
Proof. unfold in_u64, u64; apply Z.mod_pos_bound; lia. Qed.

Lemma u64_mul_idemp_l a b : u64 (u64 a * b) = u64 (a * b).
Proof. unfold u64; apply Z.mul_mod_idemp_l; lia. Qed.

Lemma u64_add_idemp_l a b : u64 (u64 a + b) = u64 (a + b).
Proof. unfold u64; apply Z.add_mod_idemp_l; lia. Qed.

Lemma u64_add_idemp_r a b : u64 (a + u64 b) = u64 (a + b).
Proof. unfold u64; apply Z.add_mod_idemp_r; lia. Qed.

Lemma u64_idemp a : u64 (u64 a) = u64 a.
Proof. unfold u64; apply Z.mod_mod; lia. Qed.

(** ** The cache probe *)

Section IOFacts.

Variables IO_CACHE_L1_LINESIZE IO_CACHE_L1_MASK IO_CACHE_L2_MASK : Z.
Variables IO_CACHE_L1_ENTRIES IO_CACHE_L2_ENTRIES : nat.
Variable fseek_ok : Z -> bool.
Variable fread : Z -> Z -> Z * buffer_t.
Variable rangeGet : Z -> Z -> Z * buffer_t.
Variable aws : bool.

(** The reader's functions at the constants of this section. *)
Let ioProbe' := ioProbe IO_CACHE_L1_MASK IO_CACHE_L2_MASK.
Let ioRead' := ioRead fseek_ok fread rangeGet aws.
Let ioRequest' :=
  ioRequest IO_CACHE_L1_LINESIZE IO_CACHE_L1_MASK IO_CACHE_L2_MASK
            fseek_ok fread rangeGet aws.

(** A hit passed the containment test, whichever lookup found the entry. *)
Lemma ioCheckCache_hit_test size pos cache line_mask entry :
  ioCheckCache size pos cache line_mask = Some entry ->
  cache_entry_t.pos entry <= pos /\
  u64 (pos + size) <= u64 (cache_entry_t.pos entry + cache_entry_t.size entry).
Proof.
  unfold ioCheckCache.
  set (found := match Table.find_nearest_under pos cache with
                | Some e => Some e
                | None => _
                end).
  destruct found as [e|]; [|discriminate].
  destruct (pos >=? cache_entry_t.pos e) eqn:Hge; simpl; [|discriminate].
  destruct (u64 (pos + size) <=? _) eqn:Hle; [|discriminate].
  intros [= ->]. split.
  - apply Z.geb_le in Hge. lia.
  - now apply Z.leb_le.
Qed.

(** C1.  A probe that reports a hit hands out an entry that contains the
    requested range: [entry.pos <= pos] and [pos + size <= entry.pos +
    entry.size].  The two sums are those of the 64-bit comparison; they
    are the exact sums whenever neither range runs past the end of the
    64-bit address space.  A request served from the cache then returns
    the entry's buffer at offset [pos - entry.pos], and the [size] bytes
    from that offset on lie inside the entry. *)
Theorem ioCheckCache_hit_contains_range :
  forall size pos cache line_mask entry,
    ioCheckCache size pos cache line_mask = Some entry ->
    (cache_entry_t.pos entry <= pos /\
     u64 (pos + size) <= u64 (cache_entry_t.pos entry + cache_entry_t.size entry)) /\
    (in_u64 (pos + size) ->
     in_u64 (cache_entry_t.pos entry + cache_entry_t.size entry) ->
     pos + size <= cache_entry_t.pos entry + cache_entry_t.size entry /\
     (in_s64 (pos - cache_entry_t.pos entry) ->
      forall ioDriver hint st,
        ioProbe' size pos st.(ioContext) = Some entry ->
        exists reply,
          ioRequest' ioDriver size pos hint st = (Ok reply, st) /\
          reply.(rp_buffer) = cache_entry_t.data entry /\
          reply.(rp_offset) = pos - cache_entry_t.pos entry /\
          0 <= reply.(rp_offset) /\
          reply.(rp_offset) + size <= cache_entry_t.size entry)).
Proof.
  intros size pos cache line_mask entry Hhit.
  apply ioCheckCache_hit_test in Hhit. destruct Hhit as [Hpos Hsum].
  split; [split; assumption|].
  intros Hreq Hent.
  rewrite (u64_id _ Hreq), (u64_id _ Hent) in Hsum.
  split; [assumption|].
  intros Hoff ioDriver hint st Hprobe.
  unfold ioRequest', ioRequest.
  fold ioProbe'. rewrite Hprobe.
  eexists. split; [reflexivity|]. simpl.
  rewrite (s64_id _ Hoff).
  repeat split; lia.
Qed.

(** C4.  A request that misses both caches calls the backend once, for
    [max size hint] bytes at [pos]; when the backend answers with a count
    the request throws exactly when the count is below [size], and a
    failure of the backend itself is passed on.  A request that hits
    calls no backend and does not throw. *)
Theorem ioRequest_miss_reads_max_of_size_and_hint :
  forall ioDriver size pos hint st,
    (ioProbe' size pos st.(ioContext) = None ->
     io_reads (snd (ioRequest' ioDriver size pos hint st))
       = io_reads st ++ [(pos, Z.max size hint)] /\
     (forall n d,
         ioRead' ioDriver (Z.max size hint) pos = Ok (n, d) ->
         (fst (ioRequest' ioDriver size pos hint st) = Throw (FailedToReadAtLeast size n)
          <-> n < size) /\
         (is_ok (fst (ioRequest' ioDriver size pos hint st)) = true <-> size <= n)) /\
     (forall e,
         ioRead' ioDriver (Z.max size hint) pos = Throw e ->
         fst (ioRequest' ioDriver size pos hint st) = Throw e)) /\
    (ioProbe' size pos st.(ioContext) <> None ->
     io_reads (snd (ioRequest' ioDriver size pos hint st)) = io_reads st /\
     is_ok (fst (ioRequest' ioDriver size pos hint st)) = true).
Proof.
  intros ioDriver size pos hint st.
  unfold ioRequest', ioRequest. fold ioProbe'. fold ioRead'.
  split.
  - intros Hmiss. rewrite Hmiss.
    split; [|split].
    + destruct (ioRead' ioDriver (Z.max size hint) pos) as [[n d]|e|]; simpl;
        try reflexivity.
      destruct (n <? size); simpl; [reflexivity|].
      destruct (ioInsert _ _ _ _ _); reflexivity.
    + intros n d Hread. rewrite Hread.
      destruct (n <? size) eqn:Hlt.
      * apply Z.ltb_lt in Hlt. simpl.
        split; split; intros; try lia; try reflexivity; try discriminate.
      * apply Z.ltb_ge in Hlt.
        destruct (ioInsert _ _ _ _ _). simpl.
        split; split; intros; try lia; try reflexivity; try discriminate.
    + intros e Hread. rewrite Hread. reflexivity.
  - intros Hhit.
    destruct (ioProbe' size pos (ioContext st)); [|congruence].
    simpl. split; reflexivity.
Qed.


End IOFacts.

(** ** Eviction *)











Section EvictionFacts.

Variables IO_CACHE_L1_LINESIZE IO_CACHE_L1_MASK IO_CACHE_L2_MASK : Z.
Variables IO_CACHE_L1_ENTRIES IO_CACHE_L2_ENTRIES : nat.
Variable fseek_ok : Z -> bool.
Variable fread : Z -> Z -> Z * buffer_t.
Variable rangeGet : Z -> Z -> Z * buffer_t.
Variable aws : bool.


(** The reader's functions at the constants of this section. *)
Let ioProbe' := ioProbe IO_CACHE_L1_MASK IO_CACHE_L2_MASK.
Let ioRead' := ioRead fseek_ok fread rangeGet aws.
Let ioRequest' :=
  ioRequest IO_CACHE_L1_LINESIZE IO_CACHE_L1_MASK IO_CACHE_L2_MASK
            fseek_ok fread rangeGet aws.






End EvictionFacts.

(** ** Rows, row size and the output buffer *)

Lemma row_fold_spec (f : nat -> Z) (l : list nat) (a : Z) :
  fold_left (fun row_size d => u64 (row_size * f d)) l (u64 a)
  = u64 (a * fold_right Z.mul 1 (map f l)).
Proof.
  revert a. induction l as [|d l IH]; intros a; simpl.
  - now rewrite Z.mul_1_r.
  - rewrite u64_mul_idemp_l, IH. f_equal. ring.
Qed.


Lemma new_uint8_length n : 0 <= n -> zlen (new_uint8 n) = n.
Proof.
  intros H. unfold zlen, new_uint8. rewrite repeat_length. lia.
Qed.

Section ReaderFacts.

Variables IO_CACHE_L1_LINESIZE IO_CACHE_L1_MASK IO_CACHE_L2_MASK : Z.
Variables IO_CACHE_L1_ENTRIES IO_CACHE_L2_ENTRIES : nat.
Variable fseek_ok : Z -> bool.
Variable fread : Z -> Z -> Z * buffer_t.
Variable rangeGet : Z -> Z -> Z * buffer_t.
Variable aws : bool.
Variable MAX_META_FILENAME : nat.
Variable IO_DEFAULT_HINT : Z.
Variable to_int : valType_t -> Z -> Z -> buffer_t -> buffer_t.
Variable to_double : valType_t -> Z -> Z -> buffer_t -> buffer_t.
Variable fopen_ok : string -> bool.
Variable readHeaders :
  io_driver_t -> string -> string -> meta_entry_t.t ->
  io_state -> parsed meta_entry_t.t * io_state.
Variable readBTreeV1 :
  io_driver_t -> meta_entry_t.t -> Z -> buffer_t -> Z -> Z -> Z -> Z ->
  io_state -> parsed buffer_t * io_state.










(** A request whose last row is negative is rejected by the row check
    as well: the sum is compared as an unsigned integer. *)
Lemma readDataset_rows_negative_sum metaData startrow numrows :
  let first_dimension := first_dimension_of metaData in
  let rows := if numrows =? ALL_ROWS then s64 first_dimension else numrows in
  0 < meta_entry_t.typesize metaData ->
  first_dimension < 2 ^ 63 ->
  - 2 ^ 63 <= startrow + rows < 0 ->
  readDataset_rows metaData startrow numrows
  = Throw (ReadExceedsRows startrow rows first_dimension).
Proof.
  intros first_dimension rows Hts Hfd Hsum.
  unfold readDataset_rows.
  destruct (Z.leb_spec (meta_entry_t.typesize metaData) 0); [lia|].
  fold first_dimension. fold rows.
  assert (Hu : u64 (startrow + rows) = startrow + rows + 2 ^ 64).
  { unfold u64. symmetry. apply Z.mod_unique with (q := -1); lia. }
  rewrite Hu.
  destruct (Z.gtb_spec (startrow + rows + 2 ^ 64) first_dimension); [reflexivity|lia].
Qed.


(** ** Empty results *)

Let H5FileBuffer_new' :=
  H5FileBuffer_new IO_CACHE_L1_LINESIZE IO_CACHE_L1_MASK IO_CACHE_L2_MASK
                   IO_CACHE_L1_ENTRIES IO_CACHE_L2_ENTRIES
                   fseek_ok fread rangeGet aws MAX_META_FILENAME IO_DEFAULT_HINT
                   fopen_ok readHeaders readBTreeV1.
Let traverse' :=
  traverse IO_CACHE_L1_LINESIZE IO_CACHE_L1_MASK IO_CACHE_L2_MASK
           IO_CACHE_L1_ENTRIES IO_CACHE_L2_ENTRIES
           fseek_ok fread rangeGet aws MAX_META_FILENAME IO_DEFAULT_HINT
           fopen_ok readHeaders readBTreeV1.




(** ** traverse *)

(** C9, at the failing inputs: when the constructor throws, because the
    open or the walk failed, [traverse] still returns [true]. *)
Theorem traverse_returns_true_when_constructor_throws :
  forall url max_depth start_group metaRepo st e repo' st',
    H5FileBuffer_new' None url start_group 0 0 true metaRepo st = (Throw e, repo', st') ->
    traverse' url max_depth start_group metaRepo st = (Ok true, repo', st').
Proof.
  intros url max_depth start_group metaRepo st e repo' st' Hnew.
  unfold traverse', traverse. fold H5FileBuffer_new'.
  rewrite Hnew. reflexivity.
Qed.

End ReaderFacts.

(** ** Chunk location *)

Lemma zero_fold (f : nat -> Z) (l : list nat) :
  fold_left (fun slice_size j => u64 (slice_size * f j)) l 0 = 0.
Proof.
  induction l as [|j l IH]; simpl; [reflexivity|]. exact IH.
Qed.

(** Dimensions whose slice coordinate is zero add nothing to the chunk
    offset. *)
Lemma chunk_offset_zero_slices metaData curr_node (l : list nat) (n : nat) (acc : Z) :
  (forall i, In i l -> nth i curr_node.(slice) 0 = 0) ->
  fold_left
    (fun chunk_offset i =>
       let slice_size :=
         fold_left
           (fun slice_size j => u64 (slice_size * nth j (meta_entry_t.dimensions metaData) 0))
           (seq (i + 1) (n - (i + 1)))
           (u64 (nth i curr_node.(slice) 0 * meta_entry_t.typesize metaData)) in
       u64 (chunk_offset + slice_size))
    l (u64 acc) = u64 acc.
Proof.
  induction l as [|i l IH]; intros Hz; simpl; [reflexivity|].
  rewrite (Hz i) by now left.
  rewrite Z.mul_0_l. change (u64 0) with 0.
  rewrite zero_fold, Z.add_0_r, u64_idemp.
  apply IH. intros j Hj. apply Hz. now right.
Qed.

(** For a chunk in column 0 the chunk offset is [slice[0] * row_size],
    modulo [2^64]. *)
Lemma chunk_offset_of_column_0 metaData curr_node :
  1 <= meta_entry_t.ndims metaData ->
  (forall i, (1 <= i < Z.to_nat (meta_entry_t.ndims metaData))%nat ->
             nth i curr_node.(slice) 0 = 0) ->
  chunk_offset_of metaData curr_node
  = u64 (nth 0 curr_node.(slice) 0 * row_size_spec metaData).
Proof.
  intros Hnd Hz. unfold chunk_offset_of, row_size_spec.
  destruct (Z.to_nat (meta_entry_t.ndims metaData)) as [|k] eqn:Hk; [lia|].
  cbn [seq fold_left]. rewrite Z.add_0_l.
  replace (S k - (0 + 1))%nat with k by lia.
  replace (S k - 1)%nat with k by lia.
  change (0 + 1)%nat with 1%nat.
  rewrite row_fold_spec, u64_idemp.
  rewrite chunk_offset_zero_slices.
  - f_equal. ring.
  - intros i Hi. apply in_seq in Hi. apply Hz. lia.
Qed.

(** C3.  For a leaf chunk in column 0 ([slice[i] = 0] for [i >= 1]), with
    [chunk_offset = slice[0] * row_size] and [buffer_offset = startrow *
    row_size] within the range of the machine integers, the leaf either
    rejects the location or computes [buffer_index = max 0 (chunk_offset -
    buffer_offset)], [chunk_index = max 0 (buffer_offset - chunk_offset)]
    and [chunk_bytes = min (chunk_buffer_size - chunk_index) (buffer_size
    - buffer_index)]. *)
Theorem readBTreeV1_leaf_copy_parameters :
  forall metaData curr_node startrow buffer_size dataChunkBufferSize,
    let row_size := row_size_spec metaData in
    let chunk_offset := nth 0 curr_node.(slice) 0 * row_size in
    let buffer_offset := startrow * row_size in
    let buffer_index := Z.max 0 (chunk_offset - buffer_offset) in
    let chunk_index := Z.max 0 (buffer_offset - chunk_offset) in
    1 <= meta_entry_t.ndims metaData ->
    (forall i, (1 <= i < Z.to_nat (meta_entry_t.ndims metaData))%nat ->
               nth i curr_node.(slice) 0 = 0) ->
    in_u64 chunk_offset ->
    0 <= buffer_offset < 2 ^ 63 ->
    0 < buffer_size < 2 ^ 63 ->
    0 < dataChunkBufferSize < 2 ^ 63 ->
    readBTreeV1_leaf metaData curr_node buffer_size buffer_offset dataChunkBufferSize
    = if buffer_size <=? buffer_index then Throw InvalidLocationToReadData
      else if dataChunkBufferSize <=? chunk_index then Throw InvalidLocationToReadChunk
      else Ok {| buffer_index := buffer_index;
                 chunk_index := chunk_index;
                 chunk_bytes := Z.min (dataChunkBufferSize - chunk_index)
                                      (buffer_size - buffer_index) |}.
Proof.
  intros metaData curr_node startrow buffer_size dataChunkBufferSize
         row_size chunk_offset buffer_offset buffer_index chunk_index
         Hnd Hz Hco Hbo Hbs Hcbs.
  unfold readBTreeV1_leaf.
  rewrite (chunk_offset_of_column_0 metaData curr_node Hnd Hz).
  fold row_size. fold chunk_offset. rewrite (u64_id _ Hco).
  unfold in_u64 in Hco.
  subst buffer_index chunk_index.
  destruct (Z.gtb_spec chunk_offset buffer_offset) as [Hgt|Hle].
  - rewrite (u64_id (chunk_offset - buffer_offset)) by (unfold in_u64; lia).
    rewrite Z.max_r by lia.
    rewrite Z.geb_leb.
    destruct (Z.leb_spec buffer_size (chunk_offset - buffer_offset)); simpl;
      [reflexivity|].
    destruct (Z.gtb_spec buffer_offset chunk_offset); [lia|]. simpl.
    rewrite (Z.max_l 0 (buffer_offset - chunk_offset)) by lia.
    destruct (Z.leb_spec dataChunkBufferSize 0); [lia|].
    rewrite Z.sub_0_r.
    rewrite (s64_id dataChunkBufferSize) by (unfold in_s64; lia).
    destruct (Z.ltb_spec dataChunkBufferSize 0); [lia|].
    rewrite (u64_id (chunk_offset - buffer_offset + dataChunkBufferSize))
      by (unfold in_u64; lia).
    destruct (Z.gtb_spec (chunk_offset - buffer_offset + dataChunkBufferSize) buffer_size).
    + rewrite s64_id by (unfold in_s64; lia). f_equal. f_equal. lia.
    + f_equal. f_equal. lia.
  - simpl. rewrite (Z.max_l 0 (chunk_offset - buffer_offset)) by lia.
    destruct (Z.leb_spec buffer_size 0); [lia|].
    destruct (Z.gtb_spec buffer_offset chunk_offset) as [Hgt|Hle'].
    + rewrite (u64_id (buffer_offset - chunk_offset)) by (unfold in_u64; lia).
      rewrite (s64_id (buffer_offset - chunk_offset)) by (unfold in_s64; lia).
      rewrite Z.max_r by lia. rewrite Z.geb_leb.
      destruct (Z.leb_spec dataChunkBufferSize (buffer_offset - chunk_offset)); simpl;
        [reflexivity|].
      rewrite (s64_id (dataChunkBufferSize - (buffer_offset - chunk_offset)))
        by (unfold in_s64; lia).
      destruct (Z.ltb_spec (dataChunkBufferSize - (buffer_offset - chunk_offset)) 0);
        [lia|].
      rewrite Z.sub_0_r.
      rewrite u64_id by (unfold in_u64; lia).
      rewrite (s64_id buffer_size) by (unfold in_s64; lia).
      destruct (Z.gtb_spec (dataChunkBufferSize - (buffer_offset - chunk_offset))
                           buffer_size); f_equal; f_equal; lia.
    + simpl. rewrite (Z.max_l 0 (buffer_offset - chunk_offset)) by lia.
      destruct (Z.leb_spec dataChunkBufferSize 0); [lia|].
      rewrite !Z.sub_0_r.
      rewrite (s64_id dataChunkBufferSize) by (unfold in_s64; lia).
      destruct (Z.ltb_spec dataChunkBufferSize 0); [lia|].
      rewrite u64_id by (unfold in_u64; lia).
      rewrite (s64_id buffer_size) by (unfold in_s64; lia).
      destruct (Z.gtb_spec dataChunkBufferSize buffer_size); f_equal; f_equal; lia.
Qed.

(** ** Column selection *)

Lemma bytes_at_length l off n :
  0 <= off -> 0 <= n -> off + n <= zlen l -> zlen (bytes_at l off n) = n.
Proof.
  unfold bytes_at, zlen. intros Hoff Hn Hlen.
  rewrite length_firstn, length_skipn. lia.
Qed.

(** An in-bounds copy keeps the length of the destination, puts the
    source bytes in place and leaves what lies before them. *)
Lemma copy_into_spec dst off src soff n :
  0 <= off -> 0 <= soff -> 0 <= n ->
  off + n <= zlen dst -> soff + n <= zlen src ->
  exists r,
    copy_into dst off src soff n = Ok r /\
    zlen r = zlen dst /\
    bytes_at r off n = bytes_at src soff n /\
    (forall a m, 0 <= a -> 0 <= m -> a + m <= off -> bytes_at r a m = bytes_at dst a m).
Proof.
  intros Hoff Hsoff Hn Hdst Hsrc. unfold copy_into.
  destruct (Z.leb_spec 0 off); [|lia].
  destruct (Z.leb_spec 0 soff); [|lia].
  destruct (Z.leb_spec 0 n); [|lia].
  destruct (Z.leb_spec (off + n) (zlen dst)); [|lia].
  destruct (Z.leb_spec (soff + n) (zlen src)); [|lia].
  simpl. eexists. split; [reflexivity|].
  fold (bytes_at src soff n).
  pose proof (bytes_at_length src soff n Hsoff Hn Hsrc) as Hmid.
  unfold zlen in *.
  assert (Hpre : List.length (firstn (Z.to_nat off) dst) = Z.to_nat off)
    by (rewrite length_firstn; lia).
  split; [|split].
  - rewrite !length_app, Hpre, length_skipn. lia.
  - unfold bytes_at at 1.
    rewrite skipn_app, Hpre, Nat.sub_diag. simpl.
    rewrite skipn_all2 by lia. simpl.
    rewrite firstn_app.
    replace (Z.to_nat n - List.length (bytes_at src soff n))%nat with 0%nat by lia.
    simpl. rewrite app_nil_r. apply firstn_all2. lia.
  - intros a m Ha Hm Ham. unfold bytes_at.
    rewrite skipn_app, Hpre.
    replace (Z.to_nat a - Z.to_nat off)%nat with 0%nat by lia. simpl.
    rewrite firstn_app.
    rewrite length_skipn, Hpre.
    replace (Z.to_nat m - (Z.to_nat off - Z.to_nat a))%nat with 0%nat by lia.
    simpl. rewrite app_nil_r.
    rewrite skipn_firstn_comm, firstn_firstn.
    f_equal. lia.
Qed.


Section ColumnFacts.

Variables IO_CACHE_L1_LINESIZE IO_CACHE_L1_MASK IO_CACHE_L2_MASK : Z.
Variables IO_CACHE_L1_ENTRIES IO_CACHE_L2_ENTRIES : nat.
Variable fseek_ok : Z -> bool.
Variable fread : Z -> Z -> Z * buffer_t.
Variable rangeGet : Z -> Z -> Z * buffer_t.
Variable aws : bool.
Variable MAX_META_FILENAME : nat.
Variable IO_DEFAULT_HINT : Z.
Variable to_int : valType_t -> Z -> Z -> buffer_t -> buffer_t.
Variable to_double : valType_t -> Z -> Z -> buffer_t -> buffer_t.
Variable fopen_ok : string -> bool.
Variable readHeaders :
  io_driver_t -> string -> string -> meta_entry_t.t ->
  io_state -> parsed meta_entry_t.t * io_state.
Variable readBTreeV1 :
  io_driver_t -> meta_entry_t.t -> Z -> buffer_t -> Z -> Z -> Z -> Z ->
  io_state -> parsed buffer_t * io_state.

(** The reader's functions at the constants of this section. *)
Let H5FileBuffer_new' :=
  H5FileBuffer_new IO_CACHE_L1_LINESIZE IO_CACHE_L1_MASK IO_CACHE_L2_MASK
                   IO_CACHE_L1_ENTRIES IO_CACHE_L2_ENTRIES
                   fseek_ok fread rangeGet aws MAX_META_FILENAME IO_DEFAULT_HINT
                   fopen_ok readHeaders readBTreeV1.



End ColumnFacts.

(** ** shuffleChunk *)

(** The sizes the check rejects. *)
Lemma shuffleChunk_rejects input input_size output output_offset output_size type_size :
  type_size < 0 \/ 8 < type_size ->
  shuffleChunk true input input_size output output_offset output_size type_size
  = Throw (InvalidShuffleSize type_size).
Proof.
  intros H. unfold shuffleChunk.
  destruct (Z.ltb_spec type_size 0); simpl; [reflexivity|].
  destruct (Z.gtb_spec type_size 8); [reflexivity|lia].
Qed.


(** ** Metadata repository *)

Section MetaFacts.

Variable MAX_META_FILENAME : nat.

(** C6 as amended.  A lookup for a (resource, dataset) pair is a hit only
    when the url stored with the entry equals the pair's repository url,
    "<file name of the resource>/<dataset>" cut to the size of the url
    buffer; the entry served to one pair is never served to a pair with
    another repository url, whatever the keys and the repository. *)
Theorem metaLookup_hit_has_the_repository_url :
  forall metaRepo resource dataset meta_url metaData,
    metaGetUrl MAX_META_FILENAME resource dataset = Ok meta_url ->
    metaLookup MAX_META_FILENAME metaRepo meta_url = Some metaData ->
    meta_entry_t.url metaData = meta_url /\
    meta_url = substring 0 (MAX_META_FILENAME - 1)
                 (filename_ptr resource resource
                  ++ String slash (dataset_name_ptr dataset)) /\
    Table.find_exactly (metaGetKey MAX_META_FILENAME meta_url) metaRepo
      = Some metaData /\
    (forall resource2 dataset2 meta_url2 metaRepo2,
        metaGetUrl MAX_META_FILENAME resource2 dataset2 = Ok meta_url2 ->
        meta_url2 <> meta_url ->
        metaLookup MAX_META_FILENAME metaRepo2 meta_url2 <> Some metaData).
Proof.
  intros metaRepo resource dataset meta_url metaData Hurl Hhit.
  assert (Hstored : forall repo u m,
             metaLookup MAX_META_FILENAME repo u = Some m ->
             meta_entry_t.url m = u /\
             Table.find_exactly (metaGetKey MAX_META_FILENAME u) repo = Some m).
  { intros repo u m. unfold metaLookup, StringLib_match.
    destruct (Table.find_exactly _ repo) as [m'|]; [|discriminate].
    destruct (String.eqb_spec (meta_entry_t.url m') u); [|discriminate].
    intros [= <-]. split; [assumption|reflexivity]. }
  destruct (Hstored _ _ _ Hhit) as [Hmeta Hfound].
  split; [exact Hmeta|]. split; [|split; [exact Hfound|]].
  - unfold metaGetUrl in Hurl.
    destruct (get _ _) as [c|]; [destruct (Ascii.eqb c zero)|];
      congruence.
  - intros resource2 dataset2 meta_url2 metaRepo2 _ Hne Hhit2.
    destruct (Hstored _ _ _ Hhit2) as [Hmeta2 _]. congruence.
Qed.

End MetaFacts.

(** * Concrete runs *)

(** Closed comparisons of integers, by evaluation. *)
Ltac by_evaluation :=
  vm_compute; repeat split; try reflexivity; try discriminate;
  try (intro; discriminate); try (intros; reflexivity).

(** After the 16 bytes at position 0 were cached, the probe for the 4
    bytes at position 8 hits that entry, which contains them. *)
Lemma ioCheckCache_hit_contains_range_witness :
  ioCheckCache 4 8 (l1 (ioContext Demo.st1)) Demo.IO_CACHE_L1_MASK = Some Demo.entry0 /\
  (0 <= 8 /\ 8 + 4 <= 0 + 16) /\
  exists reply,
    Demo.ioRequest FILE 4 8 16 Demo.st1 = (Ok reply, Demo.st1) /\
    reply.(rp_buffer) = Demo.file_bytes 0 16 /\
    reply.(rp_offset) = 8.
Proof.
  split; [reflexivity|].
  destruct (ioCheckCache_hit_contains_range
              Demo.IO_CACHE_L1_LINESIZE Demo.IO_CACHE_L1_MASK Demo.IO_CACHE_L2_MASK
              Demo.fseek_ok Demo.fread Demo.rangeGet Demo.aws
              4 8 (l1 (ioContext Demo.st1)) Demo.IO_CACHE_L1_MASK Demo.entry0
              eq_refl) as [[Hpos _] Hexact].
  destruct Hexact as [Hend Hreq]; [by_evaluation|by_evaluation|].
  split; [split; [exact Hpos|exact Hend]|].
  destruct (Hreq ltac:(by_evaluation) FILE 16 Demo.st1 eq_refl)
    as (reply & Hrun & Hbuf & Hoff & _).
  exists reply. split; [exact Hrun|]. split; [exact Hbuf|exact Hoff].
Defined.

(** A request on a new context misses and reads [max 16 8] bytes at 0. *)
Lemma ioRequest_miss_reads_max_of_size_and_hint_witness :
  ioProbe Demo.IO_CACHE_L1_MASK Demo.IO_CACHE_L2_MASK 16 0 (ioContext Demo.st0) = None /\
  io_reads (snd (Demo.ioRequest FILE 16 0 8 Demo.st0)) = [(0, 16)].
Proof.
  split; [reflexivity|].
  exact (proj1 (proj1 (ioRequest_miss_reads_max_of_size_and_hint
                         Demo.IO_CACHE_L1_LINESIZE Demo.IO_CACHE_L1_MASK
                         Demo.IO_CACHE_L2_MASK
                         Demo.fseek_ok Demo.fread Demo.rangeGet Demo.aws
                         FILE 16 0 8 Demo.st0) eq_refl)).
Defined.



(** Rows 1020 to 1027 of the chunked dataset against the chunk of rows
    1024 on: the chunk lands at byte 32 of the buffer and gives 32 bytes
    from its start. *)
Lemma readBTreeV1_leaf_copy_parameters_witness :
  readBTreeV1_leaf Demo.meta_h Demo.node_1024 64 (1020 * 8) 8192
  = Ok {| buffer_index := 32; chunk_index := 0; chunk_bytes := 32 |}.
Proof.
  refine (readBTreeV1_leaf_copy_parameters Demo.meta_h Demo.node_1024 1020 64 8192
            _ _ _ _ _ _);
    try (unfold in_u64; simpl; lia).
Defined.



(** The lookup for "dirA/x.h5" finds the entry published for it. *)
Lemma metaLookup_hit_has_the_repository_url_witness :
  metaGetUrl Demo.MAX_META_FILENAME Demo.resource_a "d" = Ok "x.h5/d"%string /\
  metaLookup Demo.MAX_META_FILENAME
             (metaPublish Demo.MAX_META_FILENAME Demo.repo0 "x.h5/d"
                          (Demo.meta_of Demo.resource_a "x.h5/d"))
             "x.h5/d"
    = Some (Demo.meta_of Demo.resource_a "x.h5/d") /\
  meta_entry_t.url (Demo.meta_of Demo.resource_a "x.h5/d") = "x.h5/d"%string.
Proof.
  split; [reflexivity|]. split; [reflexivity|].
  exact (proj1 (metaLookup_hit_has_the_repository_url
                  Demo.MAX_META_FILENAME
                  (metaPublish Demo.MAX_META_FILENAME Demo.repo0 "x.h5/d"
                               (Demo.meta_of Demo.resource_a "x.h5/d"))
                  Demo.resource_a "d" "x.h5/d"
                  (Demo.meta_of Demo.resource_a "x.h5/d") eq_refl eq_refl)).
Defined.

(** C6 as stated fails: "dirA/x.h5" and "dirB/x.h5" are distinct
    resources with the same repository url and key, and after a read of
    the first the read of the second is served the metadata memoized for
    the first: it reports elements of 4 bytes where the second resource
    holds elements of 8 bytes. *)
Lemma second_resource_served_the_first_ones_metadata :
  exists info_a repo_a st_a info_b repo_b st_b,
    Demo.resource_a <> Demo.resource_b /\
    metaGetUrl Demo.MAX_META_FILENAME Demo.resource_a "d"
      = metaGetUrl Demo.MAX_META_FILENAME Demo.resource_b "d" /\
    Demo.H5FileBuffer_new None "file://dirA/x.h5" "d" 0 ALL_ROWS true
                          Demo.repo0 Demo.st0 = (Ok info_a, repo_a, st_a) /\
    metaLookup Demo.MAX_META_FILENAME repo_a "x.h5/d"
      = Some (Demo.meta_of Demo.resource_a "x.h5/d") /\
    Demo.H5FileBuffer_new None "file://dirB/x.h5" "d" 0 ALL_ROWS true
                          repo_a st_a = (Ok info_b, repo_b, st_b) /\
    dataset_info_t.typesize info_b = 4 /\
    meta_entry_t.typesize (Demo.meta_of Demo.resource_b "x.h5/d") = 8.
Proof.
  do 6 eexists.
  split; [discriminate|].
  split; [reflexivity|].
  split; [vm_compute; reflexivity|].
  split; [vm_compute; reflexivity|].
  split; [vm_compute; reflexivity|].
  split; reflexivity.
Qed.

(** A url of an unknown scheme: the constructor throws "Invalid url" and
    [traverse] returns [true]. *)
Lemma traverse_returns_true_when_constructor_throws_witness :
  Demo.H5FileBuffer_new None "ftp://host/x.h5" "d" 0 0 true Demo.repo0 Demo.st0
    = (Throw InvalidUrl, Demo.repo0, Demo.st0) /\
  Demo.traverse "ftp://host/x.h5" 0 "d" Demo.repo0 Demo.st0
    = (Ok true, Demo.repo0, Demo.st0).
Proof.
  split; [reflexivity|].
  exact (traverse_returns_true_when_constructor_throws
           Demo.IO_CACHE_L1_LINESIZE Demo.IO_CACHE_L1_MASK Demo.IO_CACHE_L2_MASK
           Demo.IO_CACHE_L1_ENTRIES Demo.IO_CACHE_L2_ENTRIES
           Demo.fseek_ok Demo.fread Demo.rangeGet Demo.aws
           Demo.MAX_META_FILENAME Demo.IO_DEFAULT_HINT
           Demo.fopen_ok Demo.readHeaders Demo.readBTreeV1
           "ftp://host/x.h5" 0 "d" Demo.repo0 Demo.st0 InvalidUrl Demo.repo0 Demo.st0
           eq_refl).
Defined.


(** * Further properties of the reader *)

(** ** highestBit *)

Lemma highestBit_loop_log2 fuel : forall value bit,
  (0 < fuel)%nat -> 0 <= value < 2 ^ Z.of_nat fuel ->
  highestBit_loop fuel value bit = Some (bit + Z.log2 value).
Proof.
  induction fuel as [|fuel IH]; intros value bit Hfuel Hvalue; [lia|].
  cbn [highestBit_loop].
  rewrite Z.shiftr_div_pow2 by lia. change (2 ^ 1) with 2.
  rewrite Nat2Z.inj_succ, Z.pow_succ_r in Hvalue by lia.
  destruct (Z.eqb_spec (value / 2) 0) as [Hz|Hnz].
  - assert (Hsmall : value < 2).
    { destruct (Z.lt_ge_cases value 2) as [|Hge]; [assumption|].
      pose proof (Z.div_le_mono 2 value 2 ltac:(lia) Hge) as Hd.
      change (2 / 2) with 1 in Hd. lia. }
    assert (Hlog : Z.log2 value = 0).
    { destruct (Z.eq_dec value 0) as [->|]; [reflexivity|].
      replace value with 1 by lia. reflexivity. }
    rewrite Hlog. f_equal. lia.
  - assert (Hpos : 0 < value / 2).
    { pose proof (Z.div_pos value 2 ltac:(lia) ltac:(lia)). lia. }
    assert (Hlt : value / 2 < 2 ^ Z.of_nat fuel)
      by (apply Z.div_lt_upper_bound; lia).
    assert (Hfuel' : (0 < fuel)%nat).
    { destruct fuel; [simpl in Hlt; lia|lia]. }
    rewrite (IH (value / 2) (bit + 1) Hfuel' (conj (Z.lt_le_incl _ _ Hpos) Hlt)).
    f_equal.
    assert (Hge : 2 <= value).
    { destruct (Z.lt_ge_cases value 2) as [Hs|]; [|assumption].
      rewrite Z.div_small in Hpos by lia. lia. }
    assert (Hlog : Z.log2 (value / 2) = Z.log2 value - 1).
    { change (value / 2) with (value / 2 ^ 1).
      rewrite <- (Z.shiftr_div_pow2 value 1) by lia.
      rewrite Z.log2_shiftr by lia.
      assert (1 <= Z.log2 value) by (apply Z.log2_le_pow2; [lia|exact Hge]).
      lia. }
    lia.
Qed.

Lemma highestBit_is_log2_aux value :
  highestBit value = Some (Z.log2 (u64 value)) /\
  (0 < u64 value ->
   2 ^ Z.log2 (u64 value) <= u64 value < 2 ^ (Z.log2 (u64 value) + 1)).
Proof.
  pose proof (u64_range value) as Hr. unfold in_u64 in Hr.
  split.
  - unfold highestBit.
    rewrite highestBit_loop_log2; [reflexivity|lia|].
    change (Z.of_nat 64) with 64. exact Hr.
  - intros Hpos. pose proof (Z.log2_spec (u64 value) Hpos) as Hs.
    rewrite <- Z.add_1_r in Hs. exact Hs.
Qed.

(** X1.  [highestBit] ends on every argument, within the 64 shifts that
    empty a [uint64_t], and returns the position of the highest bit set
    in the argument taken as [uint64_t]: the binary logarithm rounded
    down, and 0 for the arguments 0 and 1. *)
Theorem highestBit_is_log2 :
  forall value,
    highestBit value = Some (Z.log2 (u64 value)) /\
    (0 < u64 value ->
     2 ^ Z.log2 (u64 value) <= u64 value < 2 ^ (Z.log2 (u64 value) + 1)).
Proof.
  intros value. destruct (highestBit_is_log2_aux value) as [Hrun Hbounds].
  split; [exact Hrun|exact Hbounds].
Qed.

(** X2.  While a direct block has data left, the peek of
    [readDirectBlock] asks for a field of 1, 2, 4 or 8 bytes, the sizes
    [readField] accepts, and never for more bytes than are left in the
    block. *)
Theorem peak_size_is_a_field_size_within_the_block :
  forall data_left,
    0 < data_left < 2 ^ 31 ->
    exists size,
      peak_size data_left = Ok size /\
      (size = 1 \/ size = 2 \/ size = 4 \/ size = 8) /\
      size <= data_left /\
      (8 <= data_left -> size = 8).
Proof.
  intros data_left Hleft. unfold peak_size.
  destruct (highestBit_is_log2_aux data_left) as [Hbit Hspec].
  assert (Hu : u64 data_left = data_left) by (apply u64_id; unfold in_u64; lia).
  rewrite Hu in Hbit, Hspec. rewrite Hbit.
  specialize (Hspec ltac:(lia)).
  set (bit := Z.log2 data_left) in *.
  assert (Hbit0 : 0 <= bit) by apply Z.log2_nonneg.
  assert (Hbit31 : bit < 31).
  { destruct (Z.lt_ge_cases bit 31) as [|Hge]; [assumption|].
    pose proof (Z.pow_le_mono_r 2 31 bit ltac:(lia) Hge). lia. }
  destruct (Z.ltb_spec bit 31); [|lia].
  rewrite Z.shiftl_1_l.
  eexists. split; [reflexivity|].
  destruct (Z.lt_ge_cases bit 3) as [Hlow|Hhigh].
  - assert (Hcases : bit = 0 \/ bit = 1 \/ bit = 2) by lia.
    destruct Hcases as [Hb|[Hb|Hb]]; rewrite Hb in *; simpl in *;
      repeat split; try lia.
  - pose proof (Z.pow_le_mono_r 2 3 bit ltac:(lia) Hhigh) as Hpow.
    change (2 ^ 3) with 8 in Hpow.
    rewrite Z.min_r by lia. repeat split; try lia.
Qed.

Lemma peak_size_is_a_field_size_within_the_block_witness :
  peak_size 6 = Ok 4 /\ peak_size 100 = Ok 8.
Proof.
  split; [|reflexivity].
  destruct (peak_size_is_a_field_size_within_the_block 6 ltac:(lia))
    as (size & Hpeak & _).
  rewrite Hpeak. vm_compute in Hpeak. congruence.
Defined.

(** ** The inclusion check of readBTreeV1 *)

Lemma check_inclusion_spec d1 d2 c1 c2 :
  d1 <= d2 -> c1 < c2 ->
  (check_inclusion d1 d2 c1 c2 = true <->
   exists row, (d1 <= row <= d2) /\ (c1 <= row < c2)).
Proof.
  intros Hd Hc. unfold check_inclusion.
  rewrite !Bool.orb_true_iff, !Bool.andb_true_iff.
  rewrite !Z.geb_le, !Z.ltb_lt, Z.leb_le, Z.gtb_lt.
  split.
  - intros [[[[H1 H2]|[H1 H2]]|[H1 H2]]|[H1 H2]].
    + exists d1. lia.
    + exists d2. lia.
    + exists c1. lia.
    + exists (c2 - 1). lia.
  - intros (row & Hrow & Hkey).
    destruct (Z.le_gt_cases c1 d1) as [Hle|Hgt].
    + left. left. left. lia.
    + left. right. lia.
Qed.

(** X3.  For a request of at least one row, the inclusion check of
    [readBTreeV1] passes for a child entry with keys [child_key1 <
    child_key2] exactly when one of the requested rows [startrow ..
    startrow + numrows - 1] lies in [child_key1 .. child_key2 - 1]: every
    child holding a requested row is processed and no other. *)
Theorem check_inclusion_is_row_range_intersection :
  forall datasetStartRow datasetNumRows child_key1 child_key2,
    0 <= datasetStartRow -> 0 < datasetNumRows ->
    datasetStartRow + datasetNumRows <= 2 ^ 64 ->
    child_key1 < child_key2 ->
    (check_inclusion (data_key1_of datasetStartRow)
                     (data_key2_of datasetStartRow datasetNumRows)
                     child_key1 child_key2 = true <->
     exists row,
       (datasetStartRow <= row < datasetStartRow + datasetNumRows) /\
       (child_key1 <= row < child_key2)).
Proof.
  intros startrow numrows c1 c2 Hstart Hnum Hfit Hkeys.
  unfold data_key1_of, data_key2_of.
  rewrite (u64_id startrow) by (unfold in_u64; lia).
  rewrite (u64_id (startrow + numrows - 1)) by (unfold in_u64; lia).
  rewrite check_inclusion_spec by lia.
  split; intros (row & Hrow & Hkey); exists row; lia.
Qed.

Lemma check_inclusion_is_row_range_intersection_witness :
  check_inclusion (data_key1_of 1020) (data_key2_of 1020 8) 1024 2048 = true /\
  check_inclusion (data_key1_of 1020) (data_key2_of 1020 8) 2048 3072 = false.
Proof.
  split; [|reflexivity].
  apply (check_inclusion_is_row_range_intersection 1020 8 1024 2048);
    try lia.
  exists 1024. lia.
Defined.

(** ** shuffleChunk against the shuffle filter *)

Lemma zrange_length start count : 0 <= count -> zlen (zrange start count) = count.
Proof.
  intros H. unfold zlen, zrange. rewrite length_map, length_seq. lia.
Qed.

Lemma zrange_nth start count k d :
  (k < Z.to_nat count)%nat -> nth k (zrange start count) d = start + Z.of_nat k.
Proof.
  intros H. unfold zrange.
  rewrite (nth_indep _ d (start + Z.of_nat 0))
    by (rewrite length_map, length_seq; exact H).
  rewrite (map_nth (fun k => start + Z.of_nat k)), seq_nth by exact H.
  reflexivity.
Qed.

Lemma zrange_cons start count :
  0 < count -> zrange start count = start :: zrange (start + 1) (count - 1).
Proof.
  intros H. unfold zrange.
  replace (Z.to_nat count) with (S (Z.to_nat (count - 1))) by lia.
  cbn [seq map]. f_equal; [lia|].
  rewrite <- seq_shift, map_map. apply map_ext. intros k. lia.
Qed.

Lemma zrange_In start count x :
  In x (zrange start count) -> start <= x < start + count.
Proof.
  unfold zrange. rewrite in_map_iff. intros (k & <- & Hk).
  apply in_seq in Hk. lia.
Qed.

(** Element [a * k + b] of the concatenation of lists of length [k]. *)
Lemma nth_flat_map_uniform {A B} (f : A -> list B) (k : nat) (l : list A) :
  (forall x, List.length (f x) = k) ->
  forall a b d d0,
    (a < List.length l)%nat -> (b < k)%nat ->
    nth (a * k + b) (flat_map f l) d = nth b (f (nth a l d0)) d.
Proof.
  intros Hlen. induction l as [|x l IH]; intros a b d d0 Ha Hb; simpl in Ha; [lia|].
  cbn [flat_map]. destruct a as [|a].
  - simpl. apply app_nth1. rewrite Hlen. exact Hb.
  - rewrite app_nth2 by (rewrite Hlen; simpl; lia).
    rewrite Hlen. replace (S a * k + b - k)%nat with (a * k + b)%nat by (simpl; lia).
    simpl. apply IH; lia.
Qed.

Lemma flat_map_uniform_length {A B} (f : A -> list B) (k : nat) (l : list A) :
  (forall x, List.length (f x) = k) ->
  List.length (flat_map f l) = (List.length l * k)%nat.
Proof.
  intros Hlen. induction l as [|x l IH]; [reflexivity|].
  cbn [flat_map]. rewrite length_app, Hlen, IH. simpl. lia.
Qed.

Lemma gather_in_bounds input : forall src_indices,
  (forall i, In i src_indices -> 0 <= i < zlen input) ->
  gather input src_indices
  = Some (map (fun i => nth (Z.to_nat i) input Byte.x00) src_indices).
Proof.
  induction src_indices as [|i rest IH]; intros Hin; [reflexivity|].
  cbn [gather map].
  assert (Hi : 0 <= i < zlen input) by (apply Hin; now left).
  destruct (Z.ltb_spec i 0); [lia|].
  rewrite IH by (intros j Hj; apply Hin; now right).
  destruct (nth_error input (Z.to_nat i)) as [b|] eqn:Hnth.
  - now rewrite (nth_error_nth _ _ _ Hnth).
  - apply nth_error_None in Hnth. unfold zlen in Hi. lia.
Qed.

(** The bytes of a buffer from an offset on, one index at a time. *)
Lemma bytes_at_by_index (data : buffer_t) off k :
  0 <= off -> 0 <= k -> off + k <= zlen data ->
  map (fun v => nth (Z.to_nat (off + v)) data Byte.x00) (zrange 0 k)
  = bytes_at data off k.
Proof.
  intros Hoff Hk Hfit.
  apply (nth_ext _ _ Byte.x00 Byte.x00).
  - pose proof (bytes_at_length data off k Hoff Hk Hfit) as Hl.
    pose proof (zrange_length 0 k Hk) as Hz.
    unfold zlen in Hl, Hz. rewrite length_map. lia.
  - intros i Hi. rewrite length_map in Hi.
    pose proof (zrange_length 0 k Hk) as Hz. unfold zlen in Hz.
    rewrite (nth_indep _ Byte.x00
               ((fun v => nth (Z.to_nat (off + v)) data Byte.x00) 0))
      by (rewrite length_map; exact Hi).
    rewrite (map_nth (fun v => nth (Z.to_nat (off + v)) data Byte.x00)).
    rewrite zrange_nth by lia.
    unfold bytes_at. rewrite nth_firstn.
    destruct (Nat.ltb_spec i (Z.to_nat k)); [|lia].
    rewrite nth_skipn. f_equal. lia.
Qed.

Lemma firstn_plus {A} (n m : nat) : forall l : list A,
  firstn (n + m) l = firstn n l ++ firstn m (skipn n l).
Proof.
  induction n as [|n IH]; intros l; [reflexivity|].
  destruct l as [|x l]; simpl.
  - now rewrite firstn_nil.
  - now rewrite IH.
Qed.

Lemma bytes_at_app (l : buffer_t) a k1 k2 :
  0 <= a -> 0 <= k1 -> 0 <= k2 ->
  bytes_at l a k1 ++ bytes_at l (a + k1) k2 = bytes_at l a (k1 + k2).
Proof.
  intros Ha H1 H2. unfold bytes_at.
  rewrite (Z2Nat.inj_add k1 k2), firstn_plus by lia.
  rewrite skipn_skipn. do 3 f_equal. lia.
Qed.

Lemma shuffled_length type_size (data : buffer_t) :
  0 <= type_size -> 0 <= zlen data / type_size ->
  zlen (shuffled type_size data) = type_size * (zlen data / type_size).
Proof.
  intros Hts Hn. unfold shuffled, zlen at 1.
  rewrite (flat_map_uniform_length _ (Z.to_nat (zlen data / type_size))).
  - pose proof (zrange_length 0 type_size Hts) as Hz. unfold zlen at 1 in Hz.
    rewrite Nat2Z.inj_mul, Hz. lia.
  - intros v. rewrite length_map.
    pose proof (zrange_length 0 (zlen data / type_size) Hn) as Hz.
    unfold zlen at 1 in Hz. lia.
Qed.

(** Byte [v] of element [e] is found in plane [v] at position [e]. *)
Lemma shuffled_nth type_size (data : buffer_t) v e :
  0 <= v < type_size -> 0 <= e < zlen data / type_size ->
  nth (Z.to_nat (v * (zlen data / type_size) + e)) (shuffled type_size data) Byte.x00
  = nth (Z.to_nat (e * type_size + v)) data Byte.x00.
Proof.
  intros Hv He. unfold shuffled.
  set (n := zlen data / type_size) in *.
  replace (Z.to_nat (v * n + e))
    with (Z.to_nat v * Z.to_nat n + Z.to_nat e)%nat by nia.
  rewrite (nth_flat_map_uniform _ (Z.to_nat n) _) with (d0 := 0).
  - rewrite zrange_nth by lia.
    rewrite (nth_indep _ Byte.x00
               ((fun e => nth (Z.to_nat (e * type_size + (0 + Z.of_nat (Z.to_nat v))))
                              data Byte.x00) 0)).
    + rewrite (map_nth (fun e => nth (Z.to_nat (e * type_size
                                                + (0 + Z.of_nat (Z.to_nat v))))
                                     data Byte.x00)).
      rewrite zrange_nth by lia.
      rewrite !Z.add_0_l, !Z2Nat.id by lia. reflexivity.
    + rewrite length_map.
      pose proof (zrange_length 0 n ltac:(lia)) as Hz. unfold zlen in Hz. lia.
  - intros x. rewrite length_map.
    pose proof (zrange_length 0 n ltac:(lia)) as Hz. unfold zlen in Hz. lia.
  - pose proof (zrange_length 0 type_size ltac:(lia)) as Hz. unfold zlen in Hz. lia.
  - lia.
Qed.

(** The bytes the de-shuffle loop reads for the elements [s .. s + m - 1]
    of a shuffled chunk are those elements in their original order. *)
Lemma deshuffle_elements type_size (data : buffer_t) (m : nat) : forall s,
  let n := zlen data / type_size in
  0 < type_size -> zlen data = type_size * n ->
  0 <= s -> s + Z.of_nat m <= n ->
  map (fun i => nth (Z.to_nat i) (shuffled type_size data) Byte.x00)
      (flat_map (fun e => map (fun v => v * n + e) (zrange 0 type_size))
                (zrange s (Z.of_nat m)))
  = bytes_at data (type_size * s) (type_size * Z.of_nat m).
Proof.
  intros s n. revert s.
  induction m as [|m IH]; intros s Hts Hlen Hs Hfit.
  - simpl. rewrite Z.mul_0_r. reflexivity.
  - rewrite (zrange_cons s (Z.of_nat (S m))) by lia.
    replace (Z.of_nat (S m) - 1) with (Z.of_nat m) by lia.
    cbn [flat_map]. rewrite map_app, map_map.
    rewrite (IH (s + 1)) by lia.
    rewrite (map_ext_in _ (fun v => nth (Z.to_nat (type_size * s + v)) data Byte.x00)).
    + rewrite bytes_at_by_index by nia.
      replace (type_size * (s + 1)) with (type_size * s + type_size) by lia.
      rewrite bytes_at_app by nia.
      f_equal; lia.
    + intros v Hv. apply zrange_In in Hv.
      unfold n. rewrite (shuffled_nth type_size data v s) by (fold n; lia).
      f_equal. lia.
Qed.

(** X4.  [shuffleChunk] undoes the shuffle filter.  For elements of 1
    to 8 bytes and a chunk of whole elements, de-shuffling the shuffled
    chunk for the element range that starts at byte [output_offset] and
    has [output_size] bytes writes that range of the original chunk to
    the start of the output, and leaves the rest of the output alone;
    for the whole chunk it gives the chunk back. *)
Theorem shuffleChunk_inverts_the_shuffle_filter :
  forall errorChecking type_size (data output : buffer_t) start_element num_elements,
    let elements := zlen data / type_size in
    let output_offset := type_size * start_element in
    let output_size := type_size * num_elements in
    1 <= type_size <= 8 ->
    zlen data = type_size * elements -> zlen data < 2 ^ 32 ->
    0 <= start_element -> 0 <= num_elements ->
    start_element + num_elements <= elements ->
    output_size <= zlen output ->
    shuffleChunk errorChecking (shuffled type_size data) (zlen data)
                 output output_offset output_size type_size
    = Ok (bytes_at data output_offset output_size
          ++ skipn (Z.to_nat output_size) output) /\
    (start_element = 0 -> num_elements = elements ->
     bytes_at data output_offset output_size = data).
Proof.
  intros errorChecking type_size data output s m n output_offset output_size
         Hts Hlen H32 Hs Hm Hfit Hout.
  assert (Hn : 0 <= n) by (apply Z.div_pos; unfold zlen; lia).
  split.
  - unfold shuffleChunk.
    destruct (Z.ltb_spec type_size 0); [lia|].
    destruct (Z.gtb_spec type_size 8); [lia|].
    rewrite Bool.andb_false_r.
    assert (Hu : u32 type_size = type_size)
      by (unfold u32; apply Z.mod_small; lia).
    rewrite Hu.
    destruct (Z.eqb_spec type_size 0); [lia|].
    assert (Hq : forall k, Z.quot (type_size * k) type_size = k)
      by (intros k; rewrite Z.mul_comm; apply Z.quot_mul; lia).
    assert (Hqn : Z.quot (zlen data) type_size = n) by (rewrite Hlen; apply Hq).
    subst output_offset output_size.
    rewrite Hqn, !Hq.
    rewrite gather_in_bounds.
    + unfold n. rewrite <- (Z2Nat.id m Hm).
      rewrite (deshuffle_elements type_size data (Z.to_nat m) s) by (fold n; lia).
      rewrite (Z2Nat.id m Hm).
      assert (Hb : zlen (bytes_at data (type_size * s) (type_size * m))
                   = type_size * m) by (apply bytes_at_length; nia).
      rewrite Hb. unfold copy_into.
      destruct (Z.leb_spec 0 0); [|lia].
      destruct (Z.leb_spec 0 (type_size * m)); [|nia].
      destruct (Z.leb_spec (0 + type_size * m) (zlen output)); [|lia].
      destruct (Z.leb_spec (0 + type_size * m)
                  (zlen (bytes_at data (type_size * s) (type_size * m)))); [|lia].
      simpl. rewrite firstn_all2 by (unfold zlen in Hb; lia).
      reflexivity.
    + intros i Hi. apply in_flat_map in Hi. destruct Hi as (e & He & Hi).
      apply in_map_iff in Hi. destruct Hi as (v & <- & Hv).
      apply zrange_In in He, Hv.
      rewrite shuffled_length by lia. fold n. nia.
  - intros -> ->. subst output_offset output_size. fold n.
    rewrite Z.mul_0_r, <- Hlen. unfold bytes_at. simpl.
    apply firstn_all2. unfold zlen. lia.
Qed.

Lemma shuffleChunk_inverts_the_shuffle_filter_witness :
  shuffled 2 Sample.chunk
    = [Byte.x01; Byte.x03; Byte.x05; Byte.x02; Byte.x04; Byte.x06] /\
  shuffleChunk true (shuffled 2 Sample.chunk) 6 (new_uint8 6) 2 4 2
    = Ok [Byte.x03; Byte.x04; Byte.x05; Byte.x06; Byte.x00; Byte.x00].
Proof.
  split; [reflexivity|].
  refine (proj1 (shuffleChunk_inverts_the_shuffle_filter
                   true 2 Sample.chunk (new_uint8 6) 1 2 _ _ _ _ _ _ _));
    by_evaluation.
Defined.

(** ** The fill loop of readDataset *)

Lemma fill_loop_fits fill fillsize (count : nat) : forall i buffer,
  0 <= i -> 0 <= fillsize -> fillsize <= zlen fill ->
  i + Z.of_nat count * fillsize <= zlen buffer ->
  exists b,
    fill_loop count i fill fillsize buffer = Ok b /\
    zlen b = zlen buffer /\
    (forall k, 0 <= k < Z.of_nat count ->
               bytes_at b (i + k * fillsize) fillsize = bytes_at fill 0 fillsize) /\
    (forall a m, 0 <= a -> 0 <= m -> a + m <= i ->
                 bytes_at b a m = bytes_at buffer a m).
Proof.
  induction count as [|count IH]; intros i buffer Hi Hf Hfill Hfit.
  - exists buffer. simpl. repeat split; intros; try reflexivity. lia.
  - cbn [fill_loop]. rewrite Nat2Z.inj_succ in Hfit.
    destruct (copy_into_spec buffer i fill 0 fillsize)
      as (b1 & Hcopy & Hlen1 & Hnew1 & Hold1); try lia; try nia.
    rewrite Hcopy. cbn [bind].
    destruct (IH (i + fillsize) b1) as (b & Hloop & Hlen & Hnew & Hold);
      try lia; try (rewrite Hlen1; nia).
    exists b. split; [exact Hloop|]. split; [congruence|]. split.
    + intros k Hk. destruct (Z.eq_dec k 0) as [->|Hne].
      * rewrite Z.mul_0_l, Z.add_0_r. rewrite Hold by lia. exact Hnew1.
      * replace (i + k * fillsize) with (i + fillsize + (k - 1) * fillsize) by lia.
        apply Hnew. lia.
    + intros a m Ha Hm Ham. rewrite Hold by lia. apply Hold1; lia.
Qed.

Lemma fill_loop_overruns fill fillsize (count : nat) : forall i buffer,
  0 <= i -> 0 < fillsize -> fillsize <= zlen fill ->
  (0 < count)%nat ->
  zlen buffer < i + Z.of_nat count * fillsize ->
  fill_loop count i fill fillsize buffer = Undefined.
Proof.
  induction count as [|count IH]; intros i buffer Hi Hf Hfill Hcount Hover; [lia|].
  cbn [fill_loop]. rewrite Nat2Z.inj_succ in Hover.
  destruct (Z.le_gt_cases (i + fillsize) (zlen buffer)) as [Hfit|Hout].
  - destruct (copy_into_spec buffer i fill 0 fillsize)
      as (b1 & Hcopy & Hlen1 & _); try lia.
    rewrite Hcopy. cbn [bind].
    apply IH; lia.
  - unfold copy_into.
    destruct (Z.leb_spec (i + fillsize) (zlen buffer)); [lia|].
    rewrite !Bool.andb_false_r. reflexivity.
Qed.

(** X5.  The fill loop of [readDataset] writes whole fill values of
    [fillsize] bytes at the multiples of [fillsize] below [buffer_size].
    When [fillsize] divides [buffer_size] it fills the buffer with
    copies of the fill value; when it does not, the last copy runs past
    the end of the buffer. *)
Theorem fill_buffer_fits_iff_fillsize_divides :
  forall metaData buffer_size (buffer : buffer_t),
    let fillsize := meta_entry_t.fillsize metaData in
    let fill := meta_entry_t.fill metaData in
    0 < fillsize -> fillsize <= zlen fill ->
    0 < buffer_size -> zlen buffer = buffer_size ->
    (buffer_size mod fillsize = 0 ->
     exists b,
       fill_buffer metaData buffer_size buffer = Ok b /\
       zlen b = buffer_size /\
       forall k, 0 <= k < buffer_size / fillsize ->
                 bytes_at b (k * fillsize) fillsize = bytes_at fill 0 fillsize) /\
    (buffer_size mod fillsize <> 0 ->
     fill_buffer metaData buffer_size buffer = Undefined).
Proof.
  intros metaData buffer_size buffer fillsize fill Hf Hfill Hsize Hlen.
  unfold fill_buffer. fold fillsize fill.
  destruct (Z.gtb_spec fillsize 0) as [_|]; [|lia].
  pose proof (Z.div_mod buffer_size fillsize ltac:(lia)) as Hdm.
  pose proof (Z.mod_pos_bound buffer_size fillsize Hf) as Hmod.
  assert (Hq : 0 <= buffer_size / fillsize) by (apply Z.div_pos; lia).
  split; intros Hrem.
  - assert (Hcount : (buffer_size + fillsize - 1) / fillsize = buffer_size / fillsize).
    { symmetry. apply (Z.div_unique _ _ _ (fillsize - 1)); [lia|]. nia. }
    rewrite Hcount.
    destruct (fill_loop_fits fill fillsize (Z.to_nat (buffer_size / fillsize)) 0 buffer)
      as (b & Hloop & Hb & Hnew & _); try lia;
      try (rewrite Z2Nat.id by lia; nia).
    exists b. split; [exact Hloop|]. split; [congruence|].
    intros k Hk. rewrite <- (Hnew k) by (rewrite Z2Nat.id by lia; lia).
    reflexivity.
  - assert (Hcount : (buffer_size + fillsize - 1) / fillsize
                     = buffer_size / fillsize + 1).
    { symmetry.
      apply (Z.div_unique _ _ _ (buffer_size mod fillsize - 1)); [lia|]. nia. }
    rewrite Hcount.
    apply fill_loop_overruns; try lia; try (rewrite Z2Nat.id by lia; nia).
Qed.

Lemma fill_buffer_fits_iff_fillsize_divides_witness :
  fill_buffer Sample.meta_filled 6 (new_uint8 6) = Undefined /\
  fill_buffer Sample.meta_filled 8 (new_uint8 8)
    = Ok [Byte.xaa; Byte.xbb; Byte.xcc; Byte.xdd;
          Byte.xaa; Byte.xbb; Byte.xcc; Byte.xdd].
Proof.
  split.
  - refine (proj2 (fill_buffer_fits_iff_fillsize_divides
                     Sample.meta_filled 6 (new_uint8 6) _ _ _ _) _);
      by_evaluation.
  - destruct (proj1 (fill_buffer_fits_iff_fillsize_divides
                       Sample.meta_filled 8 (new_uint8 8)
                       ltac:(by_evaluation) ltac:(by_evaluation)
                       ltac:(by_evaluation) ltac:(by_evaluation))
                    ltac:(by_evaluation)) as (b & Hfill & _).
    rewrite Hfill. vm_compute in Hfill. symmetry. exact Hfill.
Defined.

(** ** The repository url *)

Lemma filename_ptr_spec : forall char_ptr filename,
  (has_slash char_ptr = false /\ filename_ptr char_ptr filename = filename) \/
  (exists dir,
      char_ptr = (dir ++ String slash (filename_ptr char_ptr filename))%string /\
      has_slash (filename_ptr char_ptr filename) = false).
Proof.
  induction char_ptr as [|c rest IH]; intros filename.
  - left. split; reflexivity.
  - cbn [filename_ptr has_slash].
    destruct (Ascii.eqb_spec c slash) as [->|Hc].
    + right. destruct (IH rest) as [[Hno Heq]|(dir & Heq & Hno)].
      * exists EmptyString. rewrite Heq. split; [reflexivity|exact Hno].
      * exists (String slash dir). split; [|exact Hno].
        simpl. f_equal. exact Heq.
    + destruct (IH filename) as [[Hno Heq]|(dir & Heq & Hno)].
      * left. split; [exact Hno|exact Heq].
      * right. exists (String c dir). split; [|exact Hno].
        simpl. f_equal. exact Heq.
Qed.

(** X6.  The file name [metaGetUrl] takes from a resource is its last
    path component: it holds no '/', and the resource is either that
    name alone or a directory part ending in '/' followed by it. *)
Theorem filename_ptr_is_the_last_path_component :
  forall resource,
    let filename := filename_ptr resource resource in
    has_slash filename = false /\
    ((has_slash resource = false /\ filename = resource) \/
     exists dir, resource = (dir ++ String slash filename)%string).
Proof.
  intros resource filename. subst filename.
  destruct (filename_ptr_spec resource resource) as [[Hno Heq]|(dir & Heq & Hno)].
  - split; [now rewrite Heq|]. left. split; assumption.
  - split; [exact Hno|]. right. exists dir. exact Heq.
Qed.





Lemma substring_whole : forall s m, (String.length s <= m)%nat -> substring 0 m s = s.
Proof.
  induction s as [|c s IH]; intros m Hm.
  - now destruct m.
  - destruct m as [|m]; simpl in *; [lia|]. f_equal. apply IH. lia.
Qed.



(** ** parseUrl *)

Lemma substring_length_whole : forall s, substring 0 (String.length s) s = s.
Proof. intros s. apply substring_whole. lia. Qed.

Lemma prefix_nil s : prefix "" s = true.
Proof. now destruct s. Qed.

Lemma index_markers resource :
  index 0 "//" ("file://" ++ resource) = Some 5%nat /\
  index 0 "file://" ("file://" ++ resource) = Some 0%nat /\
  index 0 "//" ("s3://" ++ resource) = Some 3%nat /\
  index 0 "s3://" ("s3://" ++ resource) = Some 0%nat /\
  index 0 "file://" ("s3://" ++ resource)
  = match index 0 "file://" resource with
    | Some n => Some (5 + n)%nat
    | None => None
    end.
Proof.
  repeat split; cbn; rewrite ?prefix_nil; try reflexivity.
  now destruct (index 0 "file://" resource).
Qed.

(** X8.  [parseUrl] on urls of the two schemes it knows.
    "file://" followed by any resource gives the FILE driver and that
    resource.  "s3://" followed by a resource gives the S3 driver and
    that resource, unless the resource itself contains "file://": the
    search for "file://" comes first and is not tied to the start of the
    url, so such a url is opened as a local file. *)
Theorem parseUrl_of_file_and_s3_urls :
  forall resource,
    parseUrl ("file://" ++ resource) = (FILE, resource) /\
    parseUrl ("s3://" ++ resource)
    = (match index 0 "file://" resource with
       | Some _ => FILE
       | None => S3
       end, resource).
Proof.
  intros resource.
  destruct (index_markers resource) as (Hf2 & Hf7 & Hs2 & Hs5 & Hsf).
  unfold parseUrl, StringLib_find. split.
  - rewrite Hf2, Hf7.
    cbn [append String.length Nat.sub substring].
    now rewrite substring_length_whole, Nat.sub_0_r, substring_length_whole.
  - rewrite Hs2, Hs5, Hsf.
    cbn [append String.length Nat.sub substring].
    rewrite substring_length_whole, Nat.sub_0_r, substring_length_whole.
    now destruct (index 0 "file://" resource).
Qed.

(** ** The cache against the resource *)

Lemma nearer_fold_In {T} (h : Z -> Z) (k : Z) (l : list (Z * T)) :
  forall acc p,
    fold_left (Table.nearer h k) l acc = Some p ->
    acc = Some p \/ In p l.
Proof.
  induction l as [|q l IH]; intros acc p H; simpl in H; [now left|].
  destruct (IH _ _ H) as [Hacc|Hin]; [|right; now right].
  unfold Table.nearer in Hacc.
  destruct ((h (fst q) =? h k) && (fst q <=? k)); [|now left].
  destruct acc as [b|].
  - destruct (fst b <? fst q); [|now left].
    injection Hacc as <-. right. now left.
  - injection Hacc as <-. right. now left.
Qed.

(** A lookup hands out an entry the table stores. *)
Lemma find_nearest_under_In {T} (k : Z) (tb : Table.t T) (v : T) :
  Table.find_nearest_under k tb = Some v ->
  exists k', In (k', v) (Table.nodes tb).
Proof.
  unfold Table.find_nearest_under.
  destruct (fold_left _ _ _) as [[k' v']|] eqn:Hfold; simpl; [|discriminate].
  intros [= ->]. exists k'.
  destruct (nearer_fold_In _ _ _ _ _ Hfold) as [Hnone|Hin];
    [discriminate Hnone|exact Hin].
Qed.

Lemma ioCheckCache_In size pos cache line_mask entry :
  ioCheckCache size pos cache line_mask = Some entry ->
  exists k, In (k, entry) (Table.nodes cache).
Proof.
  unfold ioCheckCache.
  destruct (Table.find_nearest_under pos cache) as [e|] eqn:Hfirst.
  - destruct (_ && _); [|easy].
    intros [= <-]. now apply (find_nearest_under_In pos).
  - destruct (pos >? _); [|easy].
    destruct (Table.find_nearest_under (u64 _) cache) as [e|] eqn:Hprev; [|easy].
    destruct (_ && _); [|easy].
    intros [= <-]. now apply (find_nearest_under_In _ _ _ Hprev).
Qed.

Lemma without_In_nodes {T} (k : Z) (l : list (Z * T)) p :
  In p (Table.without k l) -> In p l.
Proof. unfold Table.without. intros H. now apply filter_In in H. Qed.

Lemma add_In_nodes {T} (k : Z) (v : T) (tb : Table.t T) p :
  In p (Table.nodes (Table.add k v tb)) -> p = (k, v) \/ In p (Table.nodes tb).
Proof.
  unfold Table.add.
  destruct (_ <=? _)%nat; [now right|]. simpl.
  intros H. apply in_app_or in H. destruct H as [H|[H|[]]].
  - right. now apply without_In_nodes in H.
  - now left.
Qed.

Lemma ioEnsureRoom_In_nodes cache fr p :
  In p (Table.nodes (fst (ioEnsureRoom cache fr))) -> In p (Table.nodes cache).
Proof.
  unfold ioEnsureRoom.
  destruct (Table.isfull cache); [|now simpl].
  destruct (Table.first cache) as [[oldest_pos oldest_entry]|]; simpl; [|tauto].
  apply without_In_nodes.
Qed.

(** A slice of a slice. *)
Lemma bytes_at_bytes_at (l : buffer_t) a n b m :
  0 <= a -> 0 <= b -> 0 <= m -> b + m <= n ->
  bytes_at (bytes_at l a n) b m = bytes_at l (a + b) m.
Proof.
  intros Ha Hb Hm Hfit. unfold bytes_at.
  rewrite skipn_firstn_comm, firstn_firstn, skipn_skipn.
  f_equal; [lia|]. f_equal. lia.
Qed.

Lemma bytes_at_short (l : buffer_t) n :
  0 <= n -> zlen (bytes_at l 0 n) = n -> n <= zlen l.
Proof.
  unfold bytes_at, zlen. simpl. rewrite length_firstn. lia.
Qed.

Section CacheFacts.

Variables IO_CACHE_L1_LINESIZE IO_CACHE_L1_MASK IO_CACHE_L2_MASK : Z.
Variables IO_CACHE_L1_ENTRIES IO_CACHE_L2_ENTRIES : nat.
Variable fseek_ok : Z -> bool.
Variable fread : Z -> Z -> Z * buffer_t.
Variable rangeGet : Z -> Z -> Z * buffer_t.
Variable aws : bool.
Variable contents : buffer_t.
Variable ioDriver : io_driver_t.

Hypothesis contents_fit : zlen contents < 2 ^ 63.
Hypothesis backend : reads_resource fseek_ok fread rangeGet aws contents ioDriver.

(** The reader's functions at the constants of this section. *)
Let ioRequest' :=
  ioRequest IO_CACHE_L1_LINESIZE IO_CACHE_L1_MASK IO_CACHE_L2_MASK
            fseek_ok fread rangeGet aws ioDriver.

Lemma coherent_new :
  coherent contents (io_context_new IO_CACHE_L1_MASK IO_CACHE_L2_MASK
                                    IO_CACHE_L1_ENTRIES IO_CACHE_L2_ENTRIES).
Proof. split; intros k e []. Qed.

Lemma ioInsert_coherent file_position entry ctx fr :
  coherent contents ctx -> entry_holds contents entry ->
  coherent contents (fst (ioInsert IO_CACHE_L1_LINESIZE file_position entry ctx fr)).
Proof.
  intros [H1 H2] Hentry. unfold ioInsert.
  destruct (cache_entry_t.size entry <=? IO_CACHE_L1_LINESIZE).
  - pose proof (ioEnsureRoom_In_nodes (l1 ctx) fr) as Hroom.
    destruct (ioEnsureRoom (l1 ctx) fr) as [roomy fr']. simpl in Hroom |- *.
    split; simpl; [|exact H2].
    intros k e Hin. apply add_In_nodes in Hin. destruct Hin as [[= -> ->]|Hin].
    + exact Hentry.
    + apply (H1 k). now apply Hroom.
  - pose proof (ioEnsureRoom_In_nodes (l2 ctx) fr) as Hroom.
    destruct (ioEnsureRoom (l2 ctx) fr) as [roomy fr']. simpl in Hroom |- *.
    split; simpl; [exact H1|].
    intros k e Hin. apply add_In_nodes in Hin. destruct Hin as [[= -> ->]|Hin].
    + exact Hentry.
    + apply (H2 k). now apply Hroom.
Qed.

(** What an entry that holds the resource gives for a range inside it. *)
Lemma entry_holds_range e pos size :
  entry_holds contents e ->
  0 <= size -> cache_entry_t.pos e <= pos ->
  pos + size <= cache_entry_t.pos e + cache_entry_t.size e ->
  pos - cache_entry_t.pos e + size <= zlen (cache_entry_t.data e) /\
  bytes_at (cache_entry_t.data e) (pos - cache_entry_t.pos e) size
  = bytes_at contents pos size /\
  (0 < size -> pos + size <= zlen contents) /\
  pos - cache_entry_t.pos e < 2 ^ 63.
Proof.
  intros (Hpos & Hsize & H64 & Hfull) Hs Hle Hin.
  destruct (Z.eq_dec (cache_entry_t.size e) 0) as [Hzero|Hsome].
  - assert (Hs0 : size = 0) by lia. subst size.
    split; [unfold zlen; lia|]. split; [reflexivity|]. split; lia.
  - destruct (Hfull ltac:(lia)) as [Hfit Hbytes].
    assert (Hlen : cache_entry_t.size e <= zlen (cache_entry_t.data e)).
    { apply bytes_at_short; [exact Hsize|]. rewrite Hbytes.
      apply bytes_at_length; lia. }
    split; [lia|]. split; [|split; lia].
    change (pos - cache_entry_t.pos e) with (0 + (pos - cache_entry_t.pos e)).
    rewrite <- (bytes_at_bytes_at (cache_entry_t.data e) 0 (cache_entry_t.size e)
                  (pos - cache_entry_t.pos e) size) by lia.
    rewrite Hbytes, bytes_at_bytes_at by lia.
    f_equal. lia.
Qed.

Lemma ioProbe_In size pos ctx entry :
  ioProbe IO_CACHE_L1_MASK IO_CACHE_L2_MASK size pos ctx = Some entry ->
  ((exists k, In (k, entry) (Table.nodes (l1 ctx))) \/
   (exists k, In (k, entry) (Table.nodes (l2 ctx)))) /\
  cache_entry_t.pos entry <= pos /\
  u64 (pos + size) <= u64 (cache_entry_t.pos entry + cache_entry_t.size entry).
Proof.
  unfold ioProbe.
  destruct (ioCheckCache size pos (l1 ctx) IO_CACHE_L1_MASK) as [e|] eqn:H1.
  - intros [= <-]. split; [left; now apply (ioCheckCache_In _ _ _ _ _ H1)|].
    now apply (ioCheckCache_hit_test _ _ _ _ _ H1).
  - intros H2. split; [right; now apply (ioCheckCache_In _ _ _ _ _ H2)|].
    now apply (ioCheckCache_hit_test _ _ _ _ _ H2).
Qed.

(** The heart of the cache: from a coherent context a request that
    returns hands out the bytes of the resource and leaves a coherent
    context. *)
Lemma ioRequest_serves size pos hint st reply st' :
  coherent contents st.(ioContext) ->
  0 <= size -> 0 <= pos -> pos + size < 2 ^ 64 ->
  ioRequest' size pos hint st = (Ok reply, st') ->
  pointee reply size = Some (bytes_at contents pos size) /\
  (0 < size -> pos + size <= zlen contents) /\
  rp_pos reply = pos + size /\
  coherent contents st'.(ioContext).
Proof.
  intros Hcoh Hsize Hpos Hfit. unfold ioRequest', ioRequest.
  assert (Hu : u64 (pos + size) = pos + size) by (apply u64_id; unfold in_u64; lia).
  destruct (ioProbe _ _ size pos (ioContext st)) as [entry|] eqn:Hprobe.
  - intros [= <- <-].
    apply ioProbe_In in Hprobe. destruct Hprobe as (Hin & Hle & Htest).
    assert (Hentry : entry_holds contents entry).
    { destruct Hcoh as [H1 H2].
      destruct Hin as [[k Hin]|[k Hin]]; [now apply (H1 k)|now apply (H2 k)]. }
    pose proof Hentry as (Hepos & Hesize & He64 & _).
    rewrite Hu, u64_id in Htest by (unfold in_u64; lia).
    destruct (entry_holds_range entry pos size Hentry Hsize Hle Htest)
      as (Hlen & Hbytes & Hend & Hoff).
    unfold pointee. simpl.
    rewrite s64_id by (unfold in_s64; lia).
    destruct (Z.leb_spec 0 (pos - cache_entry_t.pos entry)); [|lia].
    destruct (Z.leb_spec 0 size); [|lia].
    destruct (Z.leb_spec (pos - cache_entry_t.pos entry + size)
                (zlen (cache_entry_t.data entry))); [|lia].
    simpl. rewrite Hbytes.
    split; [reflexivity|]. split; [exact Hend|]. split; [exact Hu|exact Hcoh].
  - destruct (ioRead _ _ _ _ ioDriver (Z.max size hint) pos) as [[n d]| |] eqn:Hread;
      [|intros [= ]|intros [= ]].
    destruct (Z.ltb_spec n size) as [|Hn]; [intros [= ]|].
    assert (Hentry : entry_holds contents (cache_entry_t.mk d pos n)).
    { unfold entry_holds. simpl.
      split; [exact Hpos|]. split; [lia|].
      destruct (Z.eq_dec n 0) as [->|Hsome]; [split; lia|].
      destruct (backend _ _ _ _ Hread Hpos ltac:(lia)) as [Hend Hbytes].
      split; [lia|]. intros _. split; assumption. }
    pose proof (ioInsert_coherent pos (cache_entry_t.mk d pos n)
                  (ioContext st) (freed st) Hcoh Hentry) as Hcoh'.
    destruct (ioInsert _ _ _ _ _) as [ctx' fr']. simpl in Hcoh'.
    intros [= <- <-]. simpl.
    destruct (entry_holds_range _ pos size Hentry Hsize ltac:(simpl; lia)
                                ltac:(simpl; lia)) as (Hlen & Hslice & Hend & _).
    simpl in Hlen, Hslice. rewrite Z.sub_diag in Hlen, Hslice.
    unfold pointee. simpl.
    destruct (Z.leb_spec 0 size); [|lia].
    destruct (Z.leb_spec size (zlen d)); [|lia].
    simpl. rewrite Hslice.
    split; [reflexivity|]. split; [exact Hend|]. split; [exact Hu|exact Hcoh'].
Qed.

End CacheFacts.

(** The file backend of the sample runs reads its resource. *)
Lemma firstn_of_its_length {A} (n : nat) (l : list A) :
  firstn (List.length (firstn n l)) l = firstn n l.
Proof.
  rewrite length_firstn.
  destruct (Nat.le_ge_cases n (List.length l)) as [Hle|Hge].
  - now rewrite Nat.min_l.
  - rewrite Nat.min_r by exact Hge. now rewrite !firstn_all2 by lia.
Qed.

Lemma sample_backend_reads_resource (file : buffer_t) rangeGet aws :
  reads_resource Sample.fseek_ok (Sample.fread file) rangeGet aws file FILE.
Proof.
  intros size pos n d Hread Hpos Hn. unfold ioRead, Sample.fseek_ok in Hread.
  destruct (Z.leb_spec 0 pos); [|lia].
  unfold Sample.fread in Hread. injection Hread as <- <-.
  unfold bytes_at, zlen in Hn |- *. split.
  - rewrite length_firstn, length_skipn in Hn |- *. lia.
  - simpl. rewrite Nat2Z.id.
    rewrite firstn_app, Nat.sub_diag. simpl. rewrite app_nil_r.
    rewrite firstn_all. symmetry. apply firstn_of_its_length.
Qed.

(** X9.  The cache is transparent.  Over a backend that reads a
    resource of less than 2^63 bytes, a new context is coherent with the
    resource, and from a coherent context every request that returns,
    served from either cache or from the backend, hands out a pointer to
    [size] bytes equal to the bytes of the resource at [pos .. pos +
    size - 1], advances the position by [size], and leaves the context
    coherent; a request for at least one byte never returns for a range
    that runs past the end of the resource. *)
Theorem ioRequest_returns_the_bytes_of_the_resource :
  forall IO_CACHE_L1_LINESIZE IO_CACHE_L1_MASK IO_CACHE_L2_MASK
         (IO_CACHE_L1_ENTRIES IO_CACHE_L2_ENTRIES : nat)
         fseek_ok fread rangeGet aws contents ioDriver,
    zlen contents < 2 ^ 63 ->
    reads_resource fseek_ok fread rangeGet aws contents ioDriver ->
    coherent contents (io_context_new IO_CACHE_L1_MASK IO_CACHE_L2_MASK
                                      IO_CACHE_L1_ENTRIES IO_CACHE_L2_ENTRIES) /\
    forall size pos hint st reply st',
      coherent contents st.(ioContext) ->
      0 <= size -> 0 <= pos -> pos + size < 2 ^ 64 ->
      ioRequest IO_CACHE_L1_LINESIZE IO_CACHE_L1_MASK IO_CACHE_L2_MASK
                fseek_ok fread rangeGet aws ioDriver size pos hint st
        = (Ok reply, st') ->
      pointee reply size = Some (bytes_at contents pos size) /\
      (0 < size -> pos + size <= zlen contents) /\
      rp_pos reply = pos + size /\
      coherent contents st'.(ioContext).
Proof.
  intros L1 M1 M2 E1 E2 fseek_ok fread rangeGet aws contents ioDriver Hfit Hbackend.
  split; [apply coherent_new|].
  intros size pos hint st reply st' Hcoh Hsize Hpos Hend Hrun.
  exact (ioRequest_serves L1 M1 M2 fseek_ok fread rangeGet aws contents ioDriver
           Hfit Hbackend size pos hint st reply st' Hcoh Hsize Hpos Hend Hrun).
Qed.

(** A first request reads 16 bytes at 64 from the file; the request for
    the 4 bytes at 72 is then served from the cache; both hand out the
    bytes of the resource. *)
Lemma ioRequest_returns_the_bytes_of_the_resource_witness :
  exists reply reply2,
    Sample.ioRequest 8 64 16 Sample.st0 = (Ok reply, Sample.st1) /\
    pointee reply 8 = Some (bytes_at Sample.contents 64 8) /\
    Sample.ioRequest 4 72 16 Sample.st1 = (Ok reply2, Sample.st1) /\
    rp_cached reply2 = false /\
    pointee reply2 4 = Some (bytes_at Sample.contents 72 4).
Proof.
  destruct (ioRequest_returns_the_bytes_of_the_resource
              Sample.IO_CACHE_L1_LINESIZE Sample.IO_CACHE_L1_MASK
              Sample.IO_CACHE_L2_MASK 2%nat 2%nat
              Sample.fseek_ok (Sample.fread Sample.contents) Sample.rangeGet false
              Sample.contents FILE
              ltac:(by_evaluation) (sample_backend_reads_resource _ _ _))
    as [Hnew Hserve].
  eexists. eexists.
  assert (H1 : Sample.ioRequest 8 64 16 Sample.st0 = (Ok _, Sample.st1))
    by (vm_compute; reflexivity).
  split; [exact H1|].
  destruct (Hserve 8 64 16 Sample.st0 _ _ Hnew ltac:(lia) ltac:(lia) ltac:(lia) H1)
    as (Hbytes1 & _ & _ & Hcoh1).
  split; [exact Hbytes1|].
  assert (H2 : Sample.ioRequest 4 72 16 Sample.st1 = (Ok _, Sample.st1))
    by (vm_compute; reflexivity).
  split; [exact H2|]. split; [reflexivity|].
  exact (proj1 (Hserve 4 72 16 _ _ _ Hcoh1 ltac:(lia) ltac:(lia) ltac:(lia) H2)).
Defined.

(** ** Field reader *)

Lemma le_value_bound (bytes : buffer_t) :
  0 <= le_value bytes < 2 ^ (8 * zlen bytes).
Proof.
  induction bytes as [|b bytes IH].
  - simpl. lia.
  - unfold zlen in *. cbn [le_value fold_right List.length].
    fold (le_value bytes).
    rewrite Nat2Z.inj_succ.
    replace (8 * Z.succ (Z.of_nat (List.length bytes)))
      with (8 + 8 * Z.of_nat (List.length bytes)) by lia.
    rewrite Z.pow_add_r by lia. change (2 ^ 8) with 256.
    pose proof (Byte.to_N_bounded b) as Hb.
    assert (0 <= Z.of_N (Byte.to_N b) <= 255) by lia.
    nia.
Qed.

Section FieldFacts.

Variables IO_CACHE_L1_LINESIZE IO_CACHE_L1_MASK IO_CACHE_L2_MASK : Z.
Variable fseek_ok : Z -> bool.
Variable fread : Z -> Z -> Z * buffer_t.
Variable rangeGet : Z -> Z -> Z * buffer_t.
Variable aws : bool.
Variable IO_DEFAULT_HINT : Z.
Variable contents : buffer_t.
Variable ioDriver : io_driver_t.

Hypothesis contents_fit : zlen contents < 2 ^ 63.
Hypothesis backend : reads_resource fseek_ok fread rangeGet aws contents ioDriver.

(** The reader's functions at the constants of this section. *)
Let readField' :=
  readField IO_CACHE_L1_LINESIZE IO_CACHE_L1_MASK IO_CACHE_L2_MASK
            fseek_ok fread rangeGet aws IO_DEFAULT_HINT ioDriver.
Let readByteArray' :=
  readByteArray IO_CACHE_L1_LINESIZE IO_CACHE_L1_MASK IO_CACHE_L2_MASK
                fseek_ok fread rangeGet aws IO_DEFAULT_HINT ioDriver.

Lemma readField_spec size pos st value pos' st' :
  coherent contents st.(ioContext) ->
  0 <= pos -> pos + size < 2 ^ 64 ->
  readField' size pos st = (Ok (value, pos'), st') ->
  (size = 1 \/ size = 2 \/ size = 4 \/ size = 8) /\
  value = le_value (bytes_at contents pos size) /\
  0 <= value < 2 ^ (8 * size) /\
  pos' = pos + size /\
  pos + size <= zlen contents /\
  coherent contents st'.(ioContext).
Proof.
  intros Hcoh Hpos Hfit. unfold readField', readField, bindM, throw, lift, ret.
  destruct (Z.leb_spec size 0) as [|Hsize]; [intros [= ]|].
  destruct (ioRequest _ _ _ _ _ _ _ ioDriver size pos IO_DEFAULT_HINT st)
    as [[reply| |] st1] eqn:Hrun; [|intros [= ]|intros [= ]].
  destruct (ioRequest_serves _ _ _ _ _ _ _ contents ioDriver contents_fit backend
              size pos IO_DEFAULT_HINT st reply st1 Hcoh ltac:(lia) Hpos Hfit Hrun)
    as (Hbytes & Hend & Hnext & Hcoh1).
  destruct ((size =? 8) || (size =? 4) || (size =? 2) || (size =? 1)) eqn:Hvalid;
    [|intros [= ]].
  rewrite Hbytes. intros [= <- <- <-].
  specialize (Hend Hsize).
  pose proof (le_value_bound (bytes_at contents pos size)) as Hbound.
  rewrite bytes_at_length in Hbound by lia.
  split; [rewrite !Bool.orb_true_iff, !Z.eqb_eq in Hvalid; lia|].
  split; [reflexivity|]. split; [exact Hbound|]. split; [exact Hnext|].
  split; [exact Hend|exact Hcoh1].
Qed.

Lemma readByteArray_spec size pos st bytes pos' st' :
  coherent contents st.(ioContext) ->
  0 <= size -> 0 <= pos -> pos + size < 2 ^ 64 ->
  readByteArray' size pos st = (Ok (bytes, pos'), st') ->
  bytes = bytes_at contents pos size /\
  pos' = pos + size /\
  (0 < size -> pos + size <= zlen contents) /\
  coherent contents st'.(ioContext).
Proof.
  intros Hcoh Hsize Hpos Hfit. unfold readByteArray', readByteArray, bindM, lift, ret.
  destruct (ioRequest _ _ _ _ _ _ _ ioDriver size pos IO_DEFAULT_HINT st)
    as [[reply| |] st1] eqn:Hrun; [|intros [= ]|intros [= ]].
  destruct (ioRequest_serves _ _ _ _ _ _ _ contents ioDriver contents_fit backend
              size pos IO_DEFAULT_HINT st reply st1 Hcoh Hsize Hpos Hfit Hrun)
    as (Hbytes & Hend & Hnext & Hcoh1).
  rewrite Hbytes. intros [= <- <- <-].
  split; [reflexivity|]. split; [exact Hnext|]. split; [exact Hend|exact Hcoh1].
Qed.

End FieldFacts.

(** X10.  [readField] reads the resource in little-endian order.  Over
    a backend that reads the resource and from a coherent context, a
    call that returns was made for 1, 2, 4 or 8 bytes; the value is the
    number whose bytes, least significant first, are those of the
    resource at [pos .. pos + size - 1], which lie inside the resource;
    it fits in [size] bytes; and the position is advanced by [size]. *)
Theorem readField_returns_the_little_endian_value :
  forall IO_CACHE_L1_LINESIZE IO_CACHE_L1_MASK IO_CACHE_L2_MASK
         fseek_ok fread rangeGet aws IO_DEFAULT_HINT contents ioDriver,
    zlen contents < 2 ^ 63 ->
    reads_resource fseek_ok fread rangeGet aws contents ioDriver ->
    forall size pos st value pos' st',
      coherent contents st.(ioContext) ->
      0 <= pos -> pos + size < 2 ^ 64 ->
      readField IO_CACHE_L1_LINESIZE IO_CACHE_L1_MASK IO_CACHE_L2_MASK
                fseek_ok fread rangeGet aws IO_DEFAULT_HINT ioDriver size pos st
        = (Ok (value, pos'), st') ->
      (size = 1 \/ size = 2 \/ size = 4 \/ size = 8) /\
      value = le_value (bytes_at contents pos size) /\
      0 <= value < 2 ^ (8 * size) /\
      pos' = pos + size /\
      pos + size <= zlen contents /\
      coherent contents st'.(ioContext).
Proof.
  intros L1 M1 M2 fseek_ok fread rangeGet aws hint contents ioDriver Hfit Hbackend
         size pos st value pos' st' Hcoh Hpos Hend Hrun.
  exact (readField_spec L1 M1 M2 fseek_ok fread rangeGet aws hint contents ioDriver
           Hfit Hbackend size pos st value pos' st' Hcoh Hpos Hend Hrun).
Qed.

(** The first 8 bytes of the sample resource read as one field: the
    signature of the file format. *)
Lemma readField_returns_the_little_endian_value_witness :
  exists st',
    Sample.readField 8 0 Sample.st0 = (Ok (0x0A1A0A0D46444889, 8), st') /\
    0x0A1A0A0D46444889 = le_value (bytes_at Sample.contents 0 8).
Proof.
  eexists.
  assert (Hrun : Sample.readField 8 0 Sample.st0 = (Ok (0x0A1A0A0D46444889, 8), _))
    by (vm_compute; reflexivity).
  split; [exact Hrun|].
  exact (proj1 (proj2 (readField_returns_the_little_endian_value
           Sample.IO_CACHE_L1_LINESIZE Sample.IO_CACHE_L1_MASK Sample.IO_CACHE_L2_MASK
           Sample.fseek_ok (Sample.fread Sample.contents) Sample.rangeGet false
           Sample.IO_DEFAULT_HINT Sample.contents FILE
           ltac:(by_evaluation) (sample_backend_reads_resource _ _ _)
           8 0 Sample.st0 _ _ _
           (coherent_new Sample.IO_CACHE_L1_MASK Sample.IO_CACHE_L2_MASK 2 2
                         Sample.contents)
           ltac:(lia) ltac:(lia) Hrun))).
Defined.

(** ** Parsers over the field reader *)

Lemma bindM_ok {A B} (m : M A) (k : A -> M B) st b st'' :
  bindM m k st = (Ok b, st'') ->
  exists a st', m st = (Ok a, st') /\ k a st' = (Ok b, st'').
Proof.
  unfold bindM. destruct (m st) as [[a| |] st']; try discriminate.
  intros H. now exists a, st'.
Qed.

Lemma ret_ok {A} (a b : A) st st' :
  ret a st = (Ok b, st') -> a = b /\ st = st'.
Proof. unfold ret. intros [= -> ->]. split; reflexivity. Qed.

Lemma throw_not_ok {A} e st (a : A) st' : throw e st <> (Ok a, st').
Proof. unfold throw, lift. discriminate. Qed.

Lemma lift_undefined_not_ok {A} st (a : A) st' :
  lift Undefined st <> (Ok a, st').
Proof. unfold lift. discriminate. Qed.

(** One step of a run that returned: the first action returned, and the
    rest ran from its result. *)
Ltac bind_step H a st Hm :=
  apply bindM_ok in H; destruct H as (a & st & Hm & H).

Lemma byte_of_Z_le_value b (bytes : buffer_t) :
  byte_of_Z (le_value (b :: bytes)) = b /\
  le_value (b :: bytes) / 256 = le_value bytes.
Proof.
  cbn [le_value fold_right]. fold (le_value bytes).
  pose proof (Byte.to_N_bounded b) as Hb.
  assert (Hr : 0 <= Z.of_N (Byte.to_N b) < 256) by lia.
  split.
  - unfold byte_of_Z.
    replace ((Z.of_N (Byte.to_N b) + 256 * le_value bytes) mod 256)
      with (Z.of_N (Byte.to_N b)).
    + now rewrite N2Z.id, Byte.of_to_N.
    + symmetry.
      replace (Z.of_N (Byte.to_N b) + 256 * le_value bytes)
        with (Z.of_N (Byte.to_N b) + le_value bytes * 256) by lia.
      rewrite Z.mod_add by lia. now apply Z.mod_small.
  - replace (Z.of_N (Byte.to_N b) + 256 * le_value bytes)
      with (le_value bytes * 256 + Z.of_N (Byte.to_N b)) by lia.
    rewrite Z.div_add_l by lia.
    rewrite (Z.div_small _ 256) by lia. lia.
Qed.

(** The bytes of a decoded value are the bytes it was decoded from. *)
Lemma le_bytes_le_value (bytes : buffer_t) : forall extra : nat,
  firstn (List.length bytes) (le_bytes (List.length bytes + extra) (le_value bytes))
  = bytes.
Proof.
  induction bytes as [|b bytes IH]; intros extra; [reflexivity|].
  cbn [List.length Nat.add le_bytes firstn].
  destruct (byte_of_Z_le_value b bytes) as [Hb Hrest].
  now rewrite Hb, Hrest, IH.
Qed.

Section ParserFacts.

Variables IO_CACHE_L1_LINESIZE IO_CACHE_L1_MASK IO_CACHE_L2_MASK : Z.
Variable fseek_ok : Z -> bool.
Variable fread : Z -> Z -> Z * buffer_t.
Variable rangeGet : Z -> Z -> Z * buffer_t.
Variable aws : bool.
Variable IO_DEFAULT_HINT : Z.
Variable H5_SIGNATURE_LE : Z.
Variable MAX_NDIMS : Z.
Variable contents : buffer_t.
Variable ioDriver : io_driver_t.
Variable errorChecking : bool.
Variable verbose : bool.

Hypothesis contents_fit : zlen contents < 2 ^ 63.
Hypothesis backend : reads_resource fseek_ok fread rangeGet aws contents ioDriver.

(** The reader's functions at the constants of this section. *)
Let readField' :=
  readField IO_CACHE_L1_LINESIZE IO_CACHE_L1_MASK IO_CACHE_L2_MASK
            fseek_ok fread rangeGet aws IO_DEFAULT_HINT ioDriver.

Let readSuperblock' :=
  readSuperblock IO_CACHE_L1_LINESIZE IO_CACHE_L1_MASK IO_CACHE_L2_MASK
                 fseek_ok fread rangeGet aws IO_DEFAULT_HINT H5_SIGNATURE_LE
                 ioDriver errorChecking.

Lemma readField_run size pos st value pos' st' :
  readField' size pos st = (Ok (value, pos'), st') ->
  coherent contents st.(ioContext) ->
  0 <= pos -> pos + size < 2 ^ 64 ->
  (size = 1 \/ size = 2 \/ size = 4 \/ size = 8) /\
  value = le_value (bytes_at contents pos size) /\
  0 <= value < 2 ^ (8 * size) /\
  pos' = pos + size /\
  pos + size <= zlen contents /\
  coherent contents st'.(ioContext).
Proof using contents_fit backend.
  intros Hrun Hcoh Hpos Hsize.
  exact (readField_spec IO_CACHE_L1_LINESIZE IO_CACHE_L1_MASK IO_CACHE_L2_MASK
           fseek_ok fread rangeGet aws IO_DEFAULT_HINT contents ioDriver
           contents_fit backend size pos st value pos' st' Hcoh Hpos Hsize Hrun).
Qed.

(** The next action of the run [H] is a [readField] that returned: its
    value [v] and what is known of it, the position advanced, and the
    context [Hcoh] of the state it left. *)
Ltac field_step H Hcoh v Hsz Hval Hbd Hend :=
  let a := fresh "a" in
  let p := fresh "p" in
  let st := fresh "st" in
  let Hm := fresh "Hm" in
  let Hp := fresh "Hp" in
  let Hcoh' := fresh "Hcoh" in
  bind_step H a st Hm; destruct a as [v p];
  apply readField_run in Hm;
  [destruct Hm as (Hsz & Hval & Hbd & Hp & Hend & Hcoh');
   cbn [fst snd] in H; subst p; clear Hcoh; rename Hcoh' into Hcoh
  |exact Hcoh|lia|lia].

Lemma readSuperblock_spec metaData st metaData' root st' :
  coherent contents st.(ioContext) ->
  readSuperblock' metaData st = (Ok (metaData', root), st') ->
  let offsetsize := le_value (bytes_at contents 13 1) in
  let lengthsize := le_value (bytes_at contents 14 1) in
  metaData' = with_sizes metaData offsetsize lengthsize /\
  (offsetsize = 1 \/ offsetsize = 2 \/ offsetsize = 4 \/ offsetsize = 8) /\
  root = le_value (bytes_at contents 64 offsetsize) /\
  64 + offsetsize <= zlen contents /\
  (errorChecking = true ->
   le_value (bytes_at contents 0 8) = H5_SIGNATURE_LE /\
   forall k, 8 <= k <= 11 -> le_value (bytes_at contents k 1) = 0) /\
  coherent contents st'.(ioContext).
Proof using contents_fit backend.
  intros Hcoh H. unfold readSuperblock', readSuperblock in H.
  fold readField' in H.
  bind_step H u st1 Hcheck.
  assert (Hchecked :
            coherent contents (ioContext st1) /\
            (errorChecking = true ->
             le_value (bytes_at contents 0 8) = H5_SIGNATURE_LE /\
             le_value (bytes_at contents 8 1) = 0 /\
             le_value (bytes_at contents 9 1) = 0 /\
             le_value (bytes_at contents 10 1) = 0 /\
             le_value (bytes_at contents 11 1) = 0)).
  { destruct errorChecking.
    - field_step Hcheck Hcoh v0 Hs0 Hv0 Hb0 He0.
      destruct (Z.eqb_spec v0 H5_SIGNATURE_LE) as [Hsig|];
        [|now apply throw_not_ok in Hcheck].
      cbn [negb] in Hcheck.
      field_step Hcheck Hcoh v1 Hs1 Hv1 Hb1 He1.
      destruct (Z.eqb_spec v1 0); [|now apply throw_not_ok in Hcheck].
      cbn [negb] in Hcheck.
      field_step Hcheck Hcoh v2 Hs2 Hv2 Hb2 He2.
      destruct (Z.eqb_spec v2 0); [|now apply throw_not_ok in Hcheck].
      cbn [negb] in Hcheck.
      field_step Hcheck Hcoh v3 Hs3 Hv3 Hb3 He3.
      destruct (Z.eqb_spec v3 0); [|now apply throw_not_ok in Hcheck].
      cbn [negb] in Hcheck.
      field_step Hcheck Hcoh v4 Hs4 Hv4 Hb4 He4.
      destruct (Z.eqb_spec v4 0); [|now apply throw_not_ok in Hcheck].
      cbn [negb] in Hcheck.
      apply ret_ok in Hcheck. destruct Hcheck as [_ <-].
      split; [exact Hcoh|]. intros _.
      simpl in Hv1, Hv2, Hv3, Hv4.
      repeat split; congruence.
    - apply ret_ok in Hcheck. destruct Hcheck as [_ <-].
      split; [exact Hcoh|discriminate]. }
  destruct Hchecked as [Hcoh1 Hsig]. clear Hcoh Hcheck.
  field_step H Hcoh1 o Hso Hvo Hbo Heo.
  field_step H Hcoh1 l Hsl Hvl Hbl Hel.
  field_step H Hcoh1 leaf_k Hsk Hvk Hbk Hek.
  field_step H Hcoh1 internal_k Hsi Hvi Hbi Hei.
  change (2 ^ (8 * 1)) with 256 in Hbo.
  field_step H Hcoh1 r Hsr Hvr Hbr Her.
  apply ret_ok in H. destruct H as [[= <- <-] <-].
  simpl in Hvl. intros offsetsize lengthsize.
  fold offsetsize in Hvo. fold lengthsize in Hvl.
  subst o l.
  split; [reflexivity|]. split; [exact Hsr|]. split; [exact Hvr|].
  split; [exact Her|]. split; [|exact Hcoh1].
  intros Hec. destruct (Hsig Hec) as (H0 & H8 & H9 & H10 & H11).
  split; [exact H0|].
  intros k Hk.
  assert (Hcases : k = 8 \/ k = 9 \/ k = 10 \/ k = 11) by lia.
  destruct Hcases as [Hk'|[Hk'|[Hk'|Hk']]]; rewrite Hk'; assumption.
Qed.

Let read_fields' :=
  read_fields IO_CACHE_L1_LINESIZE IO_CACHE_L1_MASK IO_CACHE_L2_MASK
              fseek_ok fread rangeGet aws IO_DEFAULT_HINT ioDriver.

Lemma read_fields_run (count : nat) : forall size pos st values pos' st',
  read_fields' count size pos st = (Ok (values, pos'), st') ->
  coherent contents st.(ioContext) ->
  0 <= size -> 0 <= pos -> pos + Z.of_nat count * size < 2 ^ 64 ->
  List.length values = count /\
  ((0 < count)%nat -> size = 1 \/ size = 2 \/ size = 4 \/ size = 8) /\
  pos' = pos + Z.of_nat count * size /\
  (forall d, (d < count)%nat ->
             nth d values 0
             = le_value (bytes_at contents (pos + Z.of_nat d * size) size)) /\
  ((0 < count)%nat -> pos + Z.of_nat count * size <= zlen contents) /\
  coherent contents st'.(ioContext).
Proof using contents_fit backend.
  induction count as [|count IH]; intros size pos st values pos' st' H Hcoh Hsize Hpos Hfit.
  - apply ret_ok in H. destruct H as [[= <- <-] <-].
    split; [reflexivity|]. split; [lia|]. split; [lia|].
    split; [intros d Hd; lia|]. split; [lia|exact Hcoh].
  - unfold read_fields' in H. cbn [read_fields] in H.
    fold readField' in H.
    fold (read_fields' count) in H.
    rewrite Nat2Z.inj_succ in Hfit |- *.
    bind_step H a st1 Hfirst. destruct a as [v p].
    apply readField_run in Hfirst; [|exact Hcoh|lia|nia].
    destruct Hfirst as (Hsz & Hv & _ & Hp & Hend & Hcoh1).
    cbn [fst snd] in H. subst p.
    bind_step H b st2 Hrest. destruct b as [vs p].
    apply IH in Hrest; [|exact Hcoh1|lia|lia|nia].
    destruct Hrest as (Hlen & _ & Hp & Hvs & Hend' & Hcoh2).
    apply ret_ok in H. cbn [fst snd] in H. destruct H as [[= <- <-] <-].
    split; [simpl; now rewrite Hlen|]. split; [intros _; exact Hsz|].
    split; [lia|]. split; [|split; [|exact Hcoh2]].
    + intros d Hd. destruct d as [|d].
      * simpl. rewrite Z.add_0_r. exact Hv.
      * cbn [nth]. rewrite Hvs by lia. do 2 f_equal. lia.
    + intros _. destruct count as [|count'].
      * change (Z.of_nat 0) with 0. lia.
      * specialize (Hend' ltac:(lia)). lia.
Qed.

Let readDataspaceMsg' :=
  readDataspaceMsg IO_CACHE_L1_LINESIZE IO_CACHE_L1_MASK IO_CACHE_L2_MASK
                   fseek_ok fread rangeGet aws IO_DEFAULT_HINT MAX_NDIMS
                   ioDriver errorChecking.

Lemma u8_id z : 0 <= z < 2 ^ (8 * 1) -> u8 z = z.
Proof. intros H. unfold u8. apply Z.mod_small. exact H. Qed.

Lemma readDataspaceMsg_spec metaData pos st metaData' bytes_read st' :
  coherent contents st.(ioContext) ->
  0 <= pos < 2 ^ 62 ->
  0 <= meta_entry_t.lengthsize metaData < 256 ->
  readDataspaceMsg' metaData pos st = (Ok (metaData', bytes_read), st') ->
  let version := le_value (bytes_at contents pos 1) in
  let dimensionality := le_value (bytes_at contents (pos + 1) 1) in
  let flags := le_value (bytes_at contents (pos + 2) 1) in
  let lengthsize := meta_entry_t.lengthsize metaData in
  let ndims := Z.min dimensionality MAX_NDIMS in
  meta_entry_t.ndims metaData' = ndims /\
  ndims <= MAX_NDIMS /\
  (forall d, 0 <= d < ndims ->
             nth (Z.to_nat d) (meta_entry_t.dimensions metaData') 0
             = le_value (bytes_at contents (pos + 8 + d * lengthsize) lengthsize)) /\
  (errorChecking = true ->
   version = 1 /\ Z.land flags PERM_INDEX_PRESENT = 0 /\
   dimensionality <= MAX_NDIMS) /\
  bytes_read
  = (if ndims >? 0
     then 8 + ndims * lengthsize
            * (if Z.land flags MAX_DIM_PRESENT =? 0 then 1 else 2)
     else 8) /\
  coherent contents st'.(ioContext).
Proof using contents_fit backend.
  clear readSuperblock'.
  intros Hcoh Hpos Hls H. unfold readDataspaceMsg', readDataspaceMsg in H.
  fold readField' in H.
  field_step H Hcoh v Hsv Hvv Hbv Hev.
  field_step H Hcoh dm Hsd Hvd Hbd Hed.
  field_step H Hcoh fl Hsf Hvf Hbf Hef.
  rewrite (u8_id v Hbv), (u8_id dm Hbd), (u8_id fl Hbf) in H.
  replace (pos + 1 + 1) with (pos + 2) in Hvf by lia.
  intros version dimensionality flags lengthsize ndims.
  fold version in Hvv. fold dimensionality in Hvd. fold flags in Hvf.
  subst v dm fl.
  change (2 ^ (8 * 1)) with 256 in Hbv, Hbd, Hbf.
  rewrite (u64_id (pos + 1 + 1 + 1 + 5)) in H by (unfold in_u64; lia).
  bind_step H u stc Hcheck.
  assert (Hchecked :
            coherent contents (ioContext stc) /\
            (errorChecking = true ->
             version = 1 /\ Z.land flags PERM_INDEX_PRESENT = 0 /\
             dimensionality <= MAX_NDIMS)).
  { destruct errorChecking.
    - destruct (Z.eqb_spec version 1); [|now apply throw_not_ok in Hcheck].
      destruct (Z.eqb_spec (Z.land flags PERM_INDEX_PRESENT) 0);
        [|now apply throw_not_ok in Hcheck].
      destruct (Z.gtb_spec dimensionality MAX_NDIMS);
        [now apply throw_not_ok in Hcheck|].
      cbn [negb] in Hcheck. apply ret_ok in Hcheck. destruct Hcheck as [_ <-].
      split; [exact Hcoh|]. intros _. repeat split; assumption.
    - apply ret_ok in Hcheck. destruct Hcheck as [_ <-].
      split; [exact Hcoh|discriminate]. }
  clear Hcoh. destruct Hchecked as [Hcoh Hchecks]. clear Hcheck.
  fold ndims lengthsize in H.
  assert (Hnd : ndims <= MAX_NDIMS) by (unfold ndims; lia).
  assert (Hnd255 : ndims <= 255) by (unfold ndims; lia).
  split; [|split; [exact Hnd|]].
  - destruct (ndims >? 0).
    + bind_step H a std Hdims. apply ret_ok in H.
      destruct H as [[= <- _] _]. reflexivity.
    + apply ret_ok in H. destruct H as [[= <- _] _]. reflexivity.
  - destruct (Z.gtb_spec ndims 0) as [Hsome|Hnone].
    + bind_step H a std Hdims. destruct a as [dims p].
      fold read_fields' in Hdims.
      apply read_fields_run in Hdims;
        [|exact Hcoh|lia|lia|rewrite Z2Nat.id by lia; nia].
      rewrite Z2Nat.id in Hdims by lia.
      destruct Hdims as (Hlen & Hsz & Hp & Hvals & Hend & Hcoh2).
      apply ret_ok in H. cbn [fst snd] in H. destruct H as [[= <- <-] <-].
      split; [|split; [exact Hchecks|split; [|exact Hcoh2]]].
      * intros d Hd. cbn [with_dataspace meta_entry_t.dimensions].
        rewrite app_nth1 by lia.
        rewrite Hvals by lia. rewrite Z2Nat.id by lia.
        do 2 f_equal. lia.
      * subst p. destruct (Z.eqb_spec (Z.land flags MAX_DIM_PRESENT) 0).
        -- cbn [negb].
           rewrite u64_id by (unfold in_u64; nia).
           rewrite s32_id by (unfold in_s32; nia). lia.
        -- cbn [negb].
           rewrite (u64_id (pos + 1 + 1 + 1 + 5 + ndims * lengthsize
                            + ndims * lengthsize)) by (unfold in_u64; nia).
           rewrite u64_id by (unfold in_u64; nia).
           rewrite s32_id by (unfold in_s32; nia). lia.
    + apply ret_ok in H. destruct H as [[= <- <-] <-].
      split; [intros d Hd; lia|]. split; [exact Hchecks|].
      split; [|exact Hcoh].
      rewrite u64_id by (unfold in_u64; lia).
      rewrite s32_id by (unfold in_s32; lia). lia.
Qed.

Let readFillValueMsg' :=
  readFillValueMsg IO_CACHE_L1_LINESIZE IO_CACHE_L1_MASK IO_CACHE_L2_MASK
                   fseek_ok fread rangeGet aws IO_DEFAULT_HINT
                   ioDriver errorChecking verbose.

Lemma readFillValueMsg_spec metaData pos st metaData' bytes_read st' :
  coherent contents st.(ioContext) ->
  0 <= pos < 2 ^ 62 ->
  readFillValueMsg' metaData pos st = (Ok (metaData', bytes_read), st') ->
  let version := le_value (bytes_at contents pos 1) in
  let defined := le_value (bytes_at contents (pos + 3) 1) in
  let fillsize := s32 (le_value (bytes_at contents (pos + 4) 4)) in
  (errorChecking = true -> version = 2) /\
  (defined = 0 -> metaData' = metaData /\ bytes_read = 4) /\
  (defined <> 0 ->
   meta_entry_t.fillsize metaData' = fillsize /\
   (fillsize <= 0 ->
    meta_entry_t.fill metaData' = meta_entry_t.fill metaData /\ bytes_read = 8) /\
   (0 < fillsize ->
    (fillsize = 1 \/ fillsize = 2 \/ fillsize = 4 \/ fillsize = 8) /\
    zlen (meta_entry_t.fill metaData') = 8 /\
    bytes_at (meta_entry_t.fill metaData') 0 fillsize
    = bytes_at contents (pos + 8) fillsize /\
    pos + 8 + fillsize <= zlen contents /\
    bytes_read = 8 + fillsize)) /\
  coherent contents st'.(ioContext).
Proof using contents_fit backend.
  clear readSuperblock' readDataspaceMsg' read_fields'.
  intros Hcoh Hpos H. unfold readFillValueMsg', readFillValueMsg in H.
  fold readField' in H.
  field_step H Hcoh v Hsv Hvv Hbv Hev.
  intros version defined fillsize. fold version in Hvv. subst v.
  bind_step H u stc Hcheck.
  assert (Hchecked : coherent contents (ioContext stc) /\
                     (errorChecking = true -> version = 2)).
  { destruct errorChecking; cbn [andb] in Hcheck.
    - destruct (Z.eqb_spec version 2); [|now apply throw_not_ok in Hcheck].
      cbn [negb] in Hcheck. apply ret_ok in Hcheck. destruct Hcheck as [_ <-].
      split; [exact Hcoh|]. intros _. assumption.
    - apply ret_ok in Hcheck. destruct Hcheck as [_ <-].
      split; [exact Hcoh|discriminate]. }
  clear Hcoh Hcheck. destruct Hchecked as [Hcoh Hversion].
  bind_step H p stp Hskip.
  assert (Hskipped : coherent contents (ioContext stp) /\ p = pos + 3).
  { destruct verbose.
    - field_step Hskip Hcoh t1 Hs1 Hv1 Hb1 He1.
      field_step Hskip Hcoh t2 Hs2 Hv2 Hb2 He2.
      apply ret_ok in Hskip. destruct Hskip as [<- <-].
      split; [exact Hcoh|lia].
    - apply ret_ok in Hskip. destruct Hskip as [<- <-].
      split; [exact Hcoh|]. rewrite u64_id by (unfold in_u64; lia). lia. }
  clear Hcoh Hskip. destruct Hskipped as [Hcoh ->].
  field_step H Hcoh d Hsd Hvd Hbd Hed.
  fold defined in Hvd. subst d.
  rewrite (u8_id defined Hbd) in H.
  split; [exact Hversion|].
  destruct (Z.eqb_spec defined 0) as [Hzero|Hdefined]; cbn [negb] in H.
  - apply ret_ok in H. destruct H as [[= <- <-] <-].
    split; [|split; [intros Hne; now elim Hne|exact Hcoh]].
    intros _. split; [reflexivity|].
    rewrite u64_id by (unfold in_u64; lia).
    rewrite s32_id by (unfold in_s32; lia). lia.
  - split; [intros Hz; now elim Hdefined|].
    field_step H Hcoh f Hsf Hvf Hbf Hef.
    replace (pos + 3 + 1) with (pos + 4) in Hvf by lia.
    fold fillsize in H. subst f. fold fillsize in H.
    assert (Hfs : - 2 ^ 31 <= fillsize < 2 ^ 31).
    { unfold fillsize, s32.
      pose proof (Z.mod_pos_bound
                    (le_value (bytes_at contents (pos + 4) 4) + 2 ^ 31) (2 ^ 32)
                    ltac:(lia)). lia. }
    destruct (Z.gtb_spec fillsize 0) as [Hsome|Hnone].
    + field_step H Hcoh fv Hsz Hval Hbval Hend.
      apply ret_ok in H. destruct H as [[= <- <-] <-].
      replace (pos + 3 + 1 + 4) with (pos + 8) in * by lia.
      split; [|exact Hcoh]. intros _.
      split; [reflexivity|]. split; [lia|]. intros _.
      cbn [with_fill meta_entry_t.fill].
      split; [exact Hsz|]. split; [|split; [|split; [lia|]]].
      * reflexivity.
      * change (bytes_at (le_bytes 8 fv) 0 fillsize
                = bytes_at contents (pos + 8) fillsize).
        subst fv. unfold bytes_at at 1. cbn [Z.to_nat skipn].
        pose proof (bytes_at_length contents (pos + 8) fillsize
                      ltac:(lia) ltac:(lia) ltac:(lia)) as Hlen.
        unfold zlen in Hlen.
        replace (Z.to_nat fillsize)
          with (List.length (bytes_at contents (pos + 8) fillsize)) at 1 by lia.
        replace 8%nat
          with (List.length (bytes_at contents (pos + 8) fillsize)
                + (8 - List.length (bytes_at contents (pos + 8) fillsize)))%nat
          by lia.
        apply le_bytes_le_value.
      * rewrite u64_id by (unfold in_u64; lia).
        rewrite s32_id by (unfold in_s32; lia). lia.
    + apply ret_ok in H. destruct H as [[= <- <-] <-].
      split; [|exact Hcoh]. intros _.
      split; [reflexivity|]. split; [|intros; lia]. intros _.
      split; [reflexivity|].
      rewrite u64_id by (unfold in_u64; lia).
      rewrite s32_id by (unfold in_s32; lia). lia.
Qed.

End ParserFacts.

(** X11.  What a superblock that [readSuperblock] accepts holds.  The
    size of offsets is byte 13 of the resource and is 1, 2, 4 or 8, the
    size of lengths is byte 14, and the root group offset returned is
    the little-endian value of the [offsetsize] bytes at 64, which lie
    inside the resource; with error checking the first 8 bytes are the
    file signature and the four version bytes 8 to 11 are 0.  Nothing
    else of the metadata changes. *)
Theorem readSuperblock_reads_sizes_and_root_group_offset :
  forall IO_CACHE_L1_LINESIZE IO_CACHE_L1_MASK IO_CACHE_L2_MASK
         fseek_ok fread rangeGet aws IO_DEFAULT_HINT H5_SIGNATURE_LE
         contents ioDriver errorChecking,
    zlen contents < 2 ^ 63 ->
    reads_resource fseek_ok fread rangeGet aws contents ioDriver ->
    forall metaData st metaData' root st',
      coherent contents st.(ioContext) ->
      readSuperblock IO_CACHE_L1_LINESIZE IO_CACHE_L1_MASK IO_CACHE_L2_MASK
                     fseek_ok fread rangeGet aws IO_DEFAULT_HINT H5_SIGNATURE_LE
                     ioDriver errorChecking metaData st
        = (Ok (metaData', root), st') ->
      let offsetsize := le_value (bytes_at contents 13 1) in
      let lengthsize := le_value (bytes_at contents 14 1) in
      metaData' = with_sizes metaData offsetsize lengthsize /\
      (offsetsize = 1 \/ offsetsize = 2 \/ offsetsize = 4 \/ offsetsize = 8) /\
      0 <= lengthsize < 256 /\
      root = le_value (bytes_at contents 64 offsetsize) /\
      64 + offsetsize <= zlen contents /\
      (errorChecking = true ->
       le_value (bytes_at contents 0 8) = H5_SIGNATURE_LE /\
       forall k, 8 <= k <= 11 -> le_value (bytes_at contents k 1) = 0) /\
      coherent contents st'.(ioContext).
Proof.
  intros L1 M1 M2 fseek_ok fread rangeGet aws hint signature contents ioDriver
         errorChecking Hfit Hbackend metaData st metaData' root st' Hcoh Hrun.
  destruct (readSuperblock_spec L1 M1 M2 fseek_ok fread rangeGet aws hint signature
              contents ioDriver errorChecking Hfit Hbackend
              metaData st metaData' root st' Hcoh Hrun)
    as (Hmeta & Hoff & Hroot & Hend & Hchecked & Hcoh').
  intros offsetsize lengthsize.
  split; [exact Hmeta|]. split; [exact Hoff|]. split.
  - pose proof (le_value_bound (bytes_at contents 14 1)) as Hb.
    assert (Hlen : zlen (bytes_at contents 14 1) <= 1).
    { unfold bytes_at, zlen. rewrite length_firstn.
      change (Z.to_nat 1) with 1%nat. lia. }
    assert (Hpow : 2 ^ (8 * zlen (bytes_at contents 14 1)) <= 2 ^ 8)
      by (apply Z.pow_le_mono_r; unfold zlen in *; lia).
    change (2 ^ 8) with 256 in Hpow. unfold lengthsize. lia.
  - split; [exact Hroot|]. split; [exact Hend|]. split; assumption.
Qed.

(** The superblock of the sample resource: offsets and lengths of 8
    bytes and the root group at 72. *)
Lemma readSuperblock_reads_sizes_and_root_group_offset_witness :
  exists st',
    Sample.readSuperblock Sample.meta0 Sample.st0
      = (Ok (Sample.meta8, 72), st') /\
    72 = le_value (bytes_at Sample.contents 64
                            (le_value (bytes_at Sample.contents 13 1))).
Proof.
  eexists.
  assert (Hrun : Sample.readSuperblock Sample.meta0 Sample.st0
                 = (Ok (Sample.meta8, 72), _)) by (vm_compute; reflexivity).
  split; [exact Hrun|].
  pose proof (readSuperblock_reads_sizes_and_root_group_offset
                Sample.IO_CACHE_L1_LINESIZE Sample.IO_CACHE_L1_MASK
                Sample.IO_CACHE_L2_MASK
                Sample.fseek_ok (Sample.fread Sample.contents) Sample.rangeGet false
                Sample.IO_DEFAULT_HINT Sample.H5_SIGNATURE_LE Sample.contents FILE true
                ltac:(by_evaluation) (sample_backend_reads_resource _ _ _)
                Sample.meta0 Sample.st0 _ _ _
                (coherent_new Sample.IO_CACHE_L1_MASK Sample.IO_CACHE_L2_MASK 2 2
                              Sample.contents)
                Hrun) as H.
  cbv zeta in H. exact (proj1 (proj2 (proj2 (proj2 H)))).
Defined.

(** X12.  What a dataspace message that [readDataspaceMsg] accepts
    gives.  The number of dimensions kept is the dimensionality byte of
    the message cut down to [MAX_NDIMS], with or without error checking,
    so the dimensions always fit the array of the metadata; dimension
    [d] is the little-endian value of the [lengthsize] bytes at offset
    [8 + d * lengthsize] of the message; the count of bytes returned is
    8 plus the dimensions, twice when the message carries maximum
    dimensions.  With error checking the version is 1, no permutation
    index is present and the dimensionality is within [MAX_NDIMS]. *)
Theorem readDataspaceMsg_reads_the_dimensions :
  forall IO_CACHE_L1_LINESIZE IO_CACHE_L1_MASK IO_CACHE_L2_MASK
         fseek_ok fread rangeGet aws IO_DEFAULT_HINT MAX_NDIMS
         contents ioDriver errorChecking,
    zlen contents < 2 ^ 63 ->
    reads_resource fseek_ok fread rangeGet aws contents ioDriver ->
    forall metaData pos st metaData' bytes_read st',
      coherent contents st.(ioContext) ->
      0 <= pos < 2 ^ 62 ->
      0 <= meta_entry_t.lengthsize metaData < 256 ->
      readDataspaceMsg IO_CACHE_L1_LINESIZE IO_CACHE_L1_MASK IO_CACHE_L2_MASK
                       fseek_ok fread rangeGet aws IO_DEFAULT_HINT MAX_NDIMS
                       ioDriver errorChecking metaData pos st
        = (Ok (metaData', bytes_read), st') ->
      let version := le_value (bytes_at contents pos 1) in
      let dimensionality := le_value (bytes_at contents (pos + 1) 1) in
      let flags := le_value (bytes_at contents (pos + 2) 1) in
      let lengthsize := meta_entry_t.lengthsize metaData in
      let ndims := Z.min dimensionality MAX_NDIMS in
      meta_entry_t.ndims metaData' = ndims /\
      ndims <= MAX_NDIMS /\
      (forall d, 0 <= d < ndims ->
                 nth (Z.to_nat d) (meta_entry_t.dimensions metaData') 0
                 = le_value (bytes_at contents (pos + 8 + d * lengthsize) lengthsize)) /\
      (errorChecking = true ->
       version = 1 /\ Z.land flags PERM_INDEX_PRESENT = 0 /\
       dimensionality <= MAX_NDIMS) /\
      bytes_read
      = (if ndims >? 0
         then 8 + ndims * lengthsize
                * (if Z.land flags MAX_DIM_PRESENT =? 0 then 1 else 2)
         else 8) /\
      coherent contents st'.(ioContext).
Proof.
  intros L1 M1 M2 fseek_ok fread rangeGet aws hint max_ndims contents ioDriver
         errorChecking Hfit Hbackend metaData pos st metaData' bytes_read st'
         Hcoh Hpos Hls Hrun.
  exact (readDataspaceMsg_spec L1 M1 M2 fseek_ok fread rangeGet aws hint max_ndims
           contents ioDriver errorChecking Hfit Hbackend
           metaData pos st metaData' bytes_read st' Hcoh Hpos Hls Hrun).
Qed.

(** The dataspace message of the sample resource: two dimensions of 2,
    24 bytes. *)
Lemma readDataspaceMsg_reads_the_dimensions_witness :
  exists metaData' st',
    Sample.readDataspaceMsg Sample.meta8 72 Sample.st0
      = (Ok (metaData', 24), st') /\
    meta_entry_t.ndims metaData' = 2 /\
    meta_entry_t.dimensions metaData' = [2; 2] /\
    nth 1 (meta_entry_t.dimensions metaData') 0
    = le_value (bytes_at Sample.contents (72 + 8 + 1 * 8) 8).
Proof.
  eexists. eexists.
  assert (Hrun : Sample.readDataspaceMsg Sample.meta8 72 Sample.st0
                 = (Ok (_, 24), _)) by (vm_compute; reflexivity).
  split; [exact Hrun|]. split; [reflexivity|]. split; [reflexivity|].
  pose proof (readDataspaceMsg_reads_the_dimensions
                Sample.IO_CACHE_L1_LINESIZE Sample.IO_CACHE_L1_MASK
                Sample.IO_CACHE_L2_MASK
                Sample.fseek_ok (Sample.fread Sample.contents) Sample.rangeGet false
                Sample.IO_DEFAULT_HINT Sample.MAX_NDIMS Sample.contents FILE true
                ltac:(by_evaluation) (sample_backend_reads_resource _ _ _)
                Sample.meta8 72 Sample.st0 _ _ _
                (coherent_new Sample.IO_CACHE_L1_MASK Sample.IO_CACHE_L2_MASK 2 2
                              Sample.contents)
                ltac:(lia) ltac:(by_evaluation) Hrun) as H.
  cbv zeta in H. destruct H as (_ & _ & Hdims & _).
  exact (Hdims 1 ltac:(by_evaluation)).
Defined.

(** X13.  What a fill value message that [readFillValueMsg] accepts
    gives.  When the message defines a fill value of a positive size,
    the size is 1, 2, 4 or 8, the 8 bytes kept for the fill value begin
    with the [fillsize] bytes the resource holds at offset 8 of the
    message, so the fill loop of [readDataset] never reads past them,
    and 8 + [fillsize] bytes are counted; a size of 0 or less leaves the
    fill bytes alone; a message that defines no fill value changes
    nothing of the metadata.  With error checking the version is 2. *)
Theorem readFillValueMsg_keeps_the_fill_bytes_of_the_resource :
  forall IO_CACHE_L1_LINESIZE IO_CACHE_L1_MASK IO_CACHE_L2_MASK
         fseek_ok fread rangeGet aws IO_DEFAULT_HINT
         contents ioDriver errorChecking verbose,
    zlen contents < 2 ^ 63 ->
    reads_resource fseek_ok fread rangeGet aws contents ioDriver ->
    forall metaData pos st metaData' bytes_read st',
      coherent contents st.(ioContext) ->
      0 <= pos < 2 ^ 62 ->
      readFillValueMsg IO_CACHE_L1_LINESIZE IO_CACHE_L1_MASK IO_CACHE_L2_MASK
                       fseek_ok fread rangeGet aws IO_DEFAULT_HINT
                       ioDriver errorChecking verbose metaData pos st
        = (Ok (metaData', bytes_read), st') ->
      let version := le_value (bytes_at contents pos 1) in
      let defined := le_value (bytes_at contents (pos + 3) 1) in
      let fillsize := s32 (le_value (bytes_at contents (pos + 4) 4)) in
      (errorChecking = true -> version = 2) /\
      (defined = 0 -> metaData' = metaData /\ bytes_read = 4) /\
      (defined <> 0 ->
       meta_entry_t.fillsize metaData' = fillsize /\
       (fillsize <= 0 ->
        meta_entry_t.fill metaData' = meta_entry_t.fill metaData /\
        bytes_read = 8) /\
       (0 < fillsize ->
        (fillsize = 1 \/ fillsize = 2 \/ fillsize = 4 \/ fillsize = 8) /\
        zlen (meta_entry_t.fill metaData') = 8 /\
        bytes_at (meta_entry_t.fill metaData') 0 fillsize
        = bytes_at contents (pos + 8) fillsize /\
        pos + 8 + fillsize <= zlen contents /\
        bytes_read = 8 + fillsize)) /\
      coherent contents st'.(ioContext).
Proof.
  intros L1 M1 M2 fseek_ok fread rangeGet aws hint contents ioDriver
         errorChecking verbose Hfit Hbackend metaData pos st metaData' bytes_read st'
         Hcoh Hpos Hrun.
  exact (readFillValueMsg_spec L1 M1 M2 fseek_ok fread rangeGet aws hint
           contents ioDriver errorChecking verbose Hfit Hbackend
           metaData pos st metaData' bytes_read st' Hcoh Hpos Hrun).
Qed.

(** The fill value message of the sample resource: a fill value of the
    4 bytes aa bb cc dd. *)
Lemma readFillValueMsg_keeps_the_fill_bytes_of_the_resource_witness :
  exists metaData' st',
    Sample.readFillValueMsg Sample.meta8 96 Sample.st0
      = (Ok (metaData', 12), st') /\
    meta_entry_t.fillsize metaData' = 4 /\
    bytes_at (meta_entry_t.fill metaData') 0 4
    = [Byte.xaa; Byte.xbb; Byte.xcc; Byte.xdd].
Proof.
  eexists. eexists.
  assert (Hrun : Sample.readFillValueMsg Sample.meta8 96 Sample.st0
                 = (Ok (_, 12), _)) by (vm_compute; reflexivity).
  split; [exact Hrun|]. split; [reflexivity|].
  pose proof (readFillValueMsg_keeps_the_fill_bytes_of_the_resource
                Sample.IO_CACHE_L1_LINESIZE Sample.IO_CACHE_L1_MASK
                Sample.IO_CACHE_L2_MASK
                Sample.fseek_ok (Sample.fread Sample.contents) Sample.rangeGet false
                Sample.IO_DEFAULT_HINT Sample.contents FILE true false
                ltac:(by_evaluation) (sample_backend_reads_resource _ _ _)
                Sample.meta8 96 Sample.st0 _ _ _
                (coherent_new Sample.IO_CACHE_L1_MASK Sample.IO_CACHE_L2_MASK 2 2
                              Sample.contents)
                ltac:(lia) Hrun) as H.
  cbv zeta in H. destruct H as (_ & _ & Hdefined & _).
  destruct (Hdefined ltac:(by_evaluation)) as (_ & _ & Hfill).
  destruct (Hfill ltac:(by_evaluation)) as (_ & _ & Hbytes & _).
  exact Hbytes.
Defined.

(** ** Reading a contiguous dataset *)

Lemma copy_into_length dst off src soff n r :
  copy_into dst off src soff n = Ok r -> zlen r = zlen dst.
Proof.
  unfold copy_into.
  destruct (Z.leb_spec 0 off); [|discriminate].
  destruct (Z.leb_spec 0 soff); [|discriminate].
  destruct (Z.leb_spec 0 n); [|discriminate].
  destruct (Z.leb_spec (off + n) (zlen dst)); [|discriminate].
  destruct (Z.leb_spec (soff + n) (zlen src)); [|discriminate].
  simpl. intros Hr.
  destruct (copy_into_spec dst off src soff n) as (r' & Hcopy & Hlen & _); try lia.
  unfold copy_into in Hcopy.
  destruct (Z.leb_spec 0 off); [|lia].
  destruct (Z.leb_spec 0 soff); [|lia].
  destruct (Z.leb_spec 0 n); [|lia].
  destruct (Z.leb_spec (off + n) (zlen dst)); [|lia].
  destruct (Z.leb_spec (soff + n) (zlen src)); [|lia].
  simpl in Hcopy. congruence.
Qed.

Lemma fill_loop_length fill fillsize (count : nat) : forall i buffer b,
  fill_loop count i fill fillsize buffer = Ok b -> zlen b = zlen buffer.
Proof.
  induction count as [|count IH]; intros i buffer b H.
  - simpl in H. congruence.
  - cbn [fill_loop] in H.
    destruct (copy_into buffer i fill 0 fillsize) as [b1| |] eqn:Hcopy;
      simpl in H; try discriminate.
    apply IH in H. apply copy_into_length in Hcopy. congruence.
Qed.

Lemma fill_buffer_length metaData buffer_size buffer b :
  fill_buffer metaData buffer_size buffer = Ok b -> zlen b = zlen buffer.
Proof.
  unfold fill_buffer. destruct (_ >? 0).
  - apply fill_loop_length.
  - congruence.
Qed.

(** A copy over a whole buffer leaves the bytes copied. *)
Lemma copy_into_whole (dst src : buffer_t) soff n r :
  zlen dst = n ->
  copy_into dst 0 src soff n = Ok r -> r = bytes_at src soff n.
Proof.
  intros Hlen. unfold copy_into.
  destruct (_ && _); [|discriminate].
  intros [= <-]. simpl.
  rewrite (skipn_all2 dst) by (unfold zlen in Hlen; lia).
  now rewrite app_nil_r.
Qed.

Lemma readDataset_rows_buffer metaData startrow numrows rows b :
  readDataset_rows metaData startrow numrows = Ok rows ->
  rs_buffer rows = Some b ->
  0 < rs_buffer_size rows /\
  b = new_uint8 (rs_buffer_size rows) /\
  rs_row_size rows = row_size_of metaData.
Proof.
  unfold readDataset_rows.
  destruct (_ <=? 0); [discriminate|].
  destruct (_ >? first_dimension_of metaData); [discriminate|].
  intros [= <-]. simpl.
  destruct (Z.gtb_spec (s64 (row_size_of metaData
                             * (if numrows =? ALL_ROWS
                                then s64 (first_dimension_of metaData)
                                else numrows))) 0); [|discriminate].
  intros [= <-]. repeat split. lia.
Qed.

(** X14.  A compact or contiguous dataset is read as it is stored.
    Over a backend that reads the resource and from a coherent context,
    a [readDataset] that returns data returns exactly the [datasize]
    bytes the resource holds from the dataset's address plus [startrow]
    rows on, and they lie inside the resource. *)
Theorem readDataset_returns_the_stored_rows :
  forall IO_CACHE_L1_LINESIZE IO_CACHE_L1_MASK IO_CACHE_L2_MASK
         fseek_ok fread rangeGet aws IO_DEFAULT_HINT readBTreeV1
         contents ioDriver errorChecking,
    zlen contents < 2 ^ 63 ->
    reads_resource fseek_ok fread rangeGet aws contents ioDriver ->
    forall metaData datasetStartRow datasetNumRows st info st' data,
      let data_addr :=
        u64 (meta_entry_t.address metaData
             + u64 (row_size_of metaData * datasetStartRow)) in
      coherent contents st.(ioContext) ->
      meta_entry_t.layout metaData = CONTIGUOUS_LAYOUT \/
      meta_entry_t.layout metaData = COMPACT_LAYOUT ->
      readDataset IO_CACHE_L1_LINESIZE IO_CACHE_L1_MASK IO_CACHE_L2_MASK
                  fseek_ok fread rangeGet aws IO_DEFAULT_HINT readBTreeV1
                  ioDriver errorChecking metaData datasetStartRow datasetNumRows st
        = (Ok info, st') ->
      dataset_info_t.data info = Some data ->
      data_addr + dataset_info_t.datasize info < 2 ^ 64 ->
      data = bytes_at contents data_addr (dataset_info_t.datasize info) /\
      zlen data = dataset_info_t.datasize info /\
      data_addr + dataset_info_t.datasize info <= zlen contents /\
      coherent contents st'.(ioContext).
Proof.
  intros L1 M1 M2 fseek_ok fread rangeGet aws hint readBTreeV1 contents ioDriver
         errorChecking Hfit Hbackend metaData startrow numrows st info st' data
         data_addr Hcoh Hlayout Hrun Hdata Hend.
  unfold readDataset, bindM, lift, ret in Hrun.
  destruct (readDataset_rows metaData startrow numrows) as [rows| |] eqn:Hrows;
    simpl in Hrun; try discriminate.
  destruct (rs_buffer rows) as [b|] eqn:Hb.
  - destruct (readDataset_rows_buffer _ _ _ _ _ Hrows Hb) as (Hsize & -> & Hrow).
    destruct (fill_buffer metaData (rs_buffer_size rows) _) as [b'| |] eqn:Hfill;
      simpl in Hrun; try discriminate.
    apply fill_buffer_length in Hfill.
    rewrite new_uint8_length in Hfill by lia.
    destruct (if errorChecking then _ else _) as [[]| |]; simpl in Hrun;
      try discriminate.
    unfold readDataset_layout, bindM, lift, ret in Hrun.
    rewrite Hrow in Hrun. fold data_addr in Hrun.
    assert (Hreq :
              exists reply st1 out,
                ioRequest L1 M1 M2 fseek_ok fread rangeGet aws ioDriver
                          (rs_buffer_size rows) data_addr hint st
                = (Ok reply, st1) /\
                copy_into b' 0 (rp_buffer reply) (rp_offset reply)
                          (rs_buffer_size rows) = Ok out /\
                info = dataset_info_t.mk
                         (Z.quot (rs_buffer_size rows) (meta_entry_t.typesize metaData))
                         (meta_entry_t.typesize metaData)
                         (rs_buffer_size rows) (Some out)
                         (valType_of (meta_entry_t.type metaData))
                         (rs_numrows rows) (numcols_of metaData) /\
                st' = st1).
    { destruct Hlayout as [Hl|Hl]; rewrite Hl in Hrun;
        destruct (ioRequest L1 M1 M2 fseek_ok fread rangeGet aws ioDriver
                            (rs_buffer_size rows) data_addr hint st)
          as [[reply| |] st1]; simpl in Hrun; try discriminate;
        destruct (copy_into b' 0 (rp_buffer reply) (rp_offset reply)
                            (rs_buffer_size rows)) as [out| |] eqn:Hcopy;
        simpl in Hrun; try discriminate;
        injection Hrun as <- <-; exists reply, st1, out;
        (split; [reflexivity|split; [exact Hcopy|split; reflexivity]]). }
    destruct Hreq as (reply & st1 & out & Hreq & Hcopy & -> & ->).
    simpl in Hdata, Hend |- *. injection Hdata as <-.
    assert (Hpos : 0 <= data_addr).
    { pose proof (u64_range (meta_entry_t.address metaData
                             + u64 (row_size_of metaData * startrow))) as Hr.
      unfold in_u64 in Hr. unfold data_addr. lia. }
    destruct (ioRequest_serves L1 M1 M2 fseek_ok fread rangeGet aws contents ioDriver
                Hfit Hbackend (rs_buffer_size rows) data_addr hint st reply st1
                Hcoh ltac:(lia) Hpos Hend Hreq)
      as (Hbytes & Hin & _ & Hcoh1).
    apply copy_into_whole in Hcopy; [|exact Hfill].
    unfold pointee in Hbytes.
    destruct (_ && _); [|discriminate].
    injection Hbytes as Hbytes. rewrite Hbytes in Hcopy. subst out.
    specialize (Hin Hsize).
    split; [reflexivity|]. split; [apply bytes_at_length; lia|].
    split; [exact Hin|exact Hcoh1].
  - simpl in Hrun.
    destruct (if errorChecking then _ else _) as [[]| |]; simpl in Hrun;
      try discriminate.
    injection Hrun as <- <-. simpl in Hdata. discriminate.
Qed.

(** The second row of the 2 x 2 grid stored at 112: the 8 bytes at 120. *)
Lemma readDataset_returns_the_stored_rows_witness :
  exists info,
    Sample.readDataset Sample.meta_grid 1 1 Sample.st0
    = (Ok info, snd (Sample.readDataset Sample.meta_grid 1 1 Sample.st0)) /\
    dataset_info_t.data info = Some (bytes_at Sample.contents 120 8) /\
    120 + 8 <= zlen Sample.contents.
Proof.
  eexists.
  assert (Hrun : Sample.readDataset Sample.meta_grid 1 1 Sample.st0
                 = (Ok _, snd (Sample.readDataset Sample.meta_grid 1 1 Sample.st0)))
    by (vm_compute; reflexivity).
  split; [exact Hrun|].
  destruct (readDataset_returns_the_stored_rows
              Sample.IO_CACHE_L1_LINESIZE Sample.IO_CACHE_L1_MASK
              Sample.IO_CACHE_L2_MASK
              Sample.fseek_ok (Sample.fread Sample.contents) Sample.rangeGet false
              Sample.IO_DEFAULT_HINT Demo.readBTreeV1 Sample.contents FILE true
              ltac:(by_evaluation) (sample_backend_reads_resource _ _ _)
              Sample.meta_grid 1 1 Sample.st0 _ _ _
              ltac:(split; intros k e [])
              (or_introl eq_refl) Hrun eq_refl ltac:(by_evaluation))
    as (Hdata & _ & Hin & _).
  split; [exact (f_equal Some Hdata)|exact Hin].
Defined.

(** ** Keys of the chunk B-tree *)

(** X15.  What [readBTreeNodeV1] returns for a key of [ndims] dimensions
    within [MAX_NDIMS].  The chunk size and the filter mask are the two
    4-byte little-endian fields at the position, slice [d] is the 8-byte
    field at offset [8 + 8 * d], the row key is slice 0, and the position
    is advanced over the [16 + 8 * ndims] bytes of the key, which lie
    inside the resource.  With error checking the field after the slices
    is accepted when it is a multiple of the type size, zero or not. *)
Theorem readBTreeNodeV1_reads_a_chunk_key :
  forall IO_CACHE_L1_LINESIZE IO_CACHE_L1_MASK IO_CACHE_L2_MASK
         fseek_ok fread rangeGet aws IO_DEFAULT_HINT MAX_NDIMS
         contents ioDriver errorChecking,
    zlen contents < 2 ^ 63 ->
    reads_resource fseek_ok fread rangeGet aws contents ioDriver ->
    forall metaData ndims pos st node pos' st',
      coherent contents st.(ioContext) ->
      0 <= pos < 2 ^ 62 ->
      0 <= ndims <= MAX_NDIMS ->
      ndims < 2 ^ 31 ->
      readBTreeNodeV1 IO_CACHE_L1_LINESIZE IO_CACHE_L1_MASK IO_CACHE_L2_MASK
                      fseek_ok fread rangeGet aws IO_DEFAULT_HINT MAX_NDIMS
                      ioDriver errorChecking metaData ndims pos st
        = (Ok (node, pos'), st') ->
      chunk_size node = le_value (bytes_at contents pos 4) /\
      filter_mask node = le_value (bytes_at contents (pos + 4) 4) /\
      (forall d, 0 <= d < ndims ->
                 nth (Z.to_nat d) (slice node) 0
                 = le_value (bytes_at contents (pos + 8 + 8 * d) 8)) /\
      (0 < ndims -> row_key node = le_value (bytes_at contents (pos + 8) 8)) /\
      (errorChecking = true ->
       le_value (bytes_at contents (pos + 8 + 8 * ndims) 8)
         mod u64 (meta_entry_t.typesize metaData) = 0) /\
      pos' = pos + 16 + 8 * ndims /\
      pos' <= zlen contents /\
      coherent contents st'.(ioContext).
Proof.
  intros L1 M1 M2 fseek_ok fread rangeGet aws hint max_ndims contents ioDriver
         errorChecking Hfit Hbackend metaData ndims pos st node pos' st'
         Hcoh Hpos Hndims Hint H.
  unfold readBTreeNodeV1 in H.
  bind_step H cs stc Hcs. destruct cs as [cs p1].
  apply (readField_run _ _ _ _ _ _ _ _ contents _ Hfit Hbackend) in Hcs;
    [|exact Hcoh|lia|lia].
  destruct Hcs as (_ & Hcs & Hcsb & -> & _ & Hcoh1).
  cbn [fst snd] in H.
  bind_step H fm stf Hfm. destruct fm as [fm p2].
  apply (readField_run _ _ _ _ _ _ _ _ contents _ Hfit Hbackend) in Hfm;
    [|exact Hcoh1|lia|lia].
  destruct Hfm as (_ & Hfm & Hfmb & -> & _ & Hcoh2).
  cbn [fst snd] in H.
  bind_step H sl sts Hsl. destruct sl as [sl p3].
  rewrite Z.min_l in Hsl by lia.
  apply (read_fields_run _ _ _ _ _ _ _ _ contents _ Hfit Hbackend) in Hsl;
    [|exact Hcoh2|lia|lia|rewrite Z2Nat.id by lia; lia].
  rewrite Z2Nat.id in Hsl by lia.
  destruct Hsl as (Hlen & _ & -> & Hnth & _ & Hcoh3).
  cbn [fst snd] in H.
  destruct (Z.gtb_spec ndims max_ndims) as [Hgt|_]; [lia|].
  bind_step H tz stt Htz. destruct tz as [tz p4].
  apply (readField_run _ _ _ _ _ _ _ _ contents _ Hfit Hbackend) in Htz;
    [|exact Hcoh3|lia|lia].
  destruct Htz as (_ & Htz & _ & -> & Hend & Hcoh4).
  cbn [fst snd] in H.
  bind_step H u stu Hu.
  apply ret_ok in H. destruct H as [[= <- <-] <-].
  assert (Hslices :
            forall d, 0 <= d < ndims ->
                      nth (Z.to_nat d) sl 0
                      = le_value (bytes_at contents (pos + 8 + 8 * d) 8)).
  { intros d Hd. rewrite (Hnth (Z.to_nat d)) by lia.
    rewrite Z2Nat.id by lia. f_equal. f_equal. lia. }
  cbn [chunk_size filter_mask slice row_key].
  split; [unfold u32; rewrite Z.mod_small by (change (8 * 4) with 32 in Hcsb; lia);
          exact Hcs|].
  split; [unfold u32; rewrite Z.mod_small by (change (8 * 4) with 32 in Hfmb; lia);
          exact Hfm|].
  split; [exact Hslices|].
  split; [intros H0; change (nth 0 sl 0) with (nth (Z.to_nat 0) sl 0);
          rewrite (Hslices 0) by lia; f_equal; f_equal; lia|].
  split.
  - intros ->.
    destruct (u64 (meta_entry_t.typesize metaData) =? 0);
      [exfalso; exact (lift_undefined_not_ok _ _ _ Hu)|].
    destruct (Z.eqb_spec (tz mod u64 (meta_entry_t.typesize metaData)) 0) as [Hz|Hz];
      cbn [negb] in Hu; [|exfalso; exact (throw_not_ok _ _ _ _ Hu)].
    rewrite <- Hz, Htz. f_equal. f_equal. f_equal. lia.
  - assert (Hstu : coherent contents (ioContext stu)).
    { destruct errorChecking.
      - destruct (u64 (meta_entry_t.typesize metaData) =? 0);
          [exfalso; exact (lift_undefined_not_ok _ _ _ Hu)|].
        destruct (negb _); [exfalso; exact (throw_not_ok _ _ _ _ Hu)|].
        apply ret_ok in Hu. destruct Hu as [_ <-]. exact Hcoh4.
      - apply ret_ok in Hu. destruct Hu as [_ <-]. exact Hcoh4. }
    split; [lia|]. split; [lia|exact Hstu].
Qed.

(** The key of the sample resource, read with two dimensions. *)
Lemma readBTreeNodeV1_reads_a_chunk_key_witness :
  exists node st',
    Sample.readBTreeNodeV1 Sample.meta_grid 2 0 Sample.st0 = (Ok (node, 32), st') /\
    chunk_size node = 16 /\ row_key node = 2 /\ slice node = [2; 0] /\
    32 <= zlen Sample.key_bytes.
Proof.
  eexists. eexists.
  assert (Hrun : Sample.readBTreeNodeV1 Sample.meta_grid 2 0 Sample.st0
                 = (Ok (_, 32), _)) by (vm_compute; reflexivity).
  split; [exact Hrun|]. split; [reflexivity|]. split; [reflexivity|].
  split; [reflexivity|].
  exact (proj1 (proj2 (proj2 (proj2 (proj2 (proj2 (proj2
           (readBTreeNodeV1_reads_a_chunk_key
              Sample.IO_CACHE_L1_LINESIZE Sample.IO_CACHE_L1_MASK
              Sample.IO_CACHE_L2_MASK
              Sample.fseek_ok (Sample.fread Sample.key_bytes) Sample.rangeGet false
              Sample.IO_DEFAULT_HINT Sample.MAX_NDIMS Sample.key_bytes FILE true
              ltac:(by_evaluation) (sample_backend_reads_resource _ _ _)
              Sample.meta_grid 2 0 Sample.st0 _ _ _
              ltac:(split; intros k e [])
              ltac:(lia) ltac:(unfold Sample.MAX_NDIMS; lia) ltac:(lia)
              Hrun)))))))).
Defined.

(** ** Byte arrays *)

(** X16.  [readByteArray] copies the resource.  Over a backend that
    reads the resource and from a coherent context, a call that returns
    has copied to [data] exactly the [size] bytes the resource holds at
    [pos], cached or not, and advanced the position by [size]; a call
    for at least one byte does not return for a range that runs past the
    end of the resource. *)
Theorem readByteArray_copies_the_bytes_of_the_resource :
  forall IO_CACHE_L1_LINESIZE IO_CACHE_L1_MASK IO_CACHE_L2_MASK
         fseek_ok fread rangeGet aws IO_DEFAULT_HINT contents ioDriver,
    zlen contents < 2 ^ 63 ->
    reads_resource fseek_ok fread rangeGet aws contents ioDriver ->
    forall size pos st data pos' st',
      coherent contents st.(ioContext) ->
      0 <= size -> 0 <= pos -> pos + size < 2 ^ 64 ->
      readByteArray IO_CACHE_L1_LINESIZE IO_CACHE_L1_MASK IO_CACHE_L2_MASK
                    fseek_ok fread rangeGet aws IO_DEFAULT_HINT ioDriver size pos st
        = (Ok (data, pos'), st') ->
      data = bytes_at contents pos size /\
      zlen data = size /\
      pos' = pos + size /\
      (0 < size -> pos + size <= zlen contents) /\
      coherent contents st'.(ioContext).
Proof.
  intros L1 M1 M2 fseek_ok fread rangeGet aws hint contents ioDriver Hfit Hbackend
         size pos st data pos' st' Hcoh Hsize Hpos Hend Hrun.
  destruct (readByteArray_spec L1 M1 M2 fseek_ok fread rangeGet aws hint contents
              ioDriver Hfit Hbackend size pos st data pos' st'
              Hcoh Hsize Hpos Hend Hrun) as (Hdata & Hnext & Hin & Hcoh').
  split; [exact Hdata|]. split; [|split; [exact Hnext|split; [exact Hin|exact Hcoh']]].
  destruct (Z.eq_dec size 0) as [->|Hnz].
  - rewrite Hdata. reflexivity.
  - rewrite Hdata. apply bytes_at_length; lia.
Qed.

(** The four bytes of the fill value of the sample resource, at 104. *)
Lemma readByteArray_copies_the_bytes_of_the_resource_witness :
  exists st',
    Sample.readByteArray 4 104 Sample.st0
    = (Ok ([Byte.xaa; Byte.xbb; Byte.xcc; Byte.xdd], 108), st') /\
    [Byte.xaa; Byte.xbb; Byte.xcc; Byte.xdd] = bytes_at Sample.contents 104 4.
Proof.
  eexists.
  assert (Hrun : Sample.readByteArray 4 104 Sample.st0
                 = (Ok ([Byte.xaa; Byte.xbb; Byte.xcc; Byte.xdd], 108), _))
    by (vm_compute; reflexivity).
  split; [exact Hrun|].
  exact (proj1 (readByteArray_copies_the_bytes_of_the_resource
           Sample.IO_CACHE_L1_LINESIZE Sample.IO_CACHE_L1_MASK Sample.IO_CACHE_L2_MASK
           Sample.fseek_ok (Sample.fread Sample.contents) Sample.rangeGet false
           Sample.IO_DEFAULT_HINT Sample.contents FILE
           ltac:(by_evaluation) (sample_backend_reads_resource _ _ _)
           4 104 Sample.st0 _ _ _
           (coherent_new Sample.IO_CACHE_L1_MASK Sample.IO_CACHE_L2_MASK 2 2
                         Sample.contents)
           ltac:(lia) ltac:(lia) ltac:(lia) Hrun)).
Defined.
